(** * OmniAI backend: session, title and group-chat bookkeeping

    A shallow embedding of the session handlers of the backend
    (routes/chat_routes.py, routes/temp_chat_routes.py,
    services/group_chat_service.py with routes/group_chat_routes.py,
    services/global_language_service.py with its routes, and the parts of
    services/openai_service.py they call), followed by the properties of
    the specification that concern them.

    The handlers are Python coroutines that talk to a document database and
    to a language-model API.  They are embedded in a state-and-exception
    monad over a [World] that holds the database collections, the in-memory
    table of temporary sessions and a log of every upstream call.  What the
    outside answers (the identifiers drawn by uuid4, the clock, the replies
    of the API, the faults of the database) is fixed by an environment
    [Env]; every theorem quantifies over it.

    Requests are handled one at a time: the interleaving of coroutines is
    not modelled.  A reply of the API, when one comes back, carries a
    text. *)

From Stdlib Require Import Ascii String.
From stdpp Require Import base option list gmap strings pretty sorting.

Local Open Scope nat_scope.

(** ** Python strings

    A [str] is modelled by a [string] whose characters are code points
    below 256; [len] is [String.length]. *)

Module pystr.

(** [str.isspace] on one character, on the code points below 256: the
    controls 9-13 and 28-31, the space, NEL (133) and NBSP (160). *)
Definition isspace (c : ascii) : bool :=
  let n := nat_of_ascii c in
  ((9 <=? n) && (n <=? 13)) || ((28 <=? n) && (n <=? 32)) || (n =? 133) || (n =? 160).

Definition dquote : ascii := "034"%char.
Definition squote : ascii := "039"%char.
Definition newline : ascii := "010"%char.

(** [s.lstrip(chars)], the set of characters given as a predicate. *)
Fixpoint lstrip (p : ascii -> bool) (s : string) : string :=
  match s with
  | EmptyString => EmptyString
  | String c s' => if p c then lstrip p s' else s
  end.

(** [s.rstrip(chars)]. *)
Fixpoint rstrip (p : ascii -> bool) (s : string) : string :=
  match s with
  | EmptyString => EmptyString
  | String c s' =>
      match rstrip p s' with
      | EmptyString => if p c then EmptyString else String c EmptyString
      | r => String c r
      end
  end.

(** [s.strip(chars)] and [s.strip()]. *)
Definition strip_chars (p : ascii -> bool) (s : string) : string :=
  rstrip p (lstrip p s).

Definition strip (s : string) : string := strip_chars isspace s.

(** [s[:n]]. *)
Fixpoint slice_to (n : nat) (s : string) : string :=
  match n, s with
  | S n', String c s' => String c (slice_to n' s')
  | _, _ => EmptyString
  end.

(** Truth value of a string: [if s:] holds when [s] is not empty. *)
Definition truthy (s : string) : bool :=
  match s with EmptyString => false | _ => true end.

(** [s.startswith(p)]. *)
Fixpoint startswith (p s : string) : bool :=
  match p, s with
  | EmptyString, _ => true
  | String a p', String b s' => Ascii.eqb a b && startswith p' s'
  | String _ _, EmptyString => false
  end.

(** [a or b] on strings. *)
Definition or_else (a b : string) : string := if truthy a then a else b.

(** [c in s] for one character. *)
Fixpoint contains (c : ascii) (s : string) : bool :=
  match s with
  | EmptyString => false
  | String a s' => Ascii.eqb a c || contains c s'
  end.

(** [s.split(sep)] for a separator of one character: the pieces between
    the separators, never an empty list. *)
Fixpoint split (sep : ascii) (s : string) : list string :=
  match s with
  | EmptyString => [EmptyString]
  | String a s' =>
      if Ascii.eqb a sep then EmptyString :: split sep s'
      else match split sep s' with
           | p :: ps => String a p :: ps
           | [] => [String a EmptyString]
           end
  end.

Definition comma : ascii := "044"%char.

End pystr.

(** ** Data model (models/responses.py, models/group_chat.py,
       models/global_language.py) *)

(** A Python [datetime], counted in microseconds.  The database holds
    BSON dates, which count milliseconds: the driver cuts the microseconds
    of a date on the way in and hands back a datetime of whole
    milliseconds.  In a stored document, a date field therefore holds a
    number of milliseconds. *)
Definition datetime := nat.

Definition bson_of_datetime (t : datetime) : nat := t / 1000.

Definition datetime_of_bson (ms : nat) : datetime := ms * 1000.

(** A datetime as it comes back from the database. *)
Definition bson_cut (t : datetime) : datetime :=
  datetime_of_bson (bson_of_datetime t).

Arguments bson_of_datetime : simpl never.
Arguments datetime_of_bson : simpl never.
Arguments bson_cut : simpl never.

Inductive Role := user | assistant | system.

Inductive ContentType := text | image_url.

(** An [image_url] dict is [{"url": u}]; it is kept as [u]. *)
Record MessageContent := {
  mc_type : ContentType;
  mc_text : option string;
  mc_image_url : option string
}.

(** [content: str | List[MessageContent]]. *)
Inductive Content :=
| ContentStr (s : string)
| ContentList (items : list MessageContent).

Record Message := {
  role : Role;
  content : Content;
  timestamp : datetime
}.

Record ChatSession := {
  session_id : string;
  user_id : string;
  title : string;
  messages : list Message;
  created_at : datetime;
  updated_at : datetime
}.

(** The date fields of a document, mapped by [f] (the conversion to or
    from BSON). *)
Definition Message_dates (f : nat -> nat) (m : Message) : Message :=
  {| role := role m; content := content m; timestamp := f (timestamp m) |}.

Definition ChatSession_dates (f : nat -> nat) (s : ChatSession) : ChatSession :=
  {| session_id := session_id s; user_id := user_id s; title := title s;
     messages := map (Message_dates f) (messages s);
     created_at := f (created_at s); updated_at := f (updated_at s) |}.

Record SessionCreateResponse := {
  scr_session_id : string;
  scr_user_id : string;
  scr_title : string;
  scr_message : string;
  scr_created_at : datetime
}.

Record ChatResponse := {
  cr_session_id : string;
  cr_title : string;
  cr_message : string;
  cr_timestamp : datetime
}.

Record SessionHistoryResponse := {
  shr_session_id : string;
  shr_user_id : string;
  shr_title : string;
  shr_messages : list Message;
  shr_created_at : datetime;
  shr_updated_at : datetime
}.

(** One entry of the list of sessions, and the dict returned by the list
    route. *)
Record SessionSummary := {
  ss_session_id : string;
  ss_title : string;
  ss_message_count : nat;
  ss_created_at : datetime;
  ss_updated_at : datetime
}.

Record SessionListResponse := {
  slr_user_id : string;
  total_sessions : nat;
  slr_sessions : list SessionSummary
}.

(** The dict returned by the transcription route. *)
Record TranscribeResponse := {
  tr_text : string;
  tr_filename : option string;
  tr_success : bool
}.

(** The dict returned by the delete routes. *)
Record DeleteResponse := {
  dr_message : string;
  dr_id : string
}.

Inductive GroupType := STUDENT | BUSINESS | GENERAL.

(** [GroupType.value]. *)
Definition GroupType_value (t : GroupType) : string :=
  match t with
  | STUDENT => "student"
  | BUSINESS => "business"
  | GENERAL => "general"
  end.

Record GroupMessage := {
  message_id : string;
  gm_user_id : string;
  gm_content : string;
  gm_timestamp : datetime;
  is_ai : bool
}.

Record Group := {
  group_id : string;
  name : string;
  type : GroupType;
  creator_id : string;
  members : list string;
  g_created_at : datetime;
  g_messages : list GroupMessage
}.

Record GroupChatSession := {
  gcs_session_id : string;
  gcs_user_id : string;
  gcs_created_at : datetime
}.

Definition GroupMessage_dates (f : nat -> nat) (m : GroupMessage) : GroupMessage :=
  {| message_id := message_id m; gm_user_id := gm_user_id m;
     gm_content := gm_content m; gm_timestamp := f (gm_timestamp m);
     is_ai := is_ai m |}.

Definition Group_dates (f : nat -> nat) (g : Group) : Group :=
  {| group_id := group_id g; name := name g; type := type g;
     creator_id := creator_id g; members := members g;
     g_created_at := f (g_created_at g);
     g_messages := map (GroupMessage_dates f) (g_messages g) |}.

Definition GroupChatSession_dates (f : nat -> nat) (s : GroupChatSession)
    : GroupChatSession :=
  {| gcs_session_id := gcs_session_id s; gcs_user_id := gcs_user_id s;
     gcs_created_at := f (gcs_created_at s) |}.

Record GroupResponse := {
  gr_group_id : string;
  gr_name : string;
  gr_type : GroupType;
  member_count : nat;
  gr_message : string
}.

Record SessionResponse := {
  sr_session_id : string;
  sr_user_id : string;
  sr_message : string
}.

Inductive InteractionType := CHAT | VOICE.

Record Interaction := {
  interaction_id : string;
  i_type : InteractionType;
  user_input : string;
  ai_response : string;
  target_language : string;
  audio_url : option string;
  i_timestamp : datetime
}.

Record GlobalSession := {
  gs_session_id : string;
  gs_user_id : string;
  gs_created_at : datetime;
  interactions : list Interaction
}.

Definition Interaction_dates (f : nat -> nat) (i : Interaction) : Interaction :=
  {| interaction_id := interaction_id i; i_type := i_type i;
     user_input := user_input i; ai_response := ai_response i;
     target_language := target_language i; audio_url := audio_url i;
     i_timestamp := f (i_timestamp i) |}.

Definition GlobalSession_dates (f : nat -> nat) (s : GlobalSession) : GlobalSession :=
  {| gs_session_id := gs_session_id s; gs_user_id := gs_user_id s;
     gs_created_at := f (gs_created_at s);
     interactions := map (Interaction_dates f) (interactions s) |}.

Record GlobalChatResponse := {
  response_text : string;
  gcr_target_language : string
}.

Record HistoryResponse := {
  hr_session_id : string;
  hr_interactions : list Interaction
}.

(** A multipart form field declared [Union[UploadFile, str, None]]. *)
Record UploadFile := {
  filename : option string;
  content_type : option string;
  file_bytes : string
}.

Inductive FileField :=
| FieldNone
| FieldStr (s : string)
| FieldUpload (f : UploadFile).

(** ** The upstream collaborators *)

(** One element of the [content] list of a multi-modal API message. *)
Inductive ApiPart :=
| PartText (t : option string)
| PartImage (u : option string).

Inductive ApiContent :=
| ApiStr (s : string)
| ApiParts (l : list ApiPart).

Record ApiMessage := {
  am_role : Role;
  am_content : ApiContent
}.

(** The requests sent to the language-model API: the model name, the
    payload and [max_tokens] (the sampling temperature is 0.7 in every
    call and is left out). *)
Inductive ApiRequest :=
| chat_completions_create (model : string) (msgs : list ApiMessage) (max_tokens : nat)
| audio_transcriptions_create (model : string) (fname : string) (data : string).

(** What comes back: the text of the reply
    ([response.choices[0].message.content], [transcript.text]) or an
    exception, given by its text. *)
Inductive ApiReply :=
| Returns (s : string)
| Throws (s : string).

(** The operations sent to the database, by collection name. *)
Inductive DbCall :=
| insert_one_call (coll : string)
| find_one_call (coll : string)
| update_one_call (coll : string)
| delete_one_call (coll : string).

(** The environment: configuration and the answers of the outside.
    - [OPENAI_API_KEY] is the setting of config.py (empty by default);
    - [uuid4 n] is [str(uuid.uuid4())] at the draw number [n];
    - [clock n] is [datetime.utcnow()] at the reading number [n];
    - [openai n r] is the reply to request [r] when [n] requests were
      sent before it;
    - [db_fault n] is the text of the exception the database driver
      throws on the operation number [n], if it throws;
    - [b64encode] is [base64.b64encode(..).decode('utf-8')]. *)
Record Env := {
  OPENAI_API_KEY : string;
  uuid4 : nat -> string;
  clock : nat -> datetime;
  openai : nat -> ApiRequest -> ApiReply;
  db_fault : nat -> option string;
  b64encode : string -> string
}.

(** A collection holds its documents in insertion order.  The position of a
    slot plays the role of the [_id] the database gives a document: it
    never changes, and a deleted document leaves its slot empty.  The
    operations that take a filter act on the first stored document that
    matches it.  The documents are held as the database has them, their
    dates in milliseconds. *)
Abbreviation Collection A := (list (option A)).

Record World := {
  chat_sessions : Collection ChatSession;
  group_chat_sessions : Collection GroupChatSession;
  groups : Collection Group;
  global_language_sessions : Collection GlobalSession;
  TEMP_SESSIONS : gmap string ChatSession;
  uuid_draws : nat;
  clock_reads : nat;
  api_log : list ApiRequest;
  db_log : list DbCall
}.

Definition empty_world : World :=
  {| chat_sessions := []; group_chat_sessions := []; groups := [];
     global_language_sessions := []; TEMP_SESSIONS := ∅;
     uuid_draws := 0; clock_reads := 0; api_log := []; db_log := [] |}.

Definition set_chat_sessions (c : Collection ChatSession) (w : World) : World :=
  {| chat_sessions := c; group_chat_sessions := group_chat_sessions w;
     groups := groups w; global_language_sessions := global_language_sessions w;
     TEMP_SESSIONS := TEMP_SESSIONS w; uuid_draws := uuid_draws w;
     clock_reads := clock_reads w; api_log := api_log w; db_log := db_log w |}.

Definition set_group_chat_sessions (c : Collection GroupChatSession) (w : World) : World :=
  {| chat_sessions := chat_sessions w; group_chat_sessions := c;
     groups := groups w; global_language_sessions := global_language_sessions w;
     TEMP_SESSIONS := TEMP_SESSIONS w; uuid_draws := uuid_draws w;
     clock_reads := clock_reads w; api_log := api_log w; db_log := db_log w |}.

Definition set_groups (c : Collection Group) (w : World) : World :=
  {| chat_sessions := chat_sessions w; group_chat_sessions := group_chat_sessions w;
     groups := c; global_language_sessions := global_language_sessions w;
     TEMP_SESSIONS := TEMP_SESSIONS w; uuid_draws := uuid_draws w;
     clock_reads := clock_reads w; api_log := api_log w; db_log := db_log w |}.

Definition set_global_language_sessions (c : Collection GlobalSession) (w : World) : World :=
  {| chat_sessions := chat_sessions w; group_chat_sessions := group_chat_sessions w;
     groups := groups w; global_language_sessions := c;
     TEMP_SESSIONS := TEMP_SESSIONS w; uuid_draws := uuid_draws w;
     clock_reads := clock_reads w; api_log := api_log w; db_log := db_log w |}.

Definition set_TEMP_SESSIONS (t : gmap string ChatSession) (w : World) : World :=
  {| chat_sessions := chat_sessions w; group_chat_sessions := group_chat_sessions w;
     groups := groups w; global_language_sessions := global_language_sessions w;
     TEMP_SESSIONS := t; uuid_draws := uuid_draws w;
     clock_reads := clock_reads w; api_log := api_log w; db_log := db_log w |}.

Definition set_uuid_draws (n : nat) (w : World) : World :=
  {| chat_sessions := chat_sessions w; group_chat_sessions := group_chat_sessions w;
     groups := groups w; global_language_sessions := global_language_sessions w;
     TEMP_SESSIONS := TEMP_SESSIONS w; uuid_draws := n;
     clock_reads := clock_reads w; api_log := api_log w; db_log := db_log w |}.

Definition set_clock_reads (n : nat) (w : World) : World :=
  {| chat_sessions := chat_sessions w; group_chat_sessions := group_chat_sessions w;
     groups := groups w; global_language_sessions := global_language_sessions w;
     TEMP_SESSIONS := TEMP_SESSIONS w; uuid_draws := uuid_draws w;
     clock_reads := n; api_log := api_log w; db_log := db_log w |}.

Definition set_api_log (l : list ApiRequest) (w : World) : World :=
  {| chat_sessions := chat_sessions w; group_chat_sessions := group_chat_sessions w;
     groups := groups w; global_language_sessions := global_language_sessions w;
     TEMP_SESSIONS := TEMP_SESSIONS w; uuid_draws := uuid_draws w;
     clock_reads := clock_reads w; api_log := l; db_log := db_log w |}.

Definition set_db_log (l : list DbCall) (w : World) : World :=
  {| chat_sessions := chat_sessions w; group_chat_sessions := group_chat_sessions w;
     groups := groups w; global_language_sessions := global_language_sessions w;
     TEMP_SESSIONS := TEMP_SESSIONS w; uuid_draws := uuid_draws w;
     clock_reads := clock_reads w; api_log := api_log w; db_log := l |}.

(** ** Exceptions and the handler monad *)

(** [HTTPException(status_code, detail)], or any other exception, kept by
    its text [str(e)]. *)
Inductive exn :=
| HTTPException (status_code : nat) (detail : string)
| Exception (msg : string).

(** [str(e)]; starlette prints an HTTPException as "status: detail". *)
Definition str_exn (e : exn) : string :=
  match e with
  | HTTPException s d => pretty s +:+ ": " +:+ d
  | Exception m => m
  end.

Inductive outcome (A : Type) :=
| Return (a : A)
| Raise (e : exn).
Arguments Return {A} a.
Arguments Raise {A} e.

Definition M (A : Type) : Type := World -> outcome A * World.

Definition ret {A} (a : A) : M A := fun w => (Return a, w).

Definition raise {A} (e : exn) : M A := fun w => (Raise e, w).

Definition bind {A B} (m : M A) (k : A -> M B) : M B :=
  fun w =>
    match m w with
    | (Return a, w') => k a w'
    | (Raise e, w') => (Raise e, w')
    end.

(** [try: m except Exception as e: h e]. *)
Definition try_except {A} (m : M A) (h : exn -> M A) : M A :=
  fun w =>
    match m w with
    | (Return a, w') => (Return a, w')
    | (Raise e, w') => h e w'
    end.

(** [try: m except HTTPException: raise except Exception as e: h e]. *)
Definition try_except_reraise_http {A} (m : M A) (h : exn -> M A) : M A :=
  try_except m (fun e =>
    match e with
    | HTTPException _ _ => raise e
    | Exception _ => h e
    end).

Declare Scope handler_scope.
Delimit Scope handler_scope with handler.
Notation "x <- m ;; k" := (bind m (fun x => k))
  (at level 100, m at next level, right associativity) : handler_scope.
Notation "m ;;; k" := (bind m (fun _ => k))
  (at level 100, right associativity) : handler_scope.
Local Open Scope handler_scope.

(** [when c m]: [if c: m]. *)
Definition when (c : bool) (m : M unit) : M unit := if c then m else ret tt.

Section Primitives.
Context (env : Env).

(** [str(uuid.uuid4())]. *)
Definition new_uuid : M string :=
  fun w => (Return (uuid4 env (uuid_draws w)), set_uuid_draws (S (uuid_draws w)) w).

(** [datetime.utcnow()]. *)
Definition utcnow : M datetime :=
  fun w => (Return (clock env (clock_reads w)), set_clock_reads (S (clock_reads w)) w).

(** One request to the language-model API: it is logged, then answered. *)
Definition api_call (r : ApiRequest) : M string :=
  fun w =>
    let w' := set_api_log (api_log w ++ [r]) w in
    match openai env (length (api_log w)) r with
    | Returns s => (Return s, w')
    | Throws s => (Raise (Exception s), w')
    end.

(** One operation of the database driver: it is logged; the driver throws,
    or the operation [f] is applied. *)
Definition db_call {A} (c : DbCall) (f : World -> A * World) : M A :=
  fun w =>
    let w' := set_db_log (db_log w ++ [c]) w in
    match db_fault env (length (db_log w)) with
    | Some s => (Raise (Exception s), w')
    | None => let '(a, w'') := f w' in (Return a, w'')
    end.

End Primitives.

(** ** Collections (the driver's find_one, insert_one, update_one,
       delete_one) *)

Section Collections.
Context {A : Type}.

(** Position and document of the first stored document matching the
    filter [p]. *)
Fixpoint find_slot (p : A -> bool) (c : Collection A) : option (nat * A) :=
  match c with
  | [] => None
  | Some d :: c' =>
      if p d then Some (0, d)
      else match find_slot p c' with
           | Some (i, d') => Some (S i, d')
           | None => None
           end
  | None :: c' =>
      match find_slot p c' with
      | Some (i, d') => Some (S i, d')
      | None => None
      end
  end.

Definition coll_find_one (p : A -> bool) (c : Collection A) : option A :=
  snd <$> find_slot p c.

Definition coll_insert_one (d : A) (c : Collection A) : Collection A :=
  c ++ [Some d].

(** [update_one(filter, update, upsert)]: the first match is updated; with
    no match, [upsert] gives the document to insert, if any. *)
Definition coll_update_one (p : A -> bool) (f : A -> A) (upsert : option A)
    (c : Collection A) : Collection A :=
  match find_slot p c with
  | Some (i, d) => <[i := Some (f d)]> c
  | None =>
      match upsert with
      | Some d => coll_insert_one d c
      | None => c
      end
  end.

(** [delete_one(filter)]: the collection and [deleted_count]. *)
Definition coll_delete_one (p : A -> bool) (c : Collection A) : Collection A * nat :=
  match find_slot p c with
  | Some (i, _) => (<[i := None]> c, 1)
  | None => (c, 0)
  end.

(** At most one stored document matches the filter [p]: the key it tests
    is unique in the collection. *)
Definition at_most_one (p : A -> bool) (c : Collection A) : Prop :=
  forall i j d e,
    c !! i = Some (Some d) -> c !! j = Some (Some e) ->
    p d = true -> p e = true -> i = j.

End Collections.

(** A collection of the database, by name, as a part of the world, with
    the map of the date fields of its documents. *)
Record CollRef (A : Type) := {
  coll_name : string;
  coll_get : World -> Collection A;
  coll_set : Collection A -> World -> World;
  coll_dates : (nat -> nat) -> A -> A
}.
Arguments coll_name {A} _.
Arguments coll_get {A} _ _.
Arguments coll_set {A} _ _ _.
Arguments coll_dates {A} _ _ _.

(** The encoding of a document the driver sends, and the decoding of a
    document it receives. *)
Definition to_bson {A} (r : CollRef A) (d : A) : A :=
  coll_dates r bson_of_datetime d.

Definition of_bson {A} (r : CollRef A) (d : A) : A :=
  coll_dates r datetime_of_bson d.

Section Database.
Context (env : Env) {A : Type} (r : CollRef A).

(** [insert_one(doc)]: the document is stored as encoded. *)
Definition insert_one (d : A) : M unit :=
  db_call env (insert_one_call (coll_name r))
    (fun w => (tt, coll_set r (coll_insert_one (to_bson r d) (coll_get r w)) w)).

(** [find_one(filter)]: the first match, decoded. *)
Definition find_one (p : A -> bool) : M (option A) :=
  db_call env (find_one_call (coll_name r))
    (fun w => (of_bson r <$> coll_find_one p (coll_get r w), w)).

(** The stored form of an update that the handler writes as [f] on the
    document as it reads it: what the update sets or pushes is encoded,
    and the rest of the stored document is left as it is. *)
Definition stored_update (f : A -> A) (d : A) : A :=
  to_bson r (f (of_bson r d)).

Definition update_one (p : A -> bool) (f : A -> A) (upsert : option A) : M unit :=
  db_call env (update_one_call (coll_name r))
    (fun w => (tt, coll_set r
                     (coll_update_one p (stored_update f) (to_bson r <$> upsert)
                        (coll_get r w)) w)).

Definition delete_one (p : A -> bool) : M nat :=
  db_call env (delete_one_call (coll_name r))
    (fun w =>
       let '(c, n) := coll_delete_one p (coll_get r w) in
       (n, coll_set r c w)).

End Database.

(** services/database.py: [get_collection()] is "chat_sessions" by
    default, [get_collection_by_name] the others. *)
Definition chat_sessions_coll : CollRef ChatSession :=
  {| coll_name := "chat_sessions"; coll_get := chat_sessions;
     coll_set := set_chat_sessions; coll_dates := ChatSession_dates |}.

Definition group_chat_sessions_coll : CollRef GroupChatSession :=
  {| coll_name := "group_chat_sessions"; coll_get := group_chat_sessions;
     coll_set := set_group_chat_sessions;
     coll_dates := GroupChatSession_dates |}.

Definition groups_coll : CollRef Group :=
  {| coll_name := "groups"; coll_get := groups; coll_set := set_groups;
     coll_dates := Group_dates |}.

Definition global_language_sessions_coll : CollRef GlobalSession :=
  {| coll_name := "global_language_sessions"; coll_get := global_language_sessions;
     coll_set := set_global_language_sessions;
     coll_dates := GlobalSession_dates |}.

(** ** Cursors ([collection.find(filter).sort(key, -1)] read by
       [to_list])

    The documents that match, by decreasing key.  The order of documents
    with the same key is the server's; the model takes the one of a merge
    sort.  The cursor is read by one find command, which is logged like
    the one of [find_one]. *)

Definition coll_find {A} (p : A -> bool) (c : Collection A) : list A :=
  omap (fun slot =>
          match slot with
          | Some d => if p d then Some d else None
          | None => None
          end) c.

Definition desc_by {A} (key : A -> nat) : relation A :=
  fun a b => key b <= key a.

#[global] Instance desc_by_dec {A} (key : A -> nat) (a b : A) :
  Decision (desc_by key a b).
Proof. unfold desc_by. apply _. Defined.

Definition find_sorted_desc (env : Env) {A} (r : CollRef A)
    (p : A -> bool) (key : A -> nat) : M (list A) :=
  db_call env (find_one_call (coll_name r))
    (fun w => (of_bson r <$> merge_sort (desc_by key) (coll_find p (coll_get r w)),
               w)).

(** ** services/openai_service.py *)

Module openai_service.
Section with_env.
Context (env : Env).

Definition api_key_error : string :=
  "OPENAI_API_KEY is not set. Please set it in your .env file or environment variables."
  +:+ String pystr.newline "Get your API key from: https://platform.openai.com/api-keys".

(** [_ensure_async_initialized]: the client is built on first use, from
    the key of the settings; with no key a ValueError is raised.  The
    settings never change, so the call raises exactly when the key is
    empty, and the [_async_initialized] flag is not observable. *)
Definition _ensure_async_initialized : M unit :=
  if pystr.truthy (OPENAI_API_KEY env) then ret tt
  else raise (Exception api_key_error).

(** [chat_completion(messages, temperature, max_tokens, model=None)];
    the model is "gpt-4o". *)
Definition chat_completion (messages : list ApiMessage) (max_tokens : nat) : M string :=
  _ensure_async_initialized ;;;
  try_except
    (api_call env (chat_completions_create "gpt-4o" messages max_tokens))
    (fun e => raise (Exception ("OpenAI API Error: " +:+ str_exn e))).

(** The f-string prompt of [generate_title]. *)
Definition title_prompt (first_message : string) : string :=
  "Generate a very short, descriptive title (2-6 words maximum) for a chat conversation that starts with this message:"
  +:+ String pystr.newline (String pystr.newline
      (String pystr.dquote (first_message +:+ String pystr.dquote
      (String pystr.newline (String pystr.newline
      ("Rules:" +:+ String pystr.newline
      ("- Maximum 6 words" +:+ String pystr.newline
      ("- No punctuation at the end" +:+ String pystr.newline
      ("- Capture the main topic or intent" +:+ String pystr.newline
      ("- Make it conversational and natural" +:+ String pystr.newline
      (String pystr.newline "Title:"))))))))))).

Definition title_system_message : ApiMessage :=
  {| am_role := system;
     am_content := ApiStr "You are a helpful assistant that generates short, descriptive titles for conversations." |}.

Definition title_request (first_message : string) : ApiRequest :=
  chat_completions_create "gpt-3.5-turbo"
    [title_system_message;
     {| am_role := user; am_content := ApiStr (title_prompt first_message) |}]
    20.

(** The fallback of the [except] clause:
    [first_message[:40].strip() + ("..." if len(first_message) > 40 else "")]. *)
Definition title_fallback (first_message : string) : string :=
  pystr.strip (pystr.slice_to 40 first_message)
  +:+ (if 40 <? String.length first_message then "..." else "").

(** The clean-up of a generated title:
    [content.strip()], then the double quotes, the single quotes and the
    white space are stripped from both ends, in this order. *)
Definition unquote_title (reply : string) : string :=
  let title := pystr.strip reply in
  pystr.strip
    (pystr.strip_chars (Ascii.eqb pystr.squote)
       (pystr.strip_chars (Ascii.eqb pystr.dquote) title)).

(** [if len(title) > 50: title = title[:47] + "..."]. *)
Definition clean_title (reply : string) : string :=
  let title := unquote_title reply in
  if 50 <? String.length title then pystr.slice_to 47 title +:+ "..." else title.

Definition generate_title (first_message : string) : M string :=
  _ensure_async_initialized ;;;
  try_except
    (if String.length first_message <=? 40 then ret (pystr.strip first_message)
     else
       reply <- api_call env (title_request first_message) ;;
       ret (clean_title reply))
    (fun _ => ret (title_fallback first_message)).

(** [transcribe_audio(audio_data, filename)]. *)
Definition transcribe_audio (audio_data : string) (fname : string) : M string :=
  _ensure_async_initialized ;;;
  try_except
    (api_call env (audio_transcriptions_create "whisper-1" fname audio_data))
    (fun e => raise (Exception ("Audio Transcription Error: " +:+ str_exn e))).

End with_env.
End openai_service.

(** ** utils/audio_processing.py *)

Definition validate_image_url (image_input : string) : string :=
  if pystr.startswith "http://" image_input || pystr.startswith "https://" image_input
  then image_input
  else if negb (pystr.startswith "data:" image_input)
       then "data:image/jpeg;base64," +:+ image_input
       else image_input.

(** [decode_base64_audio]: a data-URI prefix, if there is one, is cut off
    at the comma, and the rest is decoded.  [b64decode] is
    [base64.b64decode], which gives nothing on a malformed input; the piece
    taken after a split is the second one, which exists whenever the
    string holds a comma. *)
Definition decode_base64_audio (b64decode : string -> option string)
    (audio_base64 : string) : option string :=
  let audio_base64 :=
    if pystr.contains pystr.comma audio_base64
    then nth 1 (pystr.split pystr.comma audio_base64) EmptyString
    else audio_base64 in
  b64decode audio_base64.

(** ** The message pipeline shared by routes/chat_routes.py and
       routes/temp_chat_routes.py

    Both send-message handlers carry the same blocks for the form fields,
    the audio, the image and the content of the user message; they are
    written once here. *)

(** [if isinstance(field, str): field = None]. *)
Definition normalize_field (f : FileField) : option UploadFile :=
  match f with
  | FieldUpload u => Some u
  | FieldStr _ | FieldNone => None
  end.

(** [x or default] on an optional string. *)
Definition opt_or (x : option string) (default : string) : string :=
  match x with
  | Some s => pystr.or_else s default
  | None => default
  end.

Definition set_title (t : string) (s : ChatSession) : ChatSession :=
  {| session_id := session_id s; user_id := user_id s; title := t;
     messages := messages s; created_at := created_at s;
     updated_at := updated_at s |}.

Definition append_message (m : Message) (s : ChatSession) : ChatSession :=
  {| session_id := session_id s; user_id := user_id s; title := title s;
     messages := messages s ++ [m]; created_at := created_at s;
     updated_at := updated_at s |}.

Definition set_updated_at (t : datetime) (s : ChatSession) : ChatSession :=
  {| session_id := session_id s; user_id := user_id s; title := title s;
     messages := messages s; created_at := created_at s;
     updated_at := t |}.

(** The title the routes fall back to when [generate_title] raises:
    [user_message_text[:40].strip() + ("..." if len(..) > 40 else "")]. *)
Definition route_title_fallback (user_message_text : string) : string :=
  pystr.strip (pystr.slice_to 40 user_message_text)
  +:+ (if 40 <? String.length user_message_text then "..." else "").

(** The user content: a list when an image came with the message, the
    text otherwise. *)
Definition user_content_of (user_message_text : string) (image_data : option string) : Content :=
  match image_data with
  | Some d =>
      ContentList
        ((if pystr.truthy user_message_text
          then [{| mc_type := text; mc_text := Some user_message_text; mc_image_url := None |}]
          else [])
         ++ [{| mc_type := image_url; mc_text := None;
                mc_image_url := Some (validate_image_url d) |}])
  | None => ContentStr user_message_text
  end.

(** One stored message as the API wants it. *)
Definition api_part_of (item : MessageContent) : ApiPart :=
  match mc_type item with
  | text => PartText (mc_text item)
  | image_url => PartImage (mc_image_url item)
  end.

Definition api_message_of (msg : Message) : ApiMessage :=
  match content msg with
  | ContentStr s => {| am_role := role msg; am_content := ApiStr s |}
  | ContentList items =>
      {| am_role := role msg; am_content := ApiParts (map api_part_of items) |}
  end.

Section Pipeline.
Context (env : Env).

(** The audio block: the text of the message, joined with the
    transcription when an audio file came; a failure is a 400. *)
Definition read_user_text (message : string) (audio : option UploadFile) : M string :=
  match audio with
  | Some a =>
      try_except
        (transcribed_text <-
           openai_service.transcribe_audio env (file_bytes a)
             (opt_or (filename a) "recording.webm") ;;
         ret (if pystr.truthy message
              then message +:+ " " +:+ transcribed_text
              else transcribed_text))
        (fun e => raise (HTTPException 400
                   ("Audio transcription failed: " +:+ str_exn e)))
  | None => ret message
  end.

(** The image block: the data URI of the uploaded image (reading and
    encoding uploaded bytes does not fail). *)
Definition read_image (image : option UploadFile) : M (option string) :=
  match image with
  | Some i =>
      ret (Some ("data:" +:+ opt_or (content_type i) "image/jpeg"
                 +:+ ";base64," +:+ b64encode env (file_bytes i)))
  | None => ret None
  end.

(** The reply block: a failure of the API is a 500. *)
Definition get_ai_response (msgs : list Message) : M string :=
  try_except
    (openai_service.chat_completion env (map api_message_of msgs) 2000)
    (fun e => raise (HTTPException 500 ("OpenAI API error: " +:+ str_exn e))).

End Pipeline.

(** ** routes/chat_routes.py *)

Module chat_routes.
Section with_env.
Context (env : Env).

(** The filter [{"session_id": session_id, "user_id": user_id}]. *)
Definition by_session_and_user (sid uid : string) (s : ChatSession) : bool :=
  String.eqb (session_id s) sid && String.eqb (user_id s) uid.

Definition not_found : exn :=
  HTTPException 404 "Session not found or does not belong to user".

(** [extract_text_from_content]: the text of a content, the texts of a
    list being joined by a space; an item counts when its type is text
    and its text is not empty.  The items are MessageContent objects, as
    the handlers build them; the branch of the source for items that are
    plain dicts also counts a text item whose text is empty, which adds
    nothing but a separator and which no handler builds. *)
Definition extract_text_from_content (c : Content) : string :=
  match c with
  | ContentStr s => s
  | ContentList items =>
      String.concat " "
        (omap (fun item =>
                 match mc_type item, mc_text item with
                 | text, Some t => if pystr.truthy t then Some t else None
                 | _, _ => None
                 end) items)
  end.

Definition create_session (uid : string) : M SessionCreateResponse :=
  try_except
    (sid <- new_uuid env ;;
     created <- utcnow env ;;
     updated <- utcnow env ;;
     let chat_session :=
       {| session_id := sid; user_id := uid; title := "New Chat";
          messages := []; created_at := created; updated_at := updated |} in
     insert_one env chat_sessions_coll chat_session ;;;
     ret {| scr_session_id := sid; scr_user_id := uid;
            scr_title := title chat_session;
            scr_message := "Session created successfully";
            scr_created_at := created_at chat_session |})
    (fun e => raise (HTTPException 500
               ("Failed to create session: " +:+ str_exn e))).

Definition send_message (uid sid message : string) (audio image : FileField)
    : M ChatResponse :=
  try_except_reraise_http
    (let audio := normalize_field audio in
     let image := normalize_field image in
     session <- find_one env chat_sessions_coll (by_session_and_user sid uid) ;;
     match session with
     | None => raise not_found
     | Some chat_session =>
         let is_first_message := length (messages chat_session) =? 0 in
         user_message_text <- read_user_text env message audio ;;
         if negb (pystr.truthy user_message_text) && negb (bool_decide (is_Some image))
         then raise (HTTPException 400
                "At least one of message, audio, or image must be provided")
         else
           image_data <- read_image env image ;;
           chat_session <-
             (if is_first_message && pystr.truthy user_message_text
              then
                try_except
                  (generated_title <-
                     openai_service.generate_title env user_message_text ;;
                   ret (set_title generated_title chat_session))
                  (fun _ =>
                     ret (set_title (route_title_fallback user_message_text)
                            chat_session))
              else ret chat_session) ;;
           let user_content := user_content_of user_message_text image_data in
           now <- utcnow env ;;
           let user_message :=
             {| role := user; content := user_content; timestamp := now |} in
           let chat_session := append_message user_message chat_session in
           ai_response <- get_ai_response env (messages chat_session) ;;
           now <- utcnow env ;;
           let assistant_message :=
             {| role := assistant; content := ContentStr ai_response;
                timestamp := now |} in
           let chat_session := append_message assistant_message chat_session in
           now <- utcnow env ;;
           let chat_session := set_updated_at now chat_session in
           update_one env chat_sessions_coll (by_session_and_user sid uid)
             (fun _ => chat_session) (Some chat_session) ;;;
           ret {| cr_session_id := sid; cr_title := title chat_session;
                  cr_message := ai_response;
                  cr_timestamp := timestamp assistant_message |}
     end)
    (fun e => raise (HTTPException 500
               ("Internal server error: " +:+ str_exn e))).

Definition get_session_history (sid uid : string) : M SessionHistoryResponse :=
  try_except_reraise_http
    (session <- find_one env chat_sessions_coll (by_session_and_user sid uid) ;;
     match session with
     | None => raise not_found
     | Some chat_session =>
         ret {| shr_session_id := session_id chat_session;
                shr_user_id := user_id chat_session;
                shr_title := title chat_session;
                shr_messages := messages chat_session;
                shr_created_at := created_at chat_session;
                shr_updated_at := updated_at chat_session |}
     end)
    (fun e => raise (HTTPException 500
               ("Failed to retrieve session history: " +:+ str_exn e))).

Definition delete_session (sid uid : string) : M DeleteResponse :=
  try_except_reraise_http
    (deleted_count <-
       delete_one env chat_sessions_coll (by_session_and_user sid uid) ;;
     if deleted_count =? 0 then raise not_found
     else ret {| dr_message := "Session deleted successfully"; dr_id := sid |})
    (fun e => raise (HTTPException 500
               ("Failed to delete session: " +:+ str_exn e))).

(** The filter [{"user_id": user_id}]. *)
Definition by_user (uid : string) (s : ChatSession) : bool :=
  String.eqb (user_id s) uid.

(** The entry built for one session of the list. *)
Definition summary_of (session : ChatSession) : SessionSummary :=
  {| ss_session_id := session_id session; ss_title := title session;
     ss_message_count := length (messages session);
     ss_created_at := created_at session;
     ss_updated_at := updated_at session |}.

Definition list_user_sessions (uid : string) : M SessionListResponse :=
  try_except
    (sessions <- find_sorted_desc env chat_sessions_coll (by_user uid) updated_at ;;
     let session_list := map summary_of sessions in
     ret {| slr_user_id := uid; total_sessions := length session_list;
            slr_sessions := session_list |})
    (fun e => raise (HTTPException 500
               ("Failed to list sessions: " +:+ str_exn e))).

End with_env.
End chat_routes.

(** ** routes/temp_chat_routes.py

    [TEMP_SESSIONS] maps a session id to a session object; the handler
    works on the stored object itself, so every assignment to
    [chat_session] is a change of the table. *)

Module temp_chat_routes.
Section with_env.
Context (env : Env).

(** [TEMP_SESSIONS[session_id]]: the object the name [chat_session] is
    bound to. *)
Definition temp_read (sid : string) : M ChatSession :=
  fun w =>
    match TEMP_SESSIONS w !! sid with
    | Some s => (Return s, w)
    | None => (Raise (Exception sid), w)
    end.

(** An assignment to a field of the stored object. *)
Definition temp_modify (sid : string) (f : ChatSession -> ChatSession) : M unit :=
  fun w => (Return tt, set_TEMP_SESSIONS (alter f sid (TEMP_SESSIONS w)) w).

Definition create_temp_session (uid : string) : M SessionCreateResponse :=
  try_except
    (sid <- new_uuid env ;;
     created <- utcnow env ;;
     updated <- utcnow env ;;
     let chat_session :=
       {| session_id := sid; user_id := uid; title := "Temporary Chat";
          messages := []; created_at := created; updated_at := updated |} in
     (fun w => (Return tt,
                set_TEMP_SESSIONS (<[sid := chat_session]> (TEMP_SESSIONS w)) w)) ;;;
     ret {| scr_session_id := sid; scr_user_id := uid;
            scr_title := title chat_session;
            scr_message := "Temporary session created successfully";
            scr_created_at := created_at chat_session |})
    (fun e => raise (HTTPException 500
               ("Failed to create session: " +:+ str_exn e))).

Definition send_temp_message (uid sid message : string) (audio image : FileField)
    : M ChatResponse :=
  try_except_reraise_http
    (let audio := normalize_field audio in
     let image := normalize_field image in
     fun w =>
     match TEMP_SESSIONS w !! sid with
     | None =>
         raise (HTTPException 404
           "Temporary session not found (it may have been cleared on server restart)") w
     | Some chat_session =>
         (if negb (String.eqb (user_id chat_session) uid)
          then raise (HTTPException 403 "Session does not belong to user")
          else
            let is_first_message := length (messages chat_session) =? 0 in
            user_message_text <- read_user_text env message audio ;;
            if negb (pystr.truthy user_message_text) && negb (bool_decide (is_Some image))
            then raise (HTTPException 400
                   "At least one of message, audio, or image must be provided")
            else
              image_data <- read_image env image ;;
              when (is_first_message && pystr.truthy user_message_text)
                (try_except
                   (generated_title <-
                      openai_service.generate_title env user_message_text ;;
                    temp_modify sid (set_title generated_title))
                   (fun _ =>
                      temp_modify sid
                        (set_title (route_title_fallback user_message_text)))) ;;;
              let user_content := user_content_of user_message_text image_data in
              now <- utcnow env ;;
              let user_message :=
                {| role := user; content := user_content; timestamp := now |} in
              temp_modify sid (append_message user_message) ;;;
              chat_session <- temp_read sid ;;
              ai_response <- get_ai_response env (messages chat_session) ;;
              now <- utcnow env ;;
              let assistant_message :=
                {| role := assistant; content := ContentStr ai_response;
                   timestamp := now |} in
              temp_modify sid (append_message assistant_message) ;;;
              now <- utcnow env ;;
              temp_modify sid (set_updated_at now) ;;;
              chat_session <- temp_read sid ;;
              ret {| cr_session_id := sid; cr_title := title chat_session;
                     cr_message := ai_response;
                     cr_timestamp := timestamp assistant_message |}) w
     end)
    (fun e => raise (HTTPException 500
               ("Internal server error: " +:+ str_exn e))).

End with_env.
End temp_chat_routes.

(** ** services/group_chat_service.py *)

Definition set_members (ms : list string) (g : Group) : Group :=
  {| group_id := group_id g; name := name g; type := type g;
     creator_id := creator_id g; members := ms;
     g_created_at := g_created_at g; g_messages := g_messages g |}.

(** [{"$push": {"messages": m}}]. *)
Definition push_message (m : GroupMessage) (g : Group) : Group :=
  {| group_id := group_id g; name := name g; type := type g;
     creator_id := creator_id g; members := members g;
     g_created_at := g_created_at g; g_messages := g_messages g ++ [m] |}.

(** [l[-n:]] for a positive [n]. *)
Definition last_n {A} (n : nat) (l : list A) : list A :=
  drop (length l - n) l.

(** [x in l] on strings. *)
Definition str_in (x : string) (l : list string) : bool :=
  existsb (String.eqb x) l.

Module group_chat_service.
Section with_env.
Context (env : Env).

Definition by_session_and_user (sid uid : string) (s : GroupChatSession) : bool :=
  String.eqb (gcs_session_id s) sid && String.eqb (gcs_user_id s) uid.

Definition by_group_id (gid : string) (g : Group) : bool :=
  String.eqb (group_id g) gid.

Definition create_session (uid : string) : M string :=
  sid <- new_uuid env ;;
  created <- utcnow env ;;
  let session :=
    {| gcs_session_id := sid; gcs_user_id := uid; gcs_created_at := created |} in
  insert_one env group_chat_sessions_coll session ;;;
  ret sid.

Definition _validate_session (sid uid : string) : M unit :=
  session <- find_one env group_chat_sessions_coll (by_session_and_user sid uid) ;;
  match session with
  | None => raise (HTTPException 401 "Invalid session or user mismatch")
  | Some _ => ret tt
  end.

Definition create_group (uid sid nm : string) (group_type : GroupType) : M Group :=
  _validate_session sid uid ;;;
  gid <- new_uuid env ;;
  created <- utcnow env ;;
  let group :=
    {| group_id := gid; name := nm; type := group_type; creator_id := uid;
       members := [uid]; g_created_at := created; g_messages := [] |} in
  insert_one env groups_coll group ;;;
  ret group.

Definition join_group (uid sid gid : string) : M Group :=
  _validate_session sid uid ;;;
  group_data <- find_one env groups_coll (by_group_id gid) ;;
  match group_data with
  | None => raise (HTTPException 404 "Group not found")
  | Some group =>
      if negb (str_in uid (members group))
      then
        let group := set_members (members group ++ [uid]) group in
        update_one env groups_coll (by_group_id gid)
          (set_members (members group)) None ;;;
        ret group
      else ret group
  end.

Definition system_context (t : GroupType) : ApiMessage :=
  {| am_role := system;
     am_content := ApiStr
       ("You are a helpful assistant in a " +:+ GroupType_value t
        +:+ " group chat. Answer the user's question mostly for "
        +:+ GroupType_value t +:+ " context.") |}.

Definition context_of (msg : GroupMessage) : ApiMessage :=
  {| am_role := if is_ai msg then assistant else user;
     am_content := ApiStr (gm_content msg) |}.

Definition fallback_reply : string :=
  "I'm having trouble connecting right now. Please try again later.".

Definition send_message (gid sid uid content : string) : M GroupMessage :=
  _validate_session sid uid ;;;
  group_data <- find_one env groups_coll (by_group_id gid) ;;
  match group_data with
  | None => raise (HTTPException 404 "Group not found")
  | Some group =>
      if negb (str_in uid (members group))
      then raise (HTTPException 403 "User is not a member of this group")
      else
        user_message_id <- new_uuid env ;;
        now <- utcnow env ;;
        let user_message :=
          {| message_id := user_message_id; gm_user_id := uid;
             gm_content := content; gm_timestamp := now; is_ai := false |} in
        let new_messages := g_messages group ++ [user_message] in
        update_one env groups_coll (by_group_id gid)
          (push_message user_message) None ;;;
        let context_messages :=
          system_context (type group) :: map context_of (last_n 10 new_messages) in
        ai_response_content <-
          try_except
            (openai_service.chat_completion env context_messages 500)
            (fun _ => ret fallback_reply) ;;
        ai_message_id <- new_uuid env ;;
        now <- utcnow env ;;
        let ai_message :=
          {| message_id := ai_message_id; gm_user_id := "AI";
             gm_content := ai_response_content; gm_timestamp := now;
             is_ai := true |} in
        update_one env groups_coll (by_group_id gid)
          (push_message ai_message) None ;;;
        ret ai_message
  end.

Definition get_group_history (gid : string) : M (list GroupMessage) :=
  group_data <- find_one env groups_coll (by_group_id gid) ;;
  match group_data with
  | None => raise (HTTPException 404 "Group not found")
  | Some group => ret (g_messages group)
  end.

Definition delete_group (gid uid : string) : M unit :=
  group_data <- find_one env groups_coll (by_group_id gid) ;;
  match group_data with
  | None => raise (HTTPException 404 "Group not found")
  | Some group =>
      if negb (String.eqb (creator_id group) uid)
      then raise (HTTPException 403 "Only the creator can delete the group")
      else
        delete_one env groups_coll (by_group_id gid) ;;;
        ret tt
  end.

End with_env.
End group_chat_service.

(** ** routes/group_chat_routes.py *)

Module group_chat_routes.
Section with_env.
Context (env : Env).

(** [except HTTPException: raise / except Exception as e:
    raise HTTPException(500, detail=str(e))]. *)
Definition guarded {A} (m : M A) : M A :=
  try_except_reraise_http m (fun e => raise (HTTPException 500 (str_exn e))).

Definition group_response (group : Group) (msg : string) : GroupResponse :=
  {| gr_group_id := group_id group; gr_name := name group;
     gr_type := type group; member_count := length (members group);
     gr_message := msg |}.

Definition create_session (uid : string) : M SessionResponse :=
  try_except
    (sid <- group_chat_service.create_session env uid ;;
     ret {| sr_session_id := sid; sr_user_id := uid;
            sr_message := "Session created successfully" |})
    (fun e => raise (HTTPException 500 (str_exn e))).

Definition create_group (uid sid nm : string) (t : GroupType) : M GroupResponse :=
  guarded
    (group <- group_chat_service.create_group env uid sid nm t ;;
     ret (group_response group
            (GroupType_value (type group) +:+ " group created successfully"))).

Definition join_group (uid sid gid : string) : M GroupResponse :=
  guarded
    (group <- group_chat_service.join_group env uid sid gid ;;
     ret (group_response group "Joined group successfully")).

Definition send_message (uid sid gid content : string) : M GroupMessage :=
  guarded (group_chat_service.send_message env gid sid uid content).

Definition get_history (gid : string) : M (list GroupMessage) :=
  guarded (group_chat_service.get_group_history env gid).

Definition delete_group (gid uid : string) : M DeleteResponse :=
  guarded
    (group_chat_service.delete_group env gid uid ;;;
     ret {| dr_message := "Group deleted successfully"; dr_id := gid |}).

End with_env.
End group_chat_routes.

(** ** services/global_language_service.py and its routes *)

Definition push_interaction (i : Interaction) (s : GlobalSession) : GlobalSession :=
  {| gs_session_id := gs_session_id s; gs_user_id := gs_user_id s;
     gs_created_at := gs_created_at s; interactions := interactions s ++ [i] |}.

Module global_language_service.
Section with_env.
Context (env : Env).

(** The filter [{"session_id": session_id}]. *)
Definition by_session_id (sid : string) (s : GlobalSession) : bool :=
  String.eqb (gs_session_id s) sid.

Definition create_session (uid : string) : M string :=
  sid <- new_uuid env ;;
  created <- utcnow env ;;
  let session :=
    {| gs_session_id := sid; gs_user_id := uid; gs_created_at := created;
       interactions := [] |} in
  insert_one env global_language_sessions_coll session ;;;
  ret sid.

Definition not_found : exn := HTTPException 404 "Session not found".

Definition _get_session (sid : string) : M GlobalSession :=
  data <- find_one env global_language_sessions_coll (by_session_id sid) ;;
  match data with
  | None => raise not_found
  | Some s => ret s
  end.

Definition _add_interaction (sid : string) (i : Interaction) : M unit :=
  update_one env global_language_sessions_coll (by_session_id sid)
    (push_interaction i) None.

Definition chat_system_prompt (lang : string) : ApiMessage :=
  {| am_role := system;
     am_content := ApiStr
       ("You are a helpful assistant. Answer the user's question directly in "
        +:+ lang +:+ " language.") |}.

Definition process_chat_interaction (sid uid message lang : string)
    : M GlobalChatResponse :=
  _get_session sid ;;;
  ai_text_response <-
    try_except
      (openai_service.chat_completion env
         [chat_system_prompt lang;
          {| am_role := user; am_content := ApiStr message |}] 500)
      (fun e => raise (HTTPException 500
                 ("AI Response generation failed: " +:+ str_exn e))) ;;
  iid <- new_uuid env ;;
  now <- utcnow env ;;
  let interaction :=
    {| interaction_id := iid; i_type := CHAT; user_input := message;
       ai_response := ai_text_response; target_language := lang;
       audio_url := None; i_timestamp := now |} in
  _add_interaction sid interaction ;;;
  ret {| response_text := ai_text_response; gcr_target_language := lang |}.

Definition get_history (sid : string) : M (list Interaction) :=
  session <- _get_session sid ;;
  ret (interactions session).

Definition delete_session (sid : string) : M unit :=
  deleted_count <-
    delete_one env global_language_sessions_coll (by_session_id sid) ;;
  if deleted_count =? 0 then raise not_found
  else ret tt.

End with_env.
End global_language_service.

Module global_language_routes.
Section with_env.
Context (env : Env).

Definition guarded {A} (m : M A) : M A :=
  try_except_reraise_http m (fun e => raise (HTTPException 500 (str_exn e))).

Definition create_session (uid : string) : M SessionResponse :=
  try_except
    (sid <- global_language_service.create_session env uid ;;
     ret {| sr_session_id := sid; sr_user_id := uid;
            sr_message := "Global Language Session created successfully" |})
    (fun e => raise (HTTPException 500 (str_exn e))).

Definition process_chat (sid uid message lang : string) : M GlobalChatResponse :=
  guarded (global_language_service.process_chat_interaction env sid uid message lang).

Definition get_history (sid : string) : M HistoryResponse :=
  guarded
    (interactions <- global_language_service.get_history env sid ;;
     ret {| hr_session_id := sid; hr_interactions := interactions |}).

Definition delete_session (sid : string) : M DeleteResponse :=
  guarded
    (global_language_service.delete_session env sid ;;;
     ret {| dr_message := "Session deleted successfully"; dr_id := sid |}).

End with_env.
End global_language_routes.

(** ** routes/voice_routes.py *)

Module voice_routes.
Section with_env.
Context (env : Env).

Definition transcribe_voice (audio : UploadFile) : M TranscribeResponse :=
  try_except
    (transcribed_text <-
       openai_service.transcribe_audio env (file_bytes audio)
         (opt_or (filename audio) "recording.webm") ;;
     ret {| tr_text := transcribed_text; tr_filename := filename audio;
            tr_success := true |})
    (fun e => raise (HTTPException 500
               ("Transcription failed: " +:+ str_exn e))).

End with_env.
End voice_routes.

(** ** The HTTP surface

    The routers mounted by main.py, as one dispatcher over the requests of
    the modelled routes. *)

Inductive request :=
| ChatCreateSession (uid : string)
| ChatSendMessage (uid sid message : string) (audio image : FileField)
| ChatGetHistory (sid uid : string)
| ChatDeleteSession (sid uid : string)
| TempCreateSession (uid : string)
| TempSendMessage (uid sid message : string) (audio image : FileField)
| GroupCreateSession (uid : string)
| GroupCreate (uid sid nm : string) (t : GroupType)
| GroupJoin (uid sid gid : string)
| GroupSendMessage (uid sid gid content : string)
| GroupGetHistory (gid : string)
| GroupDelete (gid uid : string)
| GlobalCreateSession (uid : string)
| GlobalChat (sid uid message lang : string)
| GlobalGetHistory (sid : string)
| GlobalDeleteSession (sid : string).

Inductive response :=
| RespSessionCreate (r : SessionCreateResponse)
| RespChat (r : ChatResponse)
| RespSessionHistory (r : SessionHistoryResponse)
| RespDelete (r : DeleteResponse)
| RespSession (r : SessionResponse)
| RespGroup (r : GroupResponse)
| RespGroupMessage (m : GroupMessage)
| RespGroupHistory (l : list GroupMessage)
| RespGlobalChat (r : GlobalChatResponse)
| RespHistory (r : HistoryResponse).

Definition respond {A} (f : A -> response) (m : M A) : M response :=
  a <- m ;; ret (f a).

Definition handle (env : Env) (r : request) : M response :=
  match r with
  | ChatCreateSession uid =>
      respond RespSessionCreate (chat_routes.create_session env uid)
  | ChatSendMessage uid sid message audio image =>
      respond RespChat (chat_routes.send_message env uid sid message audio image)
  | ChatGetHistory sid uid =>
      respond RespSessionHistory (chat_routes.get_session_history env sid uid)
  | ChatDeleteSession sid uid =>
      respond RespDelete (chat_routes.delete_session env sid uid)
  | TempCreateSession uid =>
      respond RespSessionCreate (temp_chat_routes.create_temp_session env uid)
  | TempSendMessage uid sid message audio image =>
      respond RespChat
        (temp_chat_routes.send_temp_message env uid sid message audio image)
  | GroupCreateSession uid =>
      respond RespSession (group_chat_routes.create_session env uid)
  | GroupCreate uid sid nm t =>
      respond RespGroup (group_chat_routes.create_group env uid sid nm t)
  | GroupJoin uid sid gid =>
      respond RespGroup (group_chat_routes.join_group env uid sid gid)
  | GroupSendMessage uid sid gid content =>
      respond RespGroupMessage (group_chat_routes.send_message env uid sid gid content)
  | GroupGetHistory gid =>
      respond RespGroupHistory (group_chat_routes.get_history env gid)
  | GroupDelete gid uid =>
      respond RespDelete (group_chat_routes.delete_group env gid uid)
  | GlobalCreateSession uid =>
      respond RespSession (global_language_routes.create_session env uid)
  | GlobalChat sid uid message lang =>
      respond RespGlobalChat
        (global_language_routes.process_chat env sid uid message lang)
  | GlobalGetHistory sid =>
      respond RespHistory (global_language_routes.get_history env sid)
  | GlobalDeleteSession sid =>
      respond RespDelete (global_language_routes.delete_session env sid)
  end.

(** The requests that delete an entity. *)
Definition is_delete (r : request) : bool :=
  match r with
  | ChatDeleteSession _ _ | GroupDelete _ _ | GlobalDeleteSession _ => true
  | _ => false
  end.

(** The session identifier a create-session call hands out, if the call
    succeeds. *)
Definition issued_session_id (r : request) (o : outcome response) : option string :=
  match r, o with
  | ChatCreateSession _, Return (RespSessionCreate x) => Some (scr_session_id x)
  | TempCreateSession _, Return (RespSessionCreate x) => Some (scr_session_id x)
  | GroupCreateSession _, Return (RespSession x) => Some (sr_session_id x)
  | GlobalCreateSession _, Return (RespSession x) => Some (sr_session_id x)
  | _, _ => None
  end.

(** The identifiers handed out while a sequence of requests is served. *)
Fixpoint issued_ids (env : Env) (rs : list request) (w : World) : list string :=
  match rs with
  | [] => []
  | r :: rs' =>
      let run := handle env r w in
      match issued_session_id r run.1 with
      | Some id => id :: issued_ids env rs' run.2
      | None => issued_ids env rs' run.2
      end
  end.

(** ** Histories

    [kept del hist c c']: every document stored in [c] is still stored in
    [c'], in the same slot, with a history that extends the one it had, no
    entry of which has changed; when [del] is set the slot may also have
    been emptied.  A slot that was emptied stays empty. *)

Definition kept {A B} (del : bool) (hist : A -> list B) (c c' : Collection A) : Prop :=
  (forall i d, c !! i = Some (Some d) ->
     (del = true /\ c' !! i = Some None)
     \/ exists d', c' !! i = Some (Some d') /\ hist d `prefix_of` hist d')
  /\ (forall i, c !! i = Some None -> c' !! i = Some None).

(** The same for the table of temporary sessions, by key. *)
Definition temp_kept (t t' : gmap string ChatSession) : Prop :=
  forall sid s, t !! sid = Some s ->
    exists s', t' !! sid = Some s' /\ messages s `prefix_of` messages s'.

Definition histories_kept (del : bool) (w w' : World) : Prop :=
  kept del messages (chat_sessions w) (chat_sessions w')
  /\ kept del g_messages (groups w) (groups w')
  /\ kept del interactions (global_language_sessions w) (global_language_sessions w')
  /\ temp_kept (TEMP_SESSIONS w) (TEMP_SESSIONS w').

(** The documents a delete request addresses: a chat session by its id
    and its owner, a group by its id when the request comes from its
    creator, a global-language session by its id.  No other request
    addresses a document for removal. *)
Definition chat_target (r : request) (d : ChatSession) : bool :=
  match r with
  | ChatDeleteSession sid uid => chat_routes.by_session_and_user sid uid d
  | _ => false
  end.

Definition group_target (r : request) (g : Group) : bool :=
  match r with
  | GroupDelete gid uid =>
      group_chat_service.by_group_id gid g && String.eqb (creator_id g) uid
  | _ => false
  end.

Definition global_target (r : request) (s : GlobalSession) : bool :=
  match r with
  | GlobalDeleteSession sid => global_language_service.by_session_id sid s
  | _ => false
  end.

(** [kept_but target hist c c']: either every document of [c] is kept,
    or one document that [target] addresses has been removed, and it
    alone: every other slot of the collection is as it was. *)
Definition kept_but {A B} (target : A -> bool) (hist : A -> list B)
    (c c' : Collection A) : Prop :=
  kept false hist c c'
  \/ exists i d, c !! i = Some (Some d) /\ target d = true
                 /\ c' = <[i := None]> c.

Definition histories_kept_but (r : request) (w w' : World) : Prop :=
  kept_but (chat_target r) messages (chat_sessions w) (chat_sessions w')
  /\ kept_but (group_target r) g_messages (groups w) (groups w')
  /\ kept_but (global_target r) interactions
       (global_language_sessions w) (global_language_sessions w')
  /\ temp_kept (TEMP_SESSIONS w) (TEMP_SESSIONS w').

(** A temporary session is created under the identifier drawn; the draw
    is fresh when the table has no session under it. *)
Definition fresh_draw (env : Env) (r : request) (w : World) : Prop :=
  match r with
  | TempCreateSession _ => TEMP_SESSIONS w !! uuid4 env (uuid_draws w) = None
  | _ => True
  end.

(** [only_logs w w']: the two worlds hold the same documents and the same
    temporary sessions; they differ at most in the logs and in the
    counters, which have not gone back. *)
Definition only_logs (w w' : World) : Prop :=
  chat_sessions w' = chat_sessions w
  /\ group_chat_sessions w' = group_chat_sessions w
  /\ groups w' = groups w
  /\ global_language_sessions w' = global_language_sessions w
  /\ TEMP_SESSIONS w' = TEMP_SESSIONS w
  /\ uuid_draws w <= uuid_draws w'.

(** The identifiers drawn are never drawn again: the counter of draws
    does not go back. *)
Definition draws_grow (w w' : World) : Prop := uuid_draws w <= uuid_draws w'.

(** [wp m Q w]: the run of [m] from [w] ends in an outcome and a world
    that satisfy [Q]. *)
Definition wp {A} (m : M A) (Q : outcome A -> World -> Prop) (w : World) : Prop :=
  Q (m w).1 (m w).2.

(** The temporary session [sid], if any, keeps its title. *)
Definition temp_title_kept (sid : string) (w w' : World) : Prop :=
  forall s, TEMP_SESSIONS w !! sid = Some s ->
    exists s', TEMP_SESSIONS w' !! sid = Some s' /\ title s' = title s.

(** The session a send stores in place of [cs]: the same session with two
    more messages; its title is that of [cs] unless [cs] had no message. *)
Definition sent_from (cs cs' : ChatSession) : Prop :=
  session_id cs' = session_id cs /\ user_id cs' = user_id cs
  /\ created_at cs' = created_at cs
  /\ (exists m1 m2, messages cs' = messages cs ++ [m1; m2])
  /\ (messages cs <> [] -> title cs' = title cs).

(** [api_silent w w']: no request was sent to the language-model API
    between the two worlds. *)
Definition api_silent (w w' : World) : Prop := api_log w' = api_log w.

(** [db_untouched w w']: no operation was sent to the database between
    the two worlds, and the collections are the same. *)
Definition db_untouched (w w' : World) : Prop :=
  db_log w' = db_log w
  /\ chat_sessions w' = chat_sessions w
  /\ group_chat_sessions w' = group_chat_sessions w
  /\ groups w' = groups w
  /\ global_language_sessions w' = global_language_sessions w.

(** What a route may answer: a response or an HTTPException, which the
    framework turns into a status code and a detail; any other exception
    would leave the route as an unhandled error. *)
Definition http_only {A} (o : outcome A) : Prop :=
  match o with
  | Raise (Exception _) => False
  | _ => True
  end.

(** The requests served from the table of temporary sessions. *)
Definition is_temp (r : request) : bool :=
  match r with
  | TempCreateSession _ | TempSendMessage _ _ _ _ _ => true
  | _ => false
  end.

(** What each route puts in front of the text of an unexpected exception
    in the detail of its 500. *)
Definition error_prefix (r : request) : string :=
  match r with
  | ChatCreateSession _ | TempCreateSession _ => "Failed to create session: "
  | ChatSendMessage _ _ _ _ _ | TempSendMessage _ _ _ _ _ =>
      "Internal server error: "
  | ChatGetHistory _ _ => "Failed to retrieve session history: "
  | ChatDeleteSession _ _ => "Failed to delete session: "
  | _ => ""
  end.

(** A handler respects a relation between worlds when every run of it
    relates the world it starts from to the world it leaves. *)
Definition respects {A} (R : World -> World -> Prop) (m : M A) : Prop :=
  forall w, R w (m w).2.

(** ** Upstream failures

    [surfaces log fails m]: the handler [m] only adds entries to [log];
    and when an entry it added has failed, [fails] naming the exception
    the failure is to end in, the handler raises this exception and has
    added no entry after the failed one: the call is not made again. *)
Definition surfaces {L A} (log : World -> list L)
    (fails : nat -> L -> exn -> Prop) (m : M A) : Prop :=
  forall w,
    log w `prefix_of` log (m w).2
    /\ forall k c x,
         length (log w) <= k -> log (m w).2 !! k = Some c -> fails k c x ->
         (m w).1 = Raise x /\ S k = length (log (m w).2).







(** ** Scenarios

    Concrete environments and worlds on which the handlers are run. *)

Module scenario.

(** A configured service whose collaborators all answer. *)
Definition env : Env :=
  {| OPENAI_API_KEY := "sk-test";
     uuid4 := fun n => "id-" +:+ pretty n;
     clock := fun n => 1500 + 600 * n;
     openai := fun _ _ => Returns "Hello!";
     db_fault := fun _ => None;
     b64encode := fun s => s |}.

(** The same service when the language-model API is unreachable. *)
Definition offline_env : Env :=
  {| OPENAI_API_KEY := "sk-test";
     uuid4 := fun n => "id-" +:+ pretty n;
     clock := fun n => 1500 + 600 * n;
     openai := fun _ _ => Throws "Connection error.";
     db_fault := fun _ => None;
     b64encode := fun s => s |}.

(** The default settings of config.py: no API key. *)
Definition no_key_env : Env :=
  {| OPENAI_API_KEY := "";
     uuid4 := fun n => "id-" +:+ pretty n;
     clock := fun n => 1500 + 600 * n;
     openai := fun _ _ => Returns "Hello!";
     db_fault := fun _ => None;
     b64encode := fun s => s |}.



(** The database is unreachable. *)
Definition db_down_env : Env :=
  {| OPENAI_API_KEY := "sk-test";
     uuid4 := fun n => "id-" +:+ pretty n;
     clock := fun n => 1500 + 600 * n;
     openai := fun _ _ => Returns "Hello!";
     db_fault := fun _ => Some "connection refused";
     b64encode := fun s => s |}.


Definition cat_picture : UploadFile :=
  {| filename := Some "cat.png"; content_type := Some "image/png";
     file_bytes := "iVBORw0KGgo=" |}.

Definition alice_global_session : GlobalSession :=
  {| gs_session_id := "s1"; gs_user_id := "alice"; gs_created_at := 7;
     interactions := [] |}.

Definition global_world : World :=
  set_global_language_sessions [Some alice_global_session] empty_world.

Definition alice_chat_session : ChatSession :=
  {| session_id := "s1"; user_id := "alice"; title := "New Chat";
     messages := []; created_at := 3; updated_at := 3 |}.

Definition chat_world : World :=
  set_chat_sessions [Some alice_chat_session] empty_world.

Definition alice_group_session : GroupChatSession :=
  {| gcs_session_id := "gs1"; gcs_user_id := "alice"; gcs_created_at := 1 |}.

Definition bob_group_session : GroupChatSession :=
  {| gcs_session_id := "gs2"; gcs_user_id := "bob"; gcs_created_at := 2 |}.

Definition study_group : Group :=
  {| group_id := "g1"; name := "Math Study Group"; type := STUDENT;
     creator_id := "alice"; members := ["alice"]; g_created_at := 4;
     g_messages := [] |}.

Definition group_world : World :=
  set_groups [Some study_group]
    (set_group_chat_sessions
       [Some alice_group_session; Some bob_group_session] empty_world).

End scenario.

(** * Properties *)

(** ** Lengths of stripped and sliced strings *)

Section StringFacts.

Lemma str_length_app (a b : string) :
  String.length (a +:+ b) = String.length a + String.length b.
Proof. induction a as [|c a IH]; simpl; [done | by rewrite IH]. Qed.

Lemma length_lstrip p s : String.length (pystr.lstrip p s) <= String.length s.
Proof.
  induction s as [|c s IH]; simpl; [done |].
  destruct (p c); simpl; lia.
Qed.

Lemma length_rstrip p s : String.length (pystr.rstrip p s) <= String.length s.
Proof.
  induction s as [|c s IH]; simpl; [done |].
  destruct (pystr.rstrip p s) as [|c' r] eqn:E.
  - destruct (p c); simpl; lia.
  - simpl in *. lia.
Qed.

Lemma length_strip_chars p s :
  String.length (pystr.strip_chars p s) <= String.length s.
Proof.
  unfold pystr.strip_chars.
  etrans; [apply length_rstrip | apply length_lstrip].
Qed.

Lemma length_strip s : String.length (pystr.strip s) <= String.length s.
Proof. apply length_strip_chars. Qed.

Lemma length_slice_to n s :
  String.length (pystr.slice_to n s) = n `min` String.length s.
Proof.
  revert s; induction n as [|n IH]; intros [|c s]; simpl; try done.
  by rewrite IH.
Qed.

End StringFacts.

(** ** generate_title *)

Section TitleFacts.
Context (env : Env).

Lemma length_title_fallback s :
  String.length (openai_service.title_fallback s) <= 43.
Proof.
  unfold openai_service.title_fallback. rewrite str_length_app.
  pose proof (length_strip (pystr.slice_to 40 s)) as H.
  rewrite length_slice_to in H.
  destruct (40 <? String.length s); cbn [String.length]; lia.
Qed.

Lemma length_clean_title r :
  String.length (openai_service.clean_title r) <= 50.
Proof.
  unfold openai_service.clean_title.
  destruct (50 <? String.length _) eqn:E.
  - rewrite str_length_app, length_slice_to. cbn [String.length]. lia.
  - apply Nat.ltb_ge in E. done.
Qed.

(** With no key configured the client cannot be built. *)
Lemma ensure_initialized_no_key w :
  OPENAI_API_KEY env = "" ->
  openai_service._ensure_async_initialized env w
  = (Raise (Exception openai_service.api_key_error), w).
Proof. intros H. unfold openai_service._ensure_async_initialized. by rewrite H. Qed.

Lemma ensure_initialized_key w :
  OPENAI_API_KEY env <> "" ->
  openai_service._ensure_async_initialized env w = (Return tt, w).
Proof.
  intros H. unfold openai_service._ensure_async_initialized.
  destruct (OPENAI_API_KEY env); [done | reflexivity].
Qed.

(** The three paths of [generate_title] once the client is built. *)
Lemma generate_title_run first_message w :
  OPENAI_API_KEY env <> "" ->
  openai_service.generate_title env first_message w =
    if String.length first_message <=? 40
    then (Return (pystr.strip first_message), w)
    else
      let w' := set_api_log
                  (api_log w ++ [openai_service.title_request first_message]) w in
      match openai env (length (api_log w))
              (openai_service.title_request first_message) with
      | Returns r => (Return (openai_service.clean_title r), w')
      | Throws _ => (Return (openai_service.title_fallback first_message), w')
      end.
Proof.
  intros Hkey. unfold openai_service.generate_title, bind.
  rewrite ensure_initialized_key by done.
  unfold try_except.
  destruct (String.length first_message <=? 40); [reflexivity |].
  unfold bind, api_call.
  destruct (openai env _ _); reflexivity.
Qed.

End TitleFacts.

(** ** Collections *)

Section CollectionFacts.
Context {A : Type}.
Implicit Types (p : A -> bool) (c : Collection A).

Lemma find_slot_None p c :
  find_slot p c = None <-> forall d, Some d ∈ c -> p d = false.
Proof.
  induction c as [|[d|] c IH]; simpl.
  - split; [intros _ d Hd; by apply elem_of_nil in Hd | done].
  - destruct (p d) eqn:E.
    + split; [done |]. intros H. specialize (H d (list_elem_of_here _ _)). congruence.
    + destruct (find_slot p c) as [[i d']|].
      * split; [done |]. intros H.
        assert (Some (i, d') = None) as Hn; [|done].
        apply IH. intros d0 Hd0. apply H. by apply list_elem_of_further.
      * split; [|done]. intros _ d0 Hd0.
        apply elem_of_cons in Hd0 as [Hd0|Hd0]; [by simplify_eq |].
        by apply IH.
  - destruct (find_slot p c) as [[i d']|].
    + split; [done |]. intros H.
      assert (Some (i, d') = None) as Hn; [|done].
      apply IH. intros d0 Hd0. apply H. by apply list_elem_of_further.
    + split; [|done]. intros _ d0 Hd0.
      apply elem_of_cons in Hd0 as [Hd0|Hd0]; [done |].
      by apply IH.
Qed.

(** What [find_slot] returns is stored at the position it gives, matches
    the filter, and no earlier document matches. *)
Lemma find_slot_Some p c i d :
  find_slot p c = Some (i, d) ->
  c !! i = Some (Some d) /\ p d = true /\
  forall j e, j < i -> c !! j = Some (Some e) -> p e = false.
Proof.
  revert i; induction c as [|[d0|] c IH]; intros i; simpl; [done | |].
  - destruct (p d0) eqn:E.
    + intros [= <- <-]. repeat split; [done |]. intros j e Hj. lia.
    + destruct (find_slot p c) as [[i' d']|]; [|done].
      intros [= <- <-]. destruct (IH i' eq_refl) as (H1 & H2 & H3).
      repeat split; [done .. |].
      intros [|j] e Hj; simpl; [by intros [= <-] |].
      apply H3. lia.
  - destruct (find_slot p c) as [[i' d']|]; [|done].
    intros [= <- <-]. destruct (IH i' eq_refl) as (H1 & H2 & H3).
    repeat split; [done .. |].
    intros [|j] e Hj; simpl; [done |].
    apply H3. lia.
Qed.

Lemma find_slot_is_Some p c d :
  Some d ∈ c -> p d = true -> is_Some (find_slot p c).
Proof.
  intros Hin Hp. destruct (find_slot p c) eqn:E; [done |].
  rewrite find_slot_None in E. specialize (E d Hin). congruence.
Qed.

Lemma coll_find_one_None p c :
  coll_find_one p c = None <-> forall d, Some d ∈ c -> p d = false.
Proof.
  unfold coll_find_one. rewrite <- find_slot_None.
  destruct (find_slot p c); simpl; split; done.
Qed.

Lemma coll_delete_one_count p c :
  (coll_delete_one p c).2 = 0 <-> forall d, Some d ∈ c -> p d = false.
Proof.
  unfold coll_delete_one. rewrite <- find_slot_None.
  destruct (find_slot p c) as [[i d]|]; simpl; split; done.
Qed.

End CollectionFacts.

(** ** Dates to and from the database *)

Section BsonFacts.

Lemma bson_of_datetime_of_bson ms : bson_of_datetime (datetime_of_bson ms) = ms.
Proof. unfold bson_of_datetime, datetime_of_bson. by apply Nat.div_mul. Qed.

Lemma bson_cut_le t : bson_cut t <= t.
Proof.
  unfold bson_cut, bson_of_datetime, datetime_of_bson.
  rewrite Nat.mul_comm. by apply Nat.Div0.mul_div_le.
Qed.

Lemma bson_cut_idemp t : bson_cut (bson_cut t) = bson_cut t.
Proof. unfold bson_cut. by rewrite bson_of_datetime_of_bson. Qed.

Lemma Message_to_of_bson m :
  Message_dates bson_of_datetime (Message_dates datetime_of_bson m) = m.
Proof.
  destruct m. unfold Message_dates. simpl. by rewrite bson_of_datetime_of_bson.
Qed.

Lemma Messages_to_of_bson l :
  map (Message_dates bson_of_datetime) (map (Message_dates datetime_of_bson) l) = l.
Proof. induction l as [|m l IH]; simpl; [done |]. by rewrite Message_to_of_bson, IH. Qed.

Lemma ChatSession_to_of_bson d :
  to_bson chat_sessions_coll (of_bson chat_sessions_coll d) = d.
Proof.
  destruct d. unfold to_bson, of_bson. simpl. unfold ChatSession_dates. simpl.
  by rewrite Messages_to_of_bson, !bson_of_datetime_of_bson.
Qed.

Lemma GroupMessage_to_of_bson m :
  GroupMessage_dates bson_of_datetime (GroupMessage_dates datetime_of_bson m) = m.
Proof.
  destruct m. unfold GroupMessage_dates. simpl.
  by rewrite bson_of_datetime_of_bson.
Qed.

Lemma GroupMessages_to_of_bson l :
  map (GroupMessage_dates bson_of_datetime)
    (map (GroupMessage_dates datetime_of_bson) l) = l.
Proof.
  induction l as [|m l IH]; simpl; [done |].
  by rewrite GroupMessage_to_of_bson, IH.
Qed.

Lemma Group_to_of_bson d : to_bson groups_coll (of_bson groups_coll d) = d.
Proof.
  destruct d. unfold to_bson, of_bson. simpl. unfold Group_dates. simpl.
  by rewrite GroupMessages_to_of_bson, bson_of_datetime_of_bson.
Qed.

Lemma Interaction_to_of_bson i :
  Interaction_dates bson_of_datetime (Interaction_dates datetime_of_bson i) = i.
Proof.
  destruct i. unfold Interaction_dates. simpl.
  by rewrite bson_of_datetime_of_bson.
Qed.

Lemma Interactions_to_of_bson l :
  map (Interaction_dates bson_of_datetime)
    (map (Interaction_dates datetime_of_bson) l) = l.
Proof.
  induction l as [|m l IH]; simpl; [done |].
  by rewrite Interaction_to_of_bson, IH.
Qed.

Lemma GlobalSession_to_of_bson d :
  to_bson global_language_sessions_coll (of_bson global_language_sessions_coll d)
  = d.
Proof.
  destruct d. unfold to_bson, of_bson. simpl. unfold GlobalSession_dates. simpl.
  by rewrite Interactions_to_of_bson, bson_of_datetime_of_bson.
Qed.

(** A push on the document as read is a push of the encoded entry on the
    document as stored. *)
Lemma stored_push_message m d :
  stored_update groups_coll (push_message m) d
  = push_message (GroupMessage_dates bson_of_datetime m) d.
Proof.
  destruct d. unfold stored_update, to_bson, of_bson, push_message. simpl.
  unfold Group_dates. simpl.
  by rewrite map_app, GroupMessages_to_of_bson, bson_of_datetime_of_bson.
Qed.

Lemma stored_push_interaction i d :
  stored_update global_language_sessions_coll (push_interaction i) d
  = push_interaction (Interaction_dates bson_of_datetime i) d.
Proof.
  destruct d. unfold stored_update, to_bson, of_bson, push_interaction. simpl.
  unfold GlobalSession_dates. simpl.
  by rewrite map_app, Interactions_to_of_bson, bson_of_datetime_of_bson.
Qed.

Lemma stored_set_members ms d :
  stored_update groups_coll (set_members ms) d = set_members ms d.
Proof.
  destruct d. unfold stored_update, to_bson, of_bson, set_members. simpl.
  unfold Group_dates. simpl.
  by rewrite GroupMessages_to_of_bson, bson_of_datetime_of_bson.
Qed.

End BsonFacts.

(** ** Running the primitives *)

Section RunFacts.
Context (env : Env).

Lemma db_call_ok {A} c (f : World -> A * World) w :
  db_fault env (length (db_log w)) = None ->
  db_call env c f w =
    (Return (f (set_db_log (db_log w ++ [c]) w)).1,
     (f (set_db_log (db_log w ++ [c]) w)).2).
Proof.
  intros H. unfold db_call. rewrite H.
  by destruct (f _).
Qed.

Lemma db_call_fault {A} c (f : World -> A * World) w s :
  db_fault env (length (db_log w)) = Some s ->
  db_call env c f w = (Raise (Exception s), set_db_log (db_log w ++ [c]) w).
Proof. intros H. unfold db_call. by rewrite H. Qed.

End RunFacts.

(** ** Session lookup *)

Section LookupFacts.
Context (env : Env).

Lemma chat_filter_spec sid uid d :
  chat_routes.by_session_and_user sid uid d = true
  <-> session_id d = sid /\ user_id d = uid.
Proof.
  unfold chat_routes.by_session_and_user.
  rewrite andb_true_iff, !String.eqb_eq. done.
Qed.

Lemma chat_no_match sid uid (c : Collection ChatSession) :
  (forall d, Some d ∈ c -> ~ (session_id d = sid /\ user_id d = uid)) ->
  forall d, Some d ∈ c -> chat_routes.by_session_and_user sid uid d = false.
Proof.
  intros H d Hd. apply not_true_is_false. rewrite chat_filter_spec. by apply H.
Qed.

Lemma chat_history_not_found w sid uid :
  db_fault env (length (db_log w)) = None ->
  (forall d, Some d ∈ chat_sessions w -> ~ (session_id d = sid /\ user_id d = uid)) ->
  (chat_routes.get_session_history env sid uid w).1 = Raise chat_routes.not_found.
Proof.
  intros Hdb Hno.
  unfold chat_routes.get_session_history, try_except_reraise_http, try_except, bind, find_one.
  rewrite db_call_ok by done. simpl.
  by rewrite (proj2 (coll_find_one_None _ _) (chat_no_match _ _ _ Hno)).
Qed.

Lemma chat_send_not_found w sid uid message audio image :
  db_fault env (length (db_log w)) = None ->
  (forall d, Some d ∈ chat_sessions w -> ~ (session_id d = sid /\ user_id d = uid)) ->
  (chat_routes.send_message env uid sid message audio image w).1
  = Raise chat_routes.not_found.
Proof.
  intros Hdb Hno.
  unfold chat_routes.send_message, try_except_reraise_http, try_except, bind, find_one.
  rewrite db_call_ok by done. simpl.
  by rewrite (proj2 (coll_find_one_None _ _) (chat_no_match _ _ _ Hno)).
Qed.

Lemma chat_delete_run w sid uid :
  db_fault env (length (db_log w)) = None ->
  (chat_routes.delete_session env sid uid w).1 =
    if (coll_delete_one (chat_routes.by_session_and_user sid uid) (chat_sessions w)).2 =? 0
    then Raise chat_routes.not_found
    else Return {| dr_message := "Session deleted successfully"; dr_id := sid |}.
Proof.
  intros Hdb.
  unfold chat_routes.delete_session, try_except_reraise_http, try_except, bind, delete_one.
  rewrite db_call_ok by done. simpl.
  destruct (coll_delete_one _ _) as [c n]. simpl.
  by destruct (n =? 0).
Qed.

End LookupFacts.

(** Case analysis on what the outside answers. *)
Ltac case_upstream :=
  repeat match goal with
  | |- context [match db_fault ?e ?n with _ => _ end] =>
      destruct (db_fault e n) eqn:?; simpl
  | |- context [match openai ?e ?n ?r with _ => _ end] =>
      destruct (openai e n r) eqn:?; simpl
  end.

Section LookupFactsOther.
Context (env : Env).

Lemma gl_filter_spec sid d :
  global_language_service.by_session_id sid d = true <-> gs_session_id d = sid.
Proof. unfold global_language_service.by_session_id. apply String.eqb_eq. Qed.

Lemma gl_no_match sid (c : Collection GlobalSession) :
  (forall d, Some d ∈ c -> gs_session_id d <> sid) ->
  forall d, Some d ∈ c -> global_language_service.by_session_id sid d = false.
Proof.
  intros H d Hd. apply not_true_is_false. rewrite gl_filter_spec. by apply H.
Qed.

Lemma gl_get_session_run w sid :
  db_fault env (length (db_log w)) = None ->
  global_language_service._get_session env sid w =
    let w' := set_db_log
                (db_log w ++ [find_one_call "global_language_sessions"]) w in
    match coll_find_one (global_language_service.by_session_id sid)
            (global_language_sessions w) with
    | None => (Raise global_language_service.not_found, w')
    | Some s => (Return (of_bson global_language_sessions_coll s), w')
    end.
Proof.
  intros Hdb. unfold global_language_service._get_session, bind, find_one.
  rewrite db_call_ok by done. simpl.
  by destruct (coll_find_one _ _).
Qed.

Lemma gl_history_run w sid :
  db_fault env (length (db_log w)) = None ->
  (global_language_routes.get_history env sid w).1 =
    match coll_find_one (global_language_service.by_session_id sid)
            (global_language_sessions w) with
    | None => Raise global_language_service.not_found
    | Some s =>
        Return {| hr_session_id := sid;
                  hr_interactions :=
                    interactions (of_bson global_language_sessions_coll s) |}
    end.
Proof.
  intros Hdb.
  unfold global_language_routes.get_history, global_language_routes.guarded,
    global_language_service.get_history, try_except_reraise_http, try_except, bind.
  rewrite gl_get_session_run by done. simpl.
  by destruct (coll_find_one _ _).
Qed.

Lemma gl_delete_run w sid :
  db_fault env (length (db_log w)) = None ->
  (global_language_routes.delete_session env sid w).1 =
    if (coll_delete_one (global_language_service.by_session_id sid)
          (global_language_sessions w)).2 =? 0
    then Raise global_language_service.not_found
    else Return {| dr_message := "Session deleted successfully"; dr_id := sid |}.
Proof.
  intros Hdb.
  unfold global_language_routes.delete_session, global_language_routes.guarded,
    global_language_service.delete_session,
    try_except_reraise_http, try_except, bind, delete_one.
  rewrite db_call_ok by done. simpl.
  destruct (coll_delete_one _ _) as [c n]. simpl.
  by destruct (n =? 0).
Qed.

Lemma gl_chat_not_found w sid uid message lang :
  db_fault env (length (db_log w)) = None ->
  coll_find_one (global_language_service.by_session_id sid)
    (global_language_sessions w) = None ->
  (global_language_routes.process_chat env sid uid message lang w).1
  = Raise global_language_service.not_found.
Proof.
  intros Hdb Hno.
  unfold global_language_routes.process_chat, global_language_routes.guarded,
    global_language_service.process_chat_interaction,
    try_except_reraise_http, try_except, bind.
  rewrite gl_get_session_run by done. simpl. by rewrite Hno.
Qed.

(** Once the session id is found, the chat interaction ends with its
    response or with a 500, whoever asks. *)
Lemma gl_chat_found w sid uid message lang s :
  db_fault env (length (db_log w)) = None ->
  coll_find_one (global_language_service.by_session_id sid)
    (global_language_sessions w) = Some s ->
  (exists r, (global_language_routes.process_chat env sid uid message lang w).1
             = Return r)
  \/ (exists d, (global_language_routes.process_chat env sid uid message lang w).1
                = Raise (HTTPException 500 d)).
Proof.
  intros Hdb Hs.
  unfold global_language_routes.process_chat, global_language_routes.guarded,
    global_language_service.process_chat_interaction,
    try_except_reraise_http, try_except, bind.
  rewrite gl_get_session_run by done. simpl. rewrite Hs.
  unfold openai_service.chat_completion, openai_service._ensure_async_initialized,
    bind, try_except, api_call.
  destruct (pystr.truthy (OPENAI_API_KEY env)); simpl; [|eauto].
  case_upstream; [|eauto].
  unfold global_language_service._add_interaction, update_one, db_call. simpl.
  case_upstream; eauto.
Qed.

Lemma temp_send_unknown w sid uid message audio image :
  TEMP_SESSIONS w !! sid = None ->
  (temp_chat_routes.send_temp_message env uid sid message audio image w).1 =
    Raise (HTTPException 404
      "Temporary session not found (it may have been cleared on server restart)").
Proof.
  intros H.
  unfold temp_chat_routes.send_temp_message, try_except_reraise_http, try_except.
  by rewrite H.
Qed.

Lemma temp_send_other_owner w sid uid message audio image s :
  TEMP_SESSIONS w !! sid = Some s -> user_id s <> uid ->
  (temp_chat_routes.send_temp_message env uid sid message audio image w).1 =
    Raise (HTTPException 403 "Session does not belong to user").
Proof.
  intros H Hne.
  unfold temp_chat_routes.send_temp_message, try_except_reraise_http, try_except.
  rewrite H. apply String.eqb_neq in Hne. by rewrite Hne.
Qed.

Lemma group_filter_spec sid uid d :
  group_chat_service.by_session_and_user sid uid d = true
  <-> gcs_session_id d = sid /\ gcs_user_id d = uid.
Proof.
  unfold group_chat_service.by_session_and_user.
  rewrite andb_true_iff, !String.eqb_eq. done.
Qed.

Lemma validate_session_run w sid uid :
  db_fault env (length (db_log w)) = None ->
  group_chat_service._validate_session env sid uid w =
    let w' := set_db_log (db_log w ++ [find_one_call "group_chat_sessions"]) w in
    match coll_find_one (group_chat_service.by_session_and_user sid uid)
            (group_chat_sessions w) with
    | None => (Raise (HTTPException 401 "Invalid session or user mismatch"), w')
    | Some _ => (Return tt, w')
    end.
Proof.
  intros Hdb. unfold group_chat_service._validate_session, bind, find_one.
  rewrite db_call_ok by done. simpl.
  by destruct (coll_find_one _ _).
Qed.

End LookupFactsOther.

(** C1 (as amended).  In the chat routes every lookup (history, send
    message, delete) that finds no stored document with the session id and
    the owner id ends with the 404 "not found" error.  The global-language
    service looks a session up by its id alone: the same three operations
    end with 404 when no stored document has the id, and when one has it
    they go on whoever asks: the history is returned, the chat interaction
    ends with its response or a 500.  The temporary chat answers 404 to an
    unknown id and 403 to another owner; the group chat refuses a session
    that does not match with 401. *)
Theorem session_lookup_not_found (env : Env) (w : World) (sid uid : string) :
  db_fault env (length (db_log w)) = None ->
  ((forall d, Some d ∈ chat_sessions w ->
      ~ (session_id d = sid /\ user_id d = uid)) ->
   (chat_routes.get_session_history env sid uid w).1
     = Raise chat_routes.not_found
   /\ (forall message audio image,
         (chat_routes.send_message env uid sid message audio image w).1
         = Raise chat_routes.not_found)
   /\ (chat_routes.delete_session env sid uid w).1
      = Raise chat_routes.not_found)
  /\ ((forall d, Some d ∈ global_language_sessions w -> gs_session_id d <> sid) ->
      (global_language_routes.get_history env sid w).1
        = Raise global_language_service.not_found
      /\ (forall message lang,
            (global_language_routes.process_chat env sid uid message lang w).1
            = Raise global_language_service.not_found)
      /\ (global_language_routes.delete_session env sid w).1
         = Raise global_language_service.not_found)
  /\ (forall d, Some d ∈ global_language_sessions w -> gs_session_id d = sid ->
      (exists s, (global_language_routes.get_history env sid w).1
                 = Return {| hr_session_id := sid;
                             hr_interactions := interactions s |})
      /\ (forall message lang,
            (global_language_routes.process_chat env sid uid message lang w).1
            <> Raise global_language_service.not_found))
  /\ (forall message audio image,
        (TEMP_SESSIONS w !! sid = None ->
         exists d, (temp_chat_routes.send_temp_message env uid sid message audio image w).1
                   = Raise (HTTPException 404 d))
        /\ (forall s, TEMP_SESSIONS w !! sid = Some s -> user_id s <> uid ->
            exists d, (temp_chat_routes.send_temp_message env uid sid message audio image w).1
                      = Raise (HTTPException 403 d)))
  /\ ((forall d, Some d ∈ group_chat_sessions w ->
         ~ (gcs_session_id d = sid /\ gcs_user_id d = uid)) ->
      exists d, (group_chat_service._validate_session env sid uid w).1
                = Raise (HTTPException 401 d)).
Proof.
  intros Hdb. repeat split.
  - by apply chat_history_not_found.
  - intros. by apply chat_send_not_found.
  - rewrite chat_delete_run by done.
    by rewrite (proj2 (coll_delete_one_count _ _) (chat_no_match _ _ _ H)).
  - rewrite gl_history_run by done.
    by rewrite (proj2 (coll_find_one_None _ _) (gl_no_match _ _ H)).
  - intros. apply gl_chat_not_found; [done |].
    by apply coll_find_one_None, gl_no_match.
  - rewrite gl_delete_run by done.
    by rewrite (proj2 (coll_delete_one_count _ _) (gl_no_match _ _ H)).
  - rewrite gl_history_run by done.
    destruct (coll_find_one _ _) as [s|] eqn:E; [by eexists |].
    rewrite coll_find_one_None in E. specialize (E d H).
    apply gl_filter_spec in H0. congruence.
  - intros message lang.
    destruct (coll_find_one (global_language_service.by_session_id sid)
                (global_language_sessions w)) as [s|] eqn:E.
    + destruct (gl_chat_found env w sid uid message lang s Hdb E)
        as [[r ->]|[d' ->]]; done.
    + rewrite coll_find_one_None in E. specialize (E d H).
      apply gl_filter_spec in H0. congruence.
  - intros Hnone. eexists. by apply temp_send_unknown.
  - intros s Hs Hne. eexists. by eapply temp_send_other_owner.
  - intros Hno. rewrite validate_session_run by done. simpl.
    assert (coll_find_one (group_chat_service.by_session_and_user sid uid)
              (group_chat_sessions w) = None) as ->; [|by eexists].
    apply coll_find_one_None. intros d Hd. apply not_true_is_false.
    rewrite group_filter_spec. by apply Hno.
Qed.

(** The theorem at work: the session s1 of alice is stored, and bob asks
    for it by its id: history, send and delete all end with the 404. *)
Lemma session_lookup_not_found_witness :
  db_fault scenario.env (length (db_log scenario.chat_world)) = None
  /\ Some scenario.alice_chat_session ∈ chat_sessions scenario.chat_world
  /\ (chat_routes.get_session_history scenario.env "s1" "bob"
        scenario.chat_world).1
     = Raise chat_routes.not_found
  /\ (chat_routes.send_message scenario.env "bob" "s1" "Hello" FieldNone
        FieldNone scenario.chat_world).1
     = Raise chat_routes.not_found
  /\ (chat_routes.delete_session scenario.env "s1" "bob" scenario.chat_world).1
     = Raise chat_routes.not_found.
Proof.
  split; [reflexivity |]. split; [apply list_elem_of_here |].
  destruct (session_lookup_not_found scenario.env scenario.chat_world "s1" "bob"
              eq_refl) as (Hchat & _).
  destruct Hchat as (Hhist & Hsend & Hdel).
  { intros d Hd. apply list_elem_of_singleton in Hd. injection Hd as ->.
    intros [_ Huser]. discriminate Huser. }
  split; [exact Hhist |]. split; [apply Hsend | exact Hdel].
Defined.

(** C1 as stated fails: the global-language chat interaction on the
    session of alice, asked by bob, is served; and the history of that
    session is returned to whoever asks, the route taking no user. *)
Lemma global_language_lookup_ignores_owner :
  (forall d, Some d ∈ global_language_sessions scenario.global_world ->
     ~ (gs_session_id d = "s1" /\ gs_user_id d = "bob"))
  /\ (global_language_routes.process_chat scenario.env "s1" "bob" "Bonjour"
        "French" scenario.global_world).1
     = Return {| response_text := "Hello!"; gcr_target_language := "French" |}
  /\ (global_language_routes.get_history scenario.env "s1"
        scenario.global_world).1
     = Return {| hr_session_id := "s1"; hr_interactions := [] |}.
Proof.
  split; [| split; vm_compute; reflexivity].
  intros d Hd [_ Hu].
  apply list_elem_of_singleton in Hd. by simplify_eq.
Qed.

(** C10 (as amended).  When an API key is configured, [generate_title]
    returns, on every path, a string of at most 50 characters: the input
    stripped when the input has at most 40 characters; otherwise the
    cleaned reply of the API, cut to its first 47 characters and an
    ellipsis when it has more than 50; and when the API call fails, the
    first 40 characters of the input, stripped, and an ellipsis. *)
Theorem generate_title_at_most_50 (env : Env) (first_message : string) (w : World) :
  OPENAI_API_KEY env <> "" ->
  exists t w',
    openai_service.generate_title env first_message w = (Return t, w')
    /\ String.length t <= 50
    /\ (String.length first_message <= 40 ->
        t = pystr.strip first_message /\ w' = w)
    /\ (40 < String.length first_message ->
        match openai env (length (api_log w))
                (openai_service.title_request first_message) with
        | Returns r =>
            let c := openai_service.unquote_title r in
            t = if 50 <? String.length c then pystr.slice_to 47 c +:+ "..." else c
        | Throws _ =>
            t = pystr.strip (pystr.slice_to 40 first_message) +:+ "..."
        end).
Proof.
  intros Hkey. rewrite generate_title_run by done.
  destruct (String.length first_message <=? 40) eqn:E.
  - apply Nat.leb_le in E. eexists _, _. split; [reflexivity |].
    split; [pose proof (length_strip first_message); lia |].
    split; [done | lia].
  - apply Nat.leb_gt in E. simpl.
    destruct (openai env _ _) as [r|e] eqn:Ho.
    + eexists _, _. split; [reflexivity |].
      split; [apply length_clean_title |].
      split; [lia | done].
    + eexists _, _. split; [reflexivity |].
      split; [pose proof (length_title_fallback first_message); lia |].
      split; [lia |]. intros _.
      unfold openai_service.title_fallback.
      by rewrite (proj2 (Nat.ltb_lt _ _) E).
Qed.

(** The theorem at work, on a short first message. *)
Lemma generate_title_at_most_50_witness :
  OPENAI_API_KEY scenario.env <> ""
  /\ exists t w',
       openai_service.generate_title scenario.env "  Plan my trip " empty_world
       = (Return t, w')
       /\ String.length t <= 50.
Proof.
  assert (OPENAI_API_KEY scenario.env <> "") as Hkey by (simpl; congruence).
  split; [exact Hkey |].
  destruct (generate_title_at_most_50 scenario.env "  Plan my trip " empty_world Hkey)
    as (t & w' & Hrun & Hlen & _).
  exists t, w'. split; [exact Hrun | exact Hlen].
Defined.

(** C10 as stated fails: with the default settings (no API key)
    [generate_title] returns nothing, it raises. *)
Lemma generate_title_raises_without_key :
  openai_service.generate_title scenario.no_key_env "Hi" empty_world
  = (Raise (Exception openai_service.api_key_error), empty_world).
Proof. reflexivity. Qed.

(** ** Deleting a session *)

Section DeleteFacts.
Context {A : Type}.
Implicit Types (p : A -> bool) (c : Collection A).

Lemma delete_one_removes_match p c i d :
  at_most_one p c ->
  find_slot p c = Some (i, d) ->
  find_slot p (<[i := None]> c) = None.
Proof.
  intros Huniq Hfind. apply find_slot_Some in Hfind as (Hi & Hp & _).
  apply find_slot_None. intros e He.
  apply list_elem_of_lookup in He as [j Hj].
  destruct (decide (j = i)) as [->|Hne].
  - rewrite list_lookup_insert_eq in Hj by (by eapply lookup_lt_Some). done.
  - rewrite list_lookup_insert_ne in Hj by done.
    apply not_true_is_false. intros He. by specialize (Huniq i j d e Hi Hj Hp He).
Qed.

Lemma coll_delete_one_twice p c :
  at_most_one p c ->
  (exists d, Some d ∈ c /\ p d = true) ->
  (coll_delete_one p c).2 = 1
  /\ (coll_delete_one p (coll_delete_one p c).1).2 = 0.
Proof.
  intros Huniq (d & Hd & Hp).
  destruct (find_slot_is_Some p c d Hd Hp) as [[i d'] Hfind].
  unfold coll_delete_one at 1 3. rewrite Hfind. simpl. split; [done |].
  unfold coll_delete_one. by rewrite (delete_one_removes_match p c i d').
Qed.

End DeleteFacts.

Section DeleteRuns.
Context (env : Env).

Lemma chat_delete_world w sid uid :
  db_fault env (length (db_log w)) = None ->
  (chat_routes.delete_session env sid uid w).2 =
    set_chat_sessions
      (coll_delete_one (chat_routes.by_session_and_user sid uid) (chat_sessions w)).1
      (set_db_log (db_log w ++ [delete_one_call "chat_sessions"]) w).
Proof.
  intros Hdb.
  unfold chat_routes.delete_session, try_except_reraise_http, try_except, bind, delete_one.
  rewrite db_call_ok by done. simpl.
  destruct (coll_delete_one _ _) as [c n]. simpl.
  by destruct (n =? 0).
Qed.

Lemma gl_delete_world w sid :
  db_fault env (length (db_log w)) = None ->
  (global_language_routes.delete_session env sid w).2 =
    set_global_language_sessions
      (coll_delete_one (global_language_service.by_session_id sid)
         (global_language_sessions w)).1
      (set_db_log (db_log w ++ [delete_one_call "global_language_sessions"]) w).
Proof.
  intros Hdb.
  unfold global_language_routes.delete_session, global_language_routes.guarded,
    global_language_service.delete_session,
    try_except_reraise_http, try_except, bind, delete_one.
  rewrite db_call_ok by done. simpl.
  destruct (coll_delete_one _ _) as [c n]. simpl.
  by destruct (n =? 0).
Qed.

End DeleteRuns.

(** C6.  While the database answers: a delete in the chat routes ends
    with 404 exactly when no stored document has the session id and the
    owner id; and for a stored session whose key is unique, deleting it
    twice with the same pair succeeds the first time and ends with 404 the
    second time.  The same holds in the global-language routes, whose
    delete takes the session id alone. *)
Theorem delete_twice_not_found (env : Env) (w : World) (sid uid : string) :
  (forall n, db_fault env n = None) ->
  let ok := Return {| dr_message := "Session deleted successfully"; dr_id := sid |} in
  let p := chat_routes.by_session_and_user sid uid in
  let q := global_language_service.by_session_id sid in
  ((chat_routes.delete_session env sid uid w).1 = Raise chat_routes.not_found
   <-> forall d, Some d ∈ chat_sessions w ->
         ~ (session_id d = sid /\ user_id d = uid))
  /\ ((exists d, Some d ∈ chat_sessions w /\ session_id d = sid /\ user_id d = uid) ->
      at_most_one p (chat_sessions w) ->
      (chat_routes.delete_session env sid uid w).1 = ok
      /\ (chat_routes.delete_session env sid uid
            (chat_routes.delete_session env sid uid w).2).1
         = Raise chat_routes.not_found)
  /\ ((global_language_routes.delete_session env sid w).1
        = Raise global_language_service.not_found
      <-> forall d, Some d ∈ global_language_sessions w -> gs_session_id d <> sid)
  /\ ((exists d, Some d ∈ global_language_sessions w /\ gs_session_id d = sid) ->
      at_most_one q (global_language_sessions w) ->
      (global_language_routes.delete_session env sid w).1 = ok
      /\ (global_language_routes.delete_session env sid
            (global_language_routes.delete_session env sid w).2).1
         = Raise global_language_service.not_found).
Proof.
  intros Hdb ok p q. split; [|split; [|split]].
  - rewrite chat_delete_run by done.
    destruct (_ =? 0) eqn:E.
    + apply Nat.eqb_eq in E.
      pose proof (proj1 (coll_delete_one_count _ _) E) as E'.
      split; [|done]. intros _ d Hd. rewrite <- chat_filter_spec.
      rewrite (E' d Hd). done.
    + apply Nat.eqb_neq in E. split; [done |]. intros H. exfalso. apply E.
      by apply coll_delete_one_count, chat_no_match.
  - intros (d & Hd & Hm) Huniq. apply chat_filter_spec in Hm.
    destruct (coll_delete_one_twice p (chat_sessions w) Huniq) as [H1 H2];
      [by exists d |].
    split.
    + rewrite chat_delete_run by done. fold p. by rewrite H1.
    + rewrite chat_delete_run by done.
      rewrite chat_delete_world by done. simpl. fold p. by rewrite H2.
  - rewrite gl_delete_run by done.
    destruct (_ =? 0) eqn:E.
    + apply Nat.eqb_eq in E.
      pose proof (proj1 (coll_delete_one_count _ _) E) as E'.
      split; [|done]. intros _ d Hd. rewrite <- gl_filter_spec.
      rewrite (E' d Hd). done.
    + apply Nat.eqb_neq in E. split; [done |]. intros H. exfalso. apply E.
      by apply coll_delete_one_count, gl_no_match.
  - intros (d & Hd & Hm) Huniq. apply gl_filter_spec in Hm.
    destruct (coll_delete_one_twice q (global_language_sessions w) Huniq) as [H1 H2];
      [by exists d |].
    split.
    + rewrite gl_delete_run by done. fold q. by rewrite H1.
    + rewrite gl_delete_run by done.
      rewrite gl_delete_world by done. simpl. fold q. by rewrite H2.
Qed.

(** The theorem at work: the one stored session of alice, deleted twice. *)
Lemma delete_twice_not_found_witness :
  (forall n, db_fault scenario.env n = None)
  /\ (chat_routes.delete_session scenario.env "s1" "alice" scenario.chat_world).1
     = Return {| dr_message := "Session deleted successfully"; dr_id := "s1" |}
  /\ (chat_routes.delete_session scenario.env "s1" "alice"
        (chat_routes.delete_session scenario.env "s1" "alice"
           scenario.chat_world).2).1
     = Raise chat_routes.not_found.
Proof.
  assert (forall n, db_fault scenario.env n = None) as Hdb by reflexivity.
  split; [exact Hdb |].
  apply (delete_twice_not_found scenario.env scenario.chat_world "s1" "alice" Hdb).
  - exists scenario.alice_chat_session. split; [apply list_elem_of_here | done].
  - intros [|i] [|j] d e Hi Hj _ _; simpl in *; done.
Defined.

(** ** Updating a stored document *)

Section UpdateFacts.
Context {A : Type}.
Implicit Types (p : A -> bool) (c : Collection A).

Lemma find_slot_insert_match p c i d d' :
  find_slot p c = Some (i, d) -> p d' = true ->
  find_slot p (<[i := Some d']> c) = Some (i, d').
Proof.
  revert i; induction c as [|[d0|] c IH]; intros i; simpl; [done | |].
  - destruct (p d0) eqn:E.
    + intros [= <- <-] Hp. simpl. by rewrite Hp.
    + destruct (find_slot p c) as [[i' d1]|] eqn:F; [|done].
      intros [= <- <-] Hp. simpl. rewrite E. by rewrite (IH i' eq_refl Hp).
  - destruct (find_slot p c) as [[i' d1]|] eqn:F; [|done].
    intros [= <- <-] Hp. simpl. by rewrite (IH i' eq_refl Hp).
Qed.

Lemma coll_find_one_matches p c d :
  coll_find_one p c = Some d -> p d = true.
Proof.
  unfold coll_find_one.
  destruct (find_slot p c) as [[i d0]|] eqn:F; simpl; [|done].
  intros [= ->]. by apply find_slot_Some in F as (_ & Hp & _).
Qed.

(** The stored document after an update, when the update keeps the key. *)
Lemma coll_find_one_update p f u c d :
  coll_find_one p c = Some d -> p (f d) = true ->
  coll_find_one p (coll_update_one p f u c) = Some (f d).
Proof.
  unfold coll_find_one, coll_update_one.
  destruct (find_slot p c) as [[i d0]|] eqn:F; simpl; [|done].
  intros [= ->] Hp. by rewrite (find_slot_insert_match p c i d (f d) F Hp).
Qed.

Lemma coll_update_one_ext p f g u c :
  (forall d, f d = g d) -> coll_update_one p f u c = coll_update_one p g u c.
Proof.
  intros H. unfold coll_update_one.
  destruct (find_slot p c) as [[i d]|]; [by rewrite H | done].
Qed.

Lemma str_in_spec x l : str_in x l = true <-> x ∈ l.
Proof.
  unfold str_in. rewrite existsb_exists. split.
  - intros (y & Hy & Heq). apply String.eqb_eq in Heq. subst.
    by apply list_elem_of_In.
  - intros H. exists x. split; [by apply list_elem_of_In | apply String.eqb_refl].
Qed.

End UpdateFacts.

(** ** Joining a group *)

Section JoinFacts.
Context (env : Env).

Lemma join_group_run w uid sid gid s group :
  (forall n, db_fault env n = None) ->
  coll_find_one (group_chat_service.by_session_and_user sid uid)
    (group_chat_sessions w) = Some s ->
  coll_find_one (group_chat_service.by_group_id gid) (groups w) = Some group ->
  group_chat_service.join_group env uid sid gid w =
    let reads := (db_log w ++ [find_one_call "group_chat_sessions"])
                 ++ [find_one_call "groups"] in
    if str_in uid (members group)
    then (Return (of_bson groups_coll group), set_db_log reads w)
    else
      (Return (set_members (members group ++ [uid]) (of_bson groups_coll group)),
       set_groups
         (coll_update_one (group_chat_service.by_group_id gid)
            (set_members (members group ++ [uid])) None (groups w))
         (set_db_log (reads ++ [update_one_call "groups"]) w)).
Proof.
  intros Hdb Hs Hg.
  unfold group_chat_service.join_group, bind.
  rewrite validate_session_run by done. simpl. rewrite Hs.
  unfold find_one. rewrite db_call_ok by done. simpl. rewrite Hg. simpl.
  destruct (str_in uid (members group)); simpl; [done |].
  unfold update_one. rewrite db_call_ok by done. simpl.
  by rewrite (coll_update_one_ext _ _ _ _ _
                (stored_set_members (members group ++ [uid]))).
Qed.

End JoinFacts.

(** C9.  For a request that passes the session check on a stored group,
    while the database answers.  When the user is already a member, the
    join returns the group as read, its member list being the stored one,
    and writes nothing: the world only logs the two reads.  When the user
    is not a member, the member list of the group returned is the stored
    list followed by the user, and the stored group is the former one
    with this member list and nothing else changed, written by one
    update.  In both cases the user is in the list exactly once when it
    was there at most once before, and joining a second time returns the
    same group and leaves the stored groups as they are. *)
Theorem join_group_idempotent (env : Env) (w : World) (uid sid gid : string)
    (s : GroupChatSession) (group : Group) :
  (forall n, db_fault env n = None) ->
  coll_find_one (group_chat_service.by_session_and_user sid uid)
    (group_chat_sessions w) = Some s ->
  coll_find_one (group_chat_service.by_group_id gid) (groups w) = Some group ->
  let reads := [find_one_call "group_chat_sessions"; find_one_call "groups"] in
  let run := group_chat_service.join_group env uid sid gid w in
  let again := group_chat_service.join_group env uid sid gid run.2 in
  (uid ∈ members group ->
   (exists returned, run.1 = Return returned /\ members returned = members group)
   /\ run.2 = set_db_log (db_log w ++ reads) w)
  /\ (uid ∉ members group ->
      (exists returned,
         run.1 = Return returned
         /\ members returned = members group ++ [uid]
         /\ group_id returned = group_id group
         /\ length (filter (fun m => m = uid) (members returned)) = 1)
      /\ coll_find_one (group_chat_service.by_group_id gid) (groups run.2)
         = Some {| group_id := group_id group; name := name group;
                   type := type group; creator_id := creator_id group;
                   members := members group ++ [uid];
                   g_created_at := g_created_at group;
                   g_messages := g_messages group |}
      /\ db_log run.2 = db_log w ++ reads ++ [update_one_call "groups"])
  /\ again.1 = run.1
  /\ groups again.2 = groups run.2.
Proof.
  intros Hdb Hs Hg reads run again.
  set (joined := {| group_id := group_id group; name := name group;
                    type := type group; creator_id := creator_id group;
                    members := members group ++ [uid];
                    g_created_at := g_created_at group;
                    g_messages := g_messages group |}).
  assert (group_chat_service.by_group_id gid joined = true) as Hkey.
  { exact (coll_find_one_matches _ _ _ Hg). }
  pose proof (join_group_run env w uid sid gid s group Hdb Hs Hg) as Hrun.
  fold run in Hrun. cbv zeta in Hrun.
  destruct (str_in uid (members group)) eqn:Hin.
  - apply str_in_spec in Hin.
    assert (again.1 = run.1 /\ groups again.2 = groups run.2) as Hagain.
    { unfold again.
      rewrite (join_group_run env run.2 uid sid gid s group Hdb);
        rewrite ?Hrun; simpl; [| done ..].
      by rewrite (proj2 (str_in_spec _ _) Hin). }
    split; [intros _ |].
    { rewrite Hrun. simpl. split; [by eexists |].
      by rewrite <- (assoc_L (++)). }
    split; [intros Hnotin; by destruct Hnotin | exact Hagain].
  - assert (uid ∉ members group) as Hnotin.
    { rewrite <- str_in_spec. by rewrite Hin. }
    assert (coll_find_one (group_chat_service.by_group_id gid) (groups run.2)
            = Some joined) as Hstored.
    { rewrite Hrun. simpl.
      by apply (coll_find_one_update _ (set_members (members group ++ [uid]))). }
    assert (again.1 = run.1 /\ groups again.2 = groups run.2) as Hagain.
    { unfold again.
      rewrite (join_group_run env run.2 uid sid gid s joined Hdb);
        [| rewrite Hrun; simpl; exact Hs | exact Hstored].
      assert (str_in uid (members joined) = true) as ->.
      { apply str_in_spec. simpl. apply elem_of_app. right.
        apply list_elem_of_here. }
      by rewrite Hrun. }
    split; [intros Hmem; by destruct Hnotin |].
    split; [intros _ | exact Hagain].
    split; [| split; [exact Hstored |]].
    + rewrite Hrun. simpl. eexists. split; [done |]. simpl.
      split; [done |]. split; [done |].
      rewrite filter_app, length_app.
      assert (filter (fun m => m = uid) (members group) = []) as ->.
      { destruct (filter _ (members group)) as [|m l] eqn:E; [done |].
        assert (m ∈ filter (fun m => m = uid) (members group)) as Hm
          by (rewrite E; apply list_elem_of_here).
        apply list_elem_of_filter in Hm as [-> Hm]. done. }
      by rewrite filter_cons_True.
    + rewrite Hrun. simpl. by rewrite <- !(assoc_L (++)).
Qed.

(** The theorem at work: bob joins the study group of alice. *)
Lemma join_group_idempotent_witness :
  (forall n, db_fault scenario.env n = None)
  /\ coll_find_one (group_chat_service.by_session_and_user "gs2" "bob")
       (group_chat_sessions scenario.group_world)
     = Some scenario.bob_group_session
  /\ coll_find_one (group_chat_service.by_group_id "g1")
       (groups scenario.group_world)
     = Some scenario.study_group
  /\ ("bob" ∉ members scenario.study_group)
  /\ members <$>
       coll_find_one (group_chat_service.by_group_id "g1")
         (groups (group_chat_service.join_group scenario.env "bob" "gs2" "g1"
                    scenario.group_world).2)
     = Some ["alice"; "bob"].
Proof.
  assert (forall n, db_fault scenario.env n = None) as Hdb by reflexivity.
  assert ("bob" ∉ members scenario.study_group) as Hnot.
  { simpl. intros Hin. apply list_elem_of_singleton in Hin. discriminate Hin. }
  split; [exact Hdb |]. split; [reflexivity |]. split; [reflexivity |].
  split; [exact Hnot |].
  destruct (join_group_idempotent scenario.env scenario.group_world
              "bob" "gs2" "g1" scenario.bob_group_session scenario.study_group
              Hdb eq_refl eq_refl) as (_ & Hjoin & _).
  destruct (Hjoin Hnot) as (_ & -> & _). reflexivity.
Defined.

(** ** Sending a message to a group *)

Section GroupSendFacts.
Context (env : Env).

Lemma chat_completion_run msgs max_tokens w :
  openai_service.chat_completion env msgs max_tokens w =
    if pystr.truthy (OPENAI_API_KEY env)
    then
      let r := chat_completions_create "gpt-4o" msgs max_tokens in
      let w' := set_api_log (api_log w ++ [r]) w in
      match openai env (length (api_log w)) r with
      | Returns s => (Return s, w')
      | Throws e => (Raise (Exception ("OpenAI API Error: " +:+ e)), w')
      end
    else (Raise (Exception openai_service.api_key_error), w).
Proof.
  unfold openai_service.chat_completion, openai_service._ensure_async_initialized,
    bind, try_except, api_call.
  destruct (pystr.truthy (OPENAI_API_KEY env)); simpl; [|done].
  by destruct (openai env _ _).
Qed.

(** The context of a reply is made of roles and contents: it is the same
    for the messages as stored and as read. *)
Lemma context_of_last_n_dates f n (l : list GroupMessage) x :
  map group_chat_service.context_of
    (last_n n (map (GroupMessage_dates f) l ++ [x]))
  = map group_chat_service.context_of (last_n n (l ++ [x])).
Proof.
  unfold last_n. rewrite !length_app, length_map.
  rewrite <- !skipn_map, !map_app, map_map. done.
Qed.

End GroupSendFacts.

(** The run of a send to a group: the reply, the two writes and the log
    of the database, with the second write answered or not. *)
Lemma group_send_run (env : Env) (w : World)
    (gid sid uid content : string) (s : GroupChatSession) (group : Group) :
  let n := length (db_log w) in
  db_fault env n = None -> db_fault env (S n) = None ->
  db_fault env (S (S n)) = None ->
  coll_find_one (group_chat_service.by_session_and_user sid uid)
    (group_chat_sessions w) = Some s ->
  coll_find_one (group_chat_service.by_group_id gid) (groups w) = Some group ->
  uid ∈ members group ->
  let user_message :=
    {| message_id := uuid4 env (uuid_draws w); gm_user_id := uid;
       gm_content := content; gm_timestamp := clock env (clock_reads w);
       is_ai := false |} in
  let context_messages :=
    group_chat_service.system_context (type group)
    :: map group_chat_service.context_of
         (last_n 10 (g_messages group ++ [user_message])) in
  let reply :=
    if pystr.truthy (OPENAI_API_KEY env)
    then match openai env (length (api_log w))
                 (chat_completions_create "gpt-4o" context_messages 500) with
         | Returns r => r
         | Throws _ => group_chat_service.fallback_reply
         end
    else group_chat_service.fallback_reply in
  let ai_message :=
    {| message_id := uuid4 env (S (uuid_draws w)); gm_user_id := "AI";
       gm_content := reply; gm_timestamp := clock env (S (clock_reads w));
       is_ai := true |} in
  let run := group_chat_service.send_message env gid sid uid content w in
  let first_write :=
    coll_update_one (group_chat_service.by_group_id gid)
      (push_message (GroupMessage_dates bson_of_datetime user_message)) None
      (groups w) in
  db_log run.2 =
    db_log w ++ [find_one_call "group_chat_sessions"; find_one_call "groups";
                 update_one_call "groups"; update_one_call "groups"]
  /\ match db_fault env (S (S (S n))) with
     | None =>
         run.1 = Return ai_message
         /\ groups run.2 =
              coll_update_one (group_chat_service.by_group_id gid)
                (push_message (GroupMessage_dates bson_of_datetime ai_message))
                None first_write
     | Some e =>
         run.1 = Raise (Exception e) /\ groups run.2 = first_write
     end.
Proof.
  intros n Hdb0 Hdb1 Hdb2 Hs Hg Hmem user_message context_messages reply
    ai_message run first_write.
  assert (length (db_log w ++ [find_one_call "group_chat_sessions"]) = S n) as Hl1
    by (rewrite length_app; simpl; lia).
  assert (length ((db_log w ++ [find_one_call "group_chat_sessions"])
                  ++ [find_one_call "groups"]) = S (S n)) as Hl2
    by (rewrite !length_app; simpl; lia).
  assert (length (((db_log w ++ [find_one_call "group_chat_sessions"])
                   ++ [find_one_call "groups"]) ++ [update_one_call "groups"])
          = S (S (S n))) as Hl3
    by (rewrite !length_app; simpl; lia).
  unfold run, group_chat_service.send_message, bind.
  rewrite validate_session_run by done. simpl. rewrite Hs.
  unfold find_one, db_call. simpl. rewrite Hl1, Hdb1. simpl.
  rewrite Hg. simpl. apply str_in_spec in Hmem. rewrite Hmem. simpl.
  unfold update_one, db_call. simpl. rewrite Hl2, Hdb2. simpl.
  unfold try_except. rewrite chat_completion_run. simpl.
  rewrite context_of_last_n_dates.
  fold user_message. fold context_messages.
  rewrite !(coll_update_one_ext _ _ _ _ _ (stored_push_message _)).
  fold first_write.
  subst reply.
  destruct (pystr.truthy (OPENAI_API_KEY env)); simpl;
    [destruct (openai env _ _); simpl |];
    rewrite Hl3; destruct (db_fault env (S (S (S n)))); simpl.
  all: rewrite <- ?(assoc_L (++)); simpl.
  all: rewrite ?(coll_update_one_ext _ _ _ _ _ (stored_push_message _)); done.
Qed.

(** C2.  For a send that passes the session check, on a stored group, by
    a member, while the database answers the two reads and the first
    write: the user message is written first; the reply is the text of the
    API or, whenever the reply generation fails, the fallback text; and
    - when the second write is answered, the call returns the reply
      message and the stored message list is the former list followed by
      the user message and the reply message, in this order (each as the
      database keeps it, its date in milliseconds), the log showing two
      separate update operations;
    - when the second write throws, the call raises and the stored list
      has grown by the user message alone: the two writes are not
      atomic. *)
Theorem group_send_appends_two (env : Env) (w : World)
    (gid sid uid content : string) (s : GroupChatSession) (group : Group) :
  let n := length (db_log w) in
  db_fault env n = None -> db_fault env (S n) = None ->
  db_fault env (S (S n)) = None ->
  coll_find_one (group_chat_service.by_session_and_user sid uid)
    (group_chat_sessions w) = Some s ->
  coll_find_one (group_chat_service.by_group_id gid) (groups w) = Some group ->
  uid ∈ members group ->
  let user_message :=
    {| message_id := uuid4 env (uuid_draws w); gm_user_id := uid;
       gm_content := content; gm_timestamp := clock env (clock_reads w);
       is_ai := false |} in
  let context_messages :=
    group_chat_service.system_context (type group)
    :: map group_chat_service.context_of
         (last_n 10 (g_messages group ++ [user_message])) in
  let reply :=
    if pystr.truthy (OPENAI_API_KEY env)
    then match openai env (length (api_log w))
                 (chat_completions_create "gpt-4o" context_messages 500) with
         | Returns r => r
         | Throws _ => group_chat_service.fallback_reply
         end
    else group_chat_service.fallback_reply in
  let ai_message :=
    {| message_id := uuid4 env (S (uuid_draws w)); gm_user_id := "AI";
       gm_content := reply; gm_timestamp := clock env (S (clock_reads w));
       is_ai := true |} in
  let stored_user_message :=
    {| message_id := uuid4 env (uuid_draws w); gm_user_id := uid;
       gm_content := content;
       gm_timestamp := bson_of_datetime (clock env (clock_reads w));
       is_ai := false |} in
  let stored_ai_message :=
    {| message_id := uuid4 env (S (uuid_draws w)); gm_user_id := "AI";
       gm_content := reply;
       gm_timestamp := bson_of_datetime (clock env (S (clock_reads w)));
       is_ai := true |} in
  let run := group_chat_service.send_message env gid sid uid content w in
  let stored :=
    g_messages <$> coll_find_one (group_chat_service.by_group_id gid) (groups run.2) in
  match db_fault env (S (S (S n))) with
  | None =>
      run.1 = Return ai_message
      /\ stored = Some (g_messages group
                        ++ [stored_user_message; stored_ai_message])
      /\ db_log run.2 =
           db_log w ++ [find_one_call "group_chat_sessions"; find_one_call "groups";
                        update_one_call "groups"; update_one_call "groups"]
  | Some e =>
      run.1 = Raise (Exception e)
      /\ stored = Some (g_messages group ++ [stored_user_message])
  end.
Proof.
  intros n Hdb0 Hdb1 Hdb2 Hs Hg Hmem user_message context_messages reply
    ai_message stored_user_message stored_ai_message run stored.
  pose proof (group_send_run env w gid sid uid content s group
                Hdb0 Hdb1 Hdb2 Hs Hg Hmem) as (Hlog & Hrun).
  fold n user_message context_messages reply ai_message run in Hlog, Hrun.
  change (GroupMessage_dates bson_of_datetime user_message)
    with stored_user_message in Hrun.
  change (GroupMessage_dates bson_of_datetime ai_message)
    with stored_ai_message in Hrun.
  assert (group_chat_service.by_group_id gid group = true) as Hkey
    by exact (coll_find_one_matches _ _ _ Hg).
  assert (coll_find_one (group_chat_service.by_group_id gid)
            (coll_update_one (group_chat_service.by_group_id gid)
               (push_message stored_user_message) None (groups w))
          = Some (push_message stored_user_message group)) as Hfirst
    by (by apply coll_find_one_update).
  unfold stored.
  destruct (db_fault env (S (S (S n)))) as [e|].
  - destruct Hrun as (Hret & ->). split; [exact Hret |].
    by rewrite Hfirst.
  - destruct Hrun as (Hret & ->). split; [exact Hret |]. split; [| exact Hlog].
    rewrite (coll_find_one_update _ (push_message stored_ai_message) None _ _
               Hfirst) by exact Hkey.
    simpl. by rewrite <- (assoc_L (++)).
Qed.

(** The theorem at work: alice writes to her study group while the API is
    unreachable; her message and the fallback reply are stored. *)
Lemma group_send_appends_two_witness :
  db_fault scenario.offline_env 0 = None
  /\ db_fault scenario.offline_env 1 = None
  /\ db_fault scenario.offline_env 2 = None
  /\ "alice" ∈ members scenario.study_group
  /\ g_messages <$>
       coll_find_one (group_chat_service.by_group_id "g1")
         (groups (group_chat_service.send_message scenario.offline_env
                    "g1" "gs1" "alice" "Hello AI" scenario.group_world).2)
     = Some [ {| message_id := "id-0"; gm_user_id := "alice";
                 gm_content := "Hello AI"; gm_timestamp := 1; is_ai := false |};
              {| message_id := "id-1"; gm_user_id := "AI";
                 gm_content := group_chat_service.fallback_reply;
                 gm_timestamp := 2; is_ai := true |} ].
Proof.
  assert ("alice" ∈ members scenario.study_group) as Hmem
    by apply list_elem_of_here.
  repeat (split; [first [reflexivity | exact Hmem] |]).
  destruct (group_send_appends_two scenario.offline_env scenario.group_world
              "g1" "gs1" "alice" "Hello AI"
              scenario.alice_group_session scenario.study_group
              eq_refl eq_refl eq_refl eq_refl eq_refl Hmem) as (_ & Hstored & _).
  exact Hstored.
Defined.

(** ** Reasoning on runs *)

Section RunLogic.
Context {A B : Type}.

Lemma wp_bind (m : M A) (k : A -> M B) Q w :
  wp m (fun o w' =>
          match o with
          | Return a => wp (k a) Q w'
          | Raise e => Q (Raise e) w'
          end) w ->
  wp (bind m k) Q w.
Proof. unfold wp, bind. by destruct (m w) as [[a|e] w']. Qed.

Lemma wp_try_except (m : M A) (h : exn -> M A) Q w :
  wp m (fun o w' =>
          match o with
          | Return a => Q (Return a) w'
          | Raise e => wp (h e) Q w'
          end) w ->
  wp (try_except m h) Q w.
Proof. unfold wp, try_except. by destruct (m w) as [[a|e] w']. Qed.

Lemma wp_respects R (m : M A) (Q : outcome A -> World -> Prop) w :
  respects R m -> (forall o w', R w w' -> Q o w') -> wp m Q w.
Proof. intros Hm HQ. unfold wp. apply HQ, Hm. Qed.

End RunLogic.

Section Respects.
Context (R : World -> World -> Prop) `{!PreOrder R}.

Lemma respects_ret {A} (a : A) : respects R (ret a).
Proof. intros w. reflexivity. Qed.

Lemma respects_raise {A} e : respects R (@raise A e).
Proof. intros w. reflexivity. Qed.

Lemma respects_bind {A B} (m : M A) (k : A -> M B) :
  respects R m -> (forall a, respects R (k a)) -> respects R (bind m k).
Proof.
  intros Hm Hk w. unfold bind. specialize (Hm w).
  destruct (m w) as [[a|e] w']; simpl in *; [|done].
  etrans; [exact Hm | apply Hk].
Qed.

Lemma respects_try_except {A} (m : M A) (h : exn -> M A) :
  respects R m -> (forall e, respects R (h e)) -> respects R (try_except m h).
Proof.
  intros Hm Hh w. unfold try_except. specialize (Hm w).
  destruct (m w) as [[a|e] w']; simpl in *; [done |].
  etrans; [exact Hm | apply Hh].
Qed.

Lemma respects_try_reraise {A} (m : M A) (h : exn -> M A) :
  respects R m -> (forall e, respects R (h e)) ->
  respects R (try_except_reraise_http m h).
Proof.
  intros Hm Hh. apply respects_try_except; [done |].
  intros [s d|msg]; [apply respects_raise | apply Hh].
Qed.

Lemma respects_when c (m : M unit) : respects R m -> respects R (when c m).
Proof. intros Hm. destruct c; [done | apply respects_ret]. Qed.

Lemma respects_respond {A} (f : A -> response) (m : M A) :
  respects R m -> respects R (respond f m).
Proof. intros Hm. apply respects_bind; [done |]. intros a. apply respects_ret. Qed.

Lemma respects_weaken {A} (R' : World -> World -> Prop) (m : M A) :
  (forall w w', R' w w' -> R w w') -> respects R' m -> respects R m.
Proof. intros Hsub Hm w. apply Hsub, Hm. Qed.

End Respects.

#[local] Instance only_logs_preorder : PreOrder only_logs.
Proof.
  split.
  - intros w. unfold only_logs. repeat split; done.
  - intros w1 w2 w3 (?&?&?&?&?&?) (?&?&?&?&?&?). unfold only_logs.
    repeat split; try congruence. lia.
Qed.

#[local] Instance draws_grow_preorder : PreOrder draws_grow.
Proof.
  split.
  - intros w. unfold draws_grow. done.
  - intros w1 w2 w3. unfold draws_grow. lia.
Qed.

(** One step of a proof that a handler respects a relation. *)
Ltac respects_step :=
  first
    [ apply respects_ret; apply _
    | apply respects_raise; apply _
    | apply respects_respond; [apply _ |]
    | apply respects_when; [apply _ |]
    | apply respects_try_reraise; [apply _ | | intros ?]
    | apply respects_try_except; [apply _ | | intros ?]
    | apply respects_bind; [apply _ | | intros ?]
    | match goal with
      | |- respects _ (match ?x with _ => _ end) => destruct x
      | |- respects _ (if ?b then _ else _) => destruct b
      | |- respects _ (let _ := _ in _) => cbv zeta
      end ].

(** The calls that only read or log. *)
Section LogsOnly.
Context (env : Env).

Lemma only_logs_new_uuid : respects only_logs (new_uuid env).
Proof. intros w. unfold only_logs. simpl. repeat split; try done. lia. Qed.

Lemma only_logs_utcnow : respects only_logs (utcnow env).
Proof. intros w. unfold only_logs. simpl. repeat split; done. Qed.

Lemma only_logs_api_call r : respects only_logs (api_call env r).
Proof.
  intros w. unfold api_call.
  destruct (openai env _ r); unfold only_logs; simpl; repeat split; done.
Qed.

Lemma only_logs_find_one {D} (c : CollRef D) p :
  (forall l w, only_logs w (set_db_log l w)) ->
  respects only_logs (find_one env c p).
Proof.
  intros Hl w. unfold find_one, db_call.
  destruct (db_fault env _); simpl; apply Hl.
Qed.

Lemma only_logs_set_db_log l w : only_logs w (set_db_log l w).
Proof. unfold only_logs. simpl. repeat split; done. Qed.

Lemma only_logs_ensure :
  respects only_logs (openai_service._ensure_async_initialized env).
Proof.
  unfold openai_service._ensure_async_initialized.
  repeat respects_step.
Qed.

Lemma only_logs_chat_completion msgs n :
  respects only_logs (openai_service.chat_completion env msgs n).
Proof.
  unfold openai_service.chat_completion.
  repeat first [apply only_logs_ensure | apply only_logs_api_call | respects_step].
Qed.

Lemma only_logs_generate_title s :
  respects only_logs (openai_service.generate_title env s).
Proof.
  unfold openai_service.generate_title.
  repeat first [apply only_logs_ensure | apply only_logs_api_call | respects_step].
Qed.

Lemma only_logs_transcribe_audio d f :
  respects only_logs (openai_service.transcribe_audio env d f).
Proof.
  unfold openai_service.transcribe_audio.
  repeat first [apply only_logs_ensure | apply only_logs_api_call | respects_step].
Qed.

Lemma only_logs_read_user_text message audio :
  respects only_logs (read_user_text env message audio).
Proof.
  unfold read_user_text.
  repeat first [apply only_logs_transcribe_audio | respects_step].
Qed.

Lemma only_logs_read_image image : respects only_logs (read_image env image).
Proof. unfold read_image. repeat respects_step. Qed.

Lemma only_logs_get_ai_response msgs :
  respects only_logs (get_ai_response env msgs).
Proof.
  unfold get_ai_response.
  repeat first [apply only_logs_chat_completion | respects_step].
Qed.

End LogsOnly.

Section DatabaseRuns.
Context (env : Env) {D : Type} (c : CollRef D).

Lemma wp_find_one p (Q : outcome (option D) -> World -> Prop) w :
  let w1 := set_db_log (db_log w ++ [find_one_call (coll_name c)]) w in
  (forall s, Q (Raise (Exception s)) w1) ->
  Q (Return (of_bson c <$> coll_find_one p (coll_get c w1))) w1 ->
  wp (find_one env c p) Q w.
Proof.
  intros w1 Hf Hok. unfold wp, find_one, db_call. fold w1.
  destruct (db_fault env _); simpl; [apply Hf | apply Hok].
Qed.

Lemma wp_update_one p f u (Q : outcome unit -> World -> Prop) w :
  let w1 := set_db_log (db_log w ++ [update_one_call (coll_name c)]) w in
  (forall s, Q (Raise (Exception s)) w1) ->
  Q (Return tt)
    (coll_set c (coll_update_one p (stored_update c f) (to_bson c <$> u)
                   (coll_get c w1)) w1) ->
  wp (update_one env c p f u) Q w.
Proof.
  intros w1 Hf Hok. unfold wp, update_one, db_call. fold w1.
  destruct (db_fault env _); simpl; [apply Hf | apply Hok].
Qed.

End DatabaseRuns.

Section WorldOnly.
Context {A : Type}.

(** A handler that only re-raises leaves the world of the guarded run. *)
Lemma wp_world_try_reraise (m : M A) (f : exn -> exn) (P : World -> Prop) w :
  wp m (fun _ w' => P w') w ->
  wp (try_except_reraise_http m (fun e => raise (f e))) (fun _ w' => P w') w.
Proof.
  unfold wp, try_except_reraise_http, try_except.
  by destruct (m w) as [[a|[s d|msg]] w'].
Qed.

End WorldOnly.

(** ** What a chat message does to the store *)

Section ChatSendEffect.
Context (env : Env).

(** The title block: it never raises, and gives back the session with, at
    most, another title; the title is kept when the session already has
    messages. *)
Lemma wp_title_block (cs : ChatSession) (text : string) Q w :
  (forall t w', only_logs w w' ->
     (messages cs <> [] -> t = title cs) ->
     Q (Return (set_title t cs)) w') ->
  wp (if (length (messages cs) =? 0) && pystr.truthy text
      then
        try_except
          (generated_title <- openai_service.generate_title env text ;;
           ret (set_title generated_title cs))
          (fun _ => ret (set_title (route_title_fallback text) cs))
      else ret cs) Q w.
Proof.
  intros HQ.
  assert (forall t, (length (messages cs) =? 0) = true ->
            messages cs <> [] -> t = title cs) as Hfirst.
  { intros t Hlen Hne. apply Nat.eqb_eq in Hlen.
    by destruct (messages cs). }
  destruct (length (messages cs) =? 0) eqn:Hlen; simpl;
    [destruct (pystr.truthy text) |].
  - apply wp_try_except, wp_bind.
    apply (wp_respects only_logs); [apply only_logs_generate_title |].
    intros [t|e] w' Hl; unfold wp; simpl; apply HQ; auto.
  - unfold wp. simpl.
    replace cs with (set_title (title cs) cs) at 1 by (by destruct cs).
    apply HQ; [reflexivity | done].
  - unfold wp. simpl.
    replace cs with (set_title (title cs) cs) at 1 by (by destruct cs).
    apply HQ; [reflexivity | done].
Qed.

Lemma chat_send_effect uid sid message audio image w :
  let w' := (chat_routes.send_message env uid sid message audio image w).2 in
  group_chat_sessions w' = group_chat_sessions w
  /\ groups w' = groups w
  /\ global_language_sessions w' = global_language_sessions w
  /\ TEMP_SESSIONS w' = TEMP_SESSIONS w
  /\ uuid_draws w <= uuid_draws w'
  /\ (chat_sessions w' = chat_sessions w
      \/ exists cs cs',
           coll_find_one (chat_routes.by_session_and_user sid uid) (chat_sessions w)
           = Some cs
           /\ sent_from cs cs'
           /\ chat_sessions w' =
                coll_update_one (chat_routes.by_session_and_user sid uid)
                  (fun _ => cs') (Some cs') (chat_sessions w)).
Proof.
  set (P := fun w' : World =>
    group_chat_sessions w' = group_chat_sessions w
    /\ groups w' = groups w
    /\ global_language_sessions w' = global_language_sessions w
    /\ TEMP_SESSIONS w' = TEMP_SESSIONS w
    /\ uuid_draws w <= uuid_draws w'
    /\ (chat_sessions w' = chat_sessions w
        \/ exists cs cs',
             coll_find_one (chat_routes.by_session_and_user sid uid) (chat_sessions w)
             = Some cs
             /\ sent_from cs cs'
             /\ chat_sessions w' =
                  coll_update_one (chat_routes.by_session_and_user sid uid)
                    (fun _ => cs') (Some cs') (chat_sessions w))).
  assert (forall w', only_logs w w' -> P w') as HP.
  { intros w' (?&?&?&?&?&?). unfold P. repeat split; auto. }
  change (wp (chat_routes.send_message env uid sid message audio image)
            (fun _ w' => P w') w).
  unfold chat_routes.send_message. cbv zeta.
  apply wp_world_try_reraise, wp_bind, wp_find_one.
  { intros s. apply HP, only_logs_set_db_log. }
  simpl.
  pose proof (only_logs_set_db_log (db_log w ++ [find_one_call "chat_sessions"]) w)
    as Hl.
  revert Hl. generalize (set_db_log (db_log w ++ [find_one_call "chat_sessions"]) w).
  intros w1 Hl.
  destruct (coll_find_one _ (chat_sessions w)) as [cs|] eqn:Hfind;
    [| by apply HP].
  apply wp_bind, (wp_respects only_logs); [apply only_logs_read_user_text |].
  intros [text|e] w2 Hl2; [| apply HP; by etrans].
  assert (only_logs w w2) as Hw2 by (by etrans). clear Hl Hl2.
  destruct (negb (pystr.truthy text) && _); [by apply HP |].
  apply wp_bind, (wp_respects only_logs); [apply only_logs_read_image |].
  intros [image_data|e] w3 Hl3; [| apply HP; by etrans].
  assert (only_logs w w3) as Hw3 by (by etrans). clear Hw2 Hl3.
  apply wp_bind, wp_title_block. intros t w4 Hl4 Htitle.
  assert (only_logs w w4) as Hw4 by (by etrans). clear Hw3 Hl4.
  apply wp_bind, (wp_respects only_logs); [apply only_logs_utcnow |].
  intros [now1|e] w5 Hl5; [| apply HP; by etrans].
  assert (only_logs w w5) as Hw5 by (by etrans). clear Hw4 Hl5.
  apply wp_bind, (wp_respects only_logs); [apply only_logs_get_ai_response |].
  intros [reply|e] w6 Hl6; [| apply HP; by etrans].
  assert (only_logs w w6) as Hw6 by (by etrans). clear Hw5 Hl6.
  apply wp_bind, (wp_respects only_logs); [apply only_logs_utcnow |].
  intros [now2|e] w7 Hl7; [| apply HP; by etrans].
  assert (only_logs w w7) as Hw7 by (by etrans). clear Hw6 Hl7.
  apply wp_bind, (wp_respects only_logs); [apply only_logs_utcnow |].
  intros [now3|e] w8 Hl8; [| apply HP; by etrans].
  assert (only_logs w w8) as Hw8 by (by etrans). clear Hw7 Hl8.
  apply wp_bind, wp_update_one.
  { intros s. apply HP. etrans; [exact Hw8 | apply only_logs_set_db_log]. }
  unfold wp. cbn [fst snd ret coll_get coll_set chat_sessions_coll].
  destruct Hw8 as (Hc & Hgs & Hg & Hgl & Ht & Hu).
  unfold P. cbn [chat_sessions group_chat_sessions groups
                 global_language_sessions TEMP_SESSIONS uuid_draws
                 set_chat_sessions set_db_log].
  repeat split; auto.
  right. eexists cs, _. split; [done |]. rewrite Hc.
  split; [| apply coll_update_one_ext; intros d; reflexivity].
  unfold sent_from, to_bson. simpl.
  rewrite !map_app, Messages_to_of_bson, !bson_of_datetime_of_bson. simpl.
  split_and!; try done.
  - eexists _, _. by rewrite <- (assoc_L (++)).
  - intros Hne. apply Htitle. simpl. by destruct (messages cs).
Qed.

End ChatSendEffect.

(** ** Histories are kept *)

Section KeptFacts.
Context {A B : Type} (hist : A -> list B).
Implicit Types (c : Collection A) (del : bool).

Lemma kept_refl del c : kept del hist c c.
Proof. split; [|done]. intros i d Hi. right. by exists d. Qed.

Lemma kept_trans del c1 c2 c3 :
  kept del hist c1 c2 -> kept del hist c2 c3 -> kept del hist c1 c3.
Proof.
  intros [H12 E12] [H23 E23]. split.
  - intros i d Hi. destruct (H12 i d Hi) as [[Hd Hn]|(d2 & Hi2 & Hp2)].
    + left. split; [done | by apply E23].
    + destruct (H23 i d2 Hi2) as [?|(d3 & Hi3 & Hp3)]; [by left |].
      right. exists d3. split; [done | by etrans].
  - intros i Hi. by apply E23, E12.
Qed.

Lemma kept_weaken del c c' : kept false hist c c' -> kept del hist c c'.
Proof.
  intros [H E]. split; [|done].
  intros i d Hi. destruct (H i d Hi) as [[? ?]|?]; [done | by right].
Qed.

Lemma kept_insert del c d : kept del hist c (coll_insert_one d c).
Proof.
  unfold coll_insert_one. split.
  - intros i e Hi. right. exists e. split; [|done].
    by apply lookup_app_l_Some.
  - intros i Hi. by apply lookup_app_l_Some.
Qed.

Lemma kept_update del p f u c :
  (forall d, hist d `prefix_of` hist (f d)) ->
  kept del hist c (coll_update_one p f u c).
Proof.
  intros Hf. unfold coll_update_one.
  destruct (find_slot p c) as [[i d]|] eqn:F.
  - apply find_slot_Some in F as (Hi & _). split.
    + intros j e Hj. right. destruct (decide (j = i)) as [->|Hne].
      * exists (f d). rewrite list_lookup_insert_eq by (by eapply lookup_lt_Some).
        split; [done |]. rewrite Hi in Hj. injection Hj as <-. apply Hf.
      * exists e. by rewrite list_lookup_insert_ne.
    + intros j Hj. destruct (decide (j = i)) as [->|Hne]; [congruence |].
      by rewrite list_lookup_insert_ne.
  - destruct u; [apply kept_insert | apply kept_refl].
Qed.

(** An update that replaces the document found by one whose history
    extends it. *)
Lemma kept_replace del p c d d' u :
  coll_find_one p c = Some d ->
  hist d `prefix_of` hist d' ->
  kept del hist c (coll_update_one p (fun _ => d') u c).
Proof.
  intros Hfind Hp. unfold coll_find_one in Hfind. unfold coll_update_one.
  destruct (find_slot p c) as [[i d0]|] eqn:F; simpl in Hfind; [|done].
  injection Hfind as ->.
  apply find_slot_Some in F as (Hi & _). split.
  - intros j e Hj. right. destruct (decide (j = i)) as [->|Hne].
    + exists d'. rewrite list_lookup_insert_eq by (by eapply lookup_lt_Some).
      split; [done |]. rewrite Hi in Hj. by injection Hj as <-.
    + exists e. by rewrite list_lookup_insert_ne.
  - intros j Hj. destruct (decide (j = i)) as [->|Hne]; [congruence |].
    by rewrite list_lookup_insert_ne.
Qed.

Lemma kept_delete p c : kept true hist c (coll_delete_one p c).1.
Proof.
  unfold coll_delete_one.
  destruct (find_slot p c) as [[i d]|] eqn:F; simpl; [|apply kept_refl].
  apply find_slot_Some in F as (Hi & _). split.
  - intros j e Hj. destruct (decide (j = i)) as [->|Hne].
    + left. split; [done |].
      by rewrite list_lookup_insert_eq by (by eapply lookup_lt_Some).
    + right. exists e. by rewrite list_lookup_insert_ne.
  - intros j Hj. destruct (decide (j = i)) as [->|Hne]; [congruence |].
    by rewrite list_lookup_insert_ne.
Qed.

End KeptFacts.

Section TempKeptFacts.
Implicit Types (t : gmap string ChatSession).

Lemma temp_kept_refl t : temp_kept t t.
Proof. intros sid s Hs. by exists s. Qed.

Lemma temp_kept_trans t1 t2 t3 :
  temp_kept t1 t2 -> temp_kept t2 t3 -> temp_kept t1 t3.
Proof.
  intros H12 H23 sid s Hs.
  destruct (H12 sid s Hs) as (s2 & Hs2 & Hp2).
  destruct (H23 sid s2 Hs2) as (s3 & Hs3 & Hp3).
  exists s3. split; [done | by etrans].
Qed.

Lemma temp_kept_alter f sid t :
  (forall s, messages s `prefix_of` messages (f s)) ->
  temp_kept t (alter f sid t).
Proof.
  intros Hf k s Hs. destruct (decide (k = sid)) as [->|Hne].
  - exists (f s). split; [|apply Hf].
    by rewrite lookup_alter_eq, Hs.
  - exists s. split; [|done]. by rewrite lookup_alter_ne.
Qed.

Lemma temp_kept_insert_fresh sid s t :
  t !! sid = None -> temp_kept t (<[sid := s]> t).
Proof.
  intros Hnone k s0 Hs0. exists s0. split; [|done].
  rewrite lookup_insert_ne; [done | congruence].
Qed.

End TempKeptFacts.

#[local] Instance histories_kept_preorder del : PreOrder (histories_kept del).
Proof.
  split.
  - intros w. unfold histories_kept.
    split_and!; first [apply kept_refl | apply temp_kept_refl].
  - intros w1 w2 w3 (?&?&?&?) (?&?&?&?). unfold histories_kept.
    split_and!; first [by eapply kept_trans | by eapply temp_kept_trans].
Qed.

Lemma histories_kept_of_logs del w w' :
  only_logs w w' -> histories_kept del w w'.
Proof.
  intros (Hc & _ & Hg & Hgl & Ht & _). unfold histories_kept.
  rewrite Hc, Hg, Hgl, Ht.
  split_and!; first [apply kept_refl | apply temp_kept_refl].
Qed.

Lemma histories_kept_weaken del w w' :
  histories_kept false w w' -> histories_kept del w w'.
Proof.
  intros (?&?&?&?). unfold histories_kept.
  split_and!; first [by apply kept_weaken | done].
Qed.

Ltac logs_prim :=
  first
    [ apply only_logs_new_uuid | apply only_logs_utcnow | apply only_logs_api_call
    | apply only_logs_find_one, only_logs_set_db_log
    | apply only_logs_chat_completion | apply only_logs_generate_title
    | apply only_logs_read_user_text | apply only_logs_read_image
    | apply only_logs_get_ai_response ].

Section HandlersKeep.
Context (env : Env).

Lemma respects_db_call (R : World -> World -> Prop) `{!PreOrder R}
    {A} c (f : World -> A * World) :
  (forall w w', only_logs w w' -> R w w') ->
  (forall w, R w (f w).2) ->
  respects R (db_call env c f).
Proof.
  intros Hlogs Hf w. unfold db_call.
  destruct (db_fault env _); simpl; [apply Hlogs, only_logs_set_db_log |].
  destruct (f _) as [a w''] eqn:E. simpl.
  etrans; [apply Hlogs, (only_logs_set_db_log (db_log w ++ [c]) w) |].
  specialize (Hf (set_db_log (db_log w ++ [c]) w)). by rewrite E in Hf.
Qed.

Ltac store_step :=
  unfold histories_kept; simpl; split_and!;
  first [ apply kept_refl | apply temp_kept_refl | apply kept_insert
        | apply kept_delete | by apply kept_update ].

Lemma keep_insert_chat del d :
  respects (histories_kept del) (insert_one env chat_sessions_coll d).
Proof.
  apply respects_db_call; [apply _ | apply histories_kept_of_logs |].
  intros w. store_step.
Qed.

Lemma keep_insert_group_session del d :
  respects (histories_kept del) (insert_one env group_chat_sessions_coll d).
Proof.
  apply respects_db_call; [apply _ | apply histories_kept_of_logs |].
  intros w. store_step.
Qed.

Lemma keep_insert_group del d :
  respects (histories_kept del) (insert_one env groups_coll d).
Proof.
  apply respects_db_call; [apply _ | apply histories_kept_of_logs |].
  intros w. store_step.
Qed.

Lemma keep_insert_global del d :
  respects (histories_kept del) (insert_one env global_language_sessions_coll d).
Proof.
  apply respects_db_call; [apply _ | apply histories_kept_of_logs |].
  intros w. store_step.
Qed.

Lemma keep_update_group del p f :
  (forall g, g_messages g `prefix_of` g_messages (stored_update groups_coll f g)) ->
  respects (histories_kept del) (update_one env groups_coll p f None).
Proof.
  intros Hf. apply respects_db_call; [apply _ | apply histories_kept_of_logs |].
  intros w. store_step.
Qed.

Lemma keep_update_global del p f :
  (forall s, interactions s
             `prefix_of` interactions
                           (stored_update global_language_sessions_coll f s)) ->
  respects (histories_kept del) (update_one env global_language_sessions_coll p f None).
Proof.
  intros Hf. apply respects_db_call; [apply _ | apply histories_kept_of_logs |].
  intros w. store_step.
Qed.

Lemma keep_delete_chat p :
  respects (histories_kept true) (delete_one env chat_sessions_coll p).
Proof.
  apply respects_db_call; [apply _ | apply histories_kept_of_logs |].
  intros w. pose proof (kept_delete messages p (chat_sessions w)) as H.
  simpl. destruct (coll_delete_one p (chat_sessions w)) as [c n]. simpl in *.
  unfold histories_kept; simpl; split_and!;
    first [ done | apply kept_refl | apply temp_kept_refl ].
Qed.

Lemma keep_delete_group p :
  respects (histories_kept true) (delete_one env groups_coll p).
Proof.
  apply respects_db_call; [apply _ | apply histories_kept_of_logs |].
  intros w. pose proof (kept_delete g_messages p (groups w)) as H.
  simpl. destruct (coll_delete_one p (groups w)) as [c n]. simpl in *.
  unfold histories_kept; simpl; split_and!;
    first [ done | apply kept_refl | apply temp_kept_refl ].
Qed.

Lemma keep_delete_global p :
  respects (histories_kept true) (delete_one env global_language_sessions_coll p).
Proof.
  apply respects_db_call; [apply _ | apply histories_kept_of_logs |].
  intros w. pose proof (kept_delete interactions p (global_language_sessions w)) as H.
  simpl. destruct (coll_delete_one p (global_language_sessions w)) as [c n].
  simpl in *.
  unfold histories_kept; simpl; split_and!;
    first [ done | apply kept_refl | apply temp_kept_refl ].
Qed.

Lemma keep_temp_modify del sid f :
  (forall s, messages s `prefix_of` messages (f s)) ->
  respects (histories_kept del) (temp_chat_routes.temp_modify sid f).
Proof.
  intros Hf w. unfold temp_chat_routes.temp_modify, histories_kept. simpl.
  split_and!; first [ apply kept_refl | by apply temp_kept_alter ].
Qed.

Lemma keep_temp_read del sid :
  respects (histories_kept del) (temp_chat_routes.temp_read sid).
Proof.
  intros w. unfold temp_chat_routes.temp_read.
  destruct (TEMP_SESSIONS w !! sid); reflexivity.
Qed.

End HandlersKeep.

(** One step of a proof that a handler keeps the histories. *)
Ltac keep_step :=
  first
    [ apply (respects_weaken _ only_logs);
        [apply histories_kept_of_logs | logs_prim]
    | apply keep_insert_chat | apply keep_insert_group_session
    | apply keep_insert_group | apply keep_insert_global
    | apply keep_update_group; intros ?;
        rewrite ?stored_push_message, ?stored_set_members; simpl;
        first [done | by apply prefix_app_r]
    | apply keep_update_global; intros ?;
        rewrite ?stored_push_interaction; simpl;
        first [done | by apply prefix_app_r]
    | apply keep_delete_chat | apply keep_delete_group | apply keep_delete_global
    | apply keep_temp_modify; intros ?; simpl;
        first [done | by apply prefix_app_r]
    | apply keep_temp_read
    | respects_step ].

Section RoutesKeep.
Context (env : Env).

Lemma keep_chat_create del uid :
  respects (histories_kept del) (chat_routes.create_session env uid).
Proof. unfold chat_routes.create_session. repeat keep_step. Qed.

Lemma keep_chat_history del sid uid :
  respects (histories_kept del) (chat_routes.get_session_history env sid uid).
Proof. unfold chat_routes.get_session_history. repeat keep_step. Qed.

Lemma keep_chat_delete sid uid :
  respects (histories_kept true) (chat_routes.delete_session env sid uid).
Proof. unfold chat_routes.delete_session. repeat keep_step. Qed.

Lemma keep_chat_send del uid sid message audio image :
  respects (histories_kept del)
    (chat_routes.send_message env uid sid message audio image).
Proof.
  intros w. apply histories_kept_weaken.
  destruct (chat_send_effect env uid sid message audio image w)
    as (Hgs & Hg & Hgl & Ht & _ & Hc).
  unfold histories_kept. rewrite Hg, Hgl, Ht.
  split_and!; try first [apply kept_refl | apply temp_kept_refl].
  destruct Hc as [-> | (cs & cs' & Hfind & Hsent & ->)]; [apply kept_refl |].
  apply (kept_replace messages _ _ _ cs); [done |].
  destruct Hsent as (_ & _ & _ & (m1 & m2 & ->) & _).
  by apply prefix_app_r.
Qed.

Lemma keep_temp_send del uid sid message audio image :
  respects (histories_kept del)
    (temp_chat_routes.send_temp_message env uid sid message audio image).
Proof.
  unfold temp_chat_routes.send_temp_message. cbv zeta.
  apply respects_try_reraise; [apply _ | | intros ?; keep_step].
  intros w. cbv beta.
  destruct (TEMP_SESSIONS w !! sid) as [cs|]; [| reflexivity].
  match goal with
  | |- _ ?w0 (?m ?w0).2 => revert w0; change (respects (histories_kept del) m)
  end.
  repeat keep_step.
Qed.

Lemma keep_group_create_session del uid :
  respects (histories_kept del) (group_chat_routes.create_session env uid).
Proof.
  unfold group_chat_routes.create_session, group_chat_service.create_session.
  repeat keep_step.
Qed.

Lemma keep_validate_session del sid uid :
  respects (histories_kept del) (group_chat_service._validate_session env sid uid).
Proof. unfold group_chat_service._validate_session. repeat keep_step. Qed.

Lemma keep_group_create del uid sid nm t :
  respects (histories_kept del) (group_chat_routes.create_group env uid sid nm t).
Proof.
  unfold group_chat_routes.create_group, group_chat_routes.guarded,
    group_chat_service.create_group.
  repeat first [apply keep_validate_session | keep_step].
Qed.

Lemma keep_group_join del uid sid gid :
  respects (histories_kept del) (group_chat_routes.join_group env uid sid gid).
Proof.
  unfold group_chat_routes.join_group, group_chat_routes.guarded,
    group_chat_service.join_group.
  repeat first [apply keep_validate_session | keep_step].
Qed.

Lemma keep_group_send del uid sid gid content :
  respects (histories_kept del)
    (group_chat_routes.send_message env uid sid gid content).
Proof.
  unfold group_chat_routes.send_message, group_chat_routes.guarded,
    group_chat_service.send_message.
  repeat first [apply keep_validate_session | keep_step].
Qed.

Lemma keep_group_history del gid :
  respects (histories_kept del) (group_chat_routes.get_history env gid).
Proof.
  unfold group_chat_routes.get_history, group_chat_routes.guarded,
    group_chat_service.get_group_history.
  repeat keep_step.
Qed.

Lemma keep_group_delete gid uid :
  respects (histories_kept true) (group_chat_routes.delete_group env gid uid).
Proof.
  unfold group_chat_routes.delete_group, group_chat_routes.guarded,
    group_chat_service.delete_group.
  repeat keep_step.
Qed.

Lemma keep_global_create del uid :
  respects (histories_kept del) (global_language_routes.create_session env uid).
Proof.
  unfold global_language_routes.create_session,
    global_language_service.create_session.
  repeat keep_step.
Qed.

Lemma keep_global_chat del sid uid message lang :
  respects (histories_kept del)
    (global_language_routes.process_chat env sid uid message lang).
Proof.
  unfold global_language_routes.process_chat, global_language_routes.guarded,
    global_language_service.process_chat_interaction,
    global_language_service._get_session,
    global_language_service._add_interaction.
  repeat keep_step.
Qed.

Lemma keep_global_history del sid :
  respects (histories_kept del) (global_language_routes.get_history env sid).
Proof.
  unfold global_language_routes.get_history, global_language_routes.guarded,
    global_language_service.get_history, global_language_service._get_session.
  repeat keep_step.
Qed.

Lemma keep_global_delete sid :
  respects (histories_kept true) (global_language_routes.delete_session env sid).
Proof.
  unfold global_language_routes.delete_session, global_language_routes.guarded,
    global_language_service.delete_session.
  repeat keep_step.
Qed.

End RoutesKeep.

Lemma kept_entries {A B} del (hist : A -> list B) (c c' : Collection A) i d d' k m :
  kept del hist c c' ->
  c !! i = Some (Some d) -> c' !! i = Some (Some d') ->
  hist d !! k = Some m -> hist d' !! k = Some m.
Proof.
  intros [H _] Hi Hi' Hk.
  destruct (H i d Hi) as [[_ Hn]|(d'' & Hi'' & Hp)]; [congruence |].
  rewrite Hi' in Hi''. injection Hi'' as <-.
  by eapply prefix_lookup_Some.
Qed.

Lemma keep_handle env r w :
  fresh_draw env r w ->
  histories_kept (is_delete r) w (handle env r w).2.
Proof.
  intros Hfresh.
  destruct r; simpl in *;
    try (clear Hfresh;
         match goal with
         | |- histories_kept ?del ?w0 (respond ?f ?m ?w0).2 =>
             revert w0;
             change (respects (histories_kept del) (respond f m));
             apply respects_respond; [apply _ |]
         end;
         first [ apply keep_chat_create | apply keep_chat_send
               | apply keep_chat_history | apply keep_chat_delete
               | apply keep_temp_send | apply keep_group_create_session
               | apply keep_group_create | apply keep_group_join
               | apply keep_group_send | apply keep_group_history
               | apply keep_group_delete | apply keep_global_create
               | apply keep_global_chat | apply keep_global_history
               | apply keep_global_delete ]).
  unfold histories_kept. simpl.
  split_and!; first [apply kept_refl | by apply temp_kept_insert_fresh].
Qed.

(** What a delete leaves of a collection: the collection itself, or the
    collection with the first match of the filter removed. *)
Lemma coll_delete_one_cases {A} (p : A -> bool) (c : Collection A) :
  (coll_delete_one p c).1 = c
  \/ exists i d, c !! i = Some (Some d) /\ p d = true
                 /\ coll_find_one p c = Some d
                 /\ (coll_delete_one p c).1 = <[i := None]> c.
Proof.
  unfold coll_delete_one, coll_find_one.
  destruct (find_slot p c) as [[i d]|] eqn:F; [| by left].
  right. exists i, d. apply find_slot_Some in F as (Hi & Hp & _). done.
Qed.

Lemma kept_but_same {A B} (target : A -> bool) (hist : A -> list B) c :
  kept_but target hist c c.
Proof. left. apply kept_refl. Qed.

Lemma kept_but_entries {A B} (target : A -> bool) (hist : A -> list B)
    (c c' : Collection A) i d d' k m :
  kept_but target hist c c' ->
  c !! i = Some (Some d) -> c' !! i = Some (Some d') ->
  hist d !! k = Some m -> hist d' !! k = Some m.
Proof.
  intros [H | (j & e & Hj & _ & ->)] Hi Hi' Hk.
  - by apply (kept_entries _ _ _ _ _ _ _ _ _ H Hi Hi').
  - destruct (decide (i = j)) as [-> | Hne].
    + rewrite list_lookup_insert_eq in Hi' by (by eapply lookup_lt_Some).
      discriminate Hi'.
    + rewrite list_lookup_insert_ne in Hi' by done. congruence.
Qed.

Section DeletesKeep.
Context (env : Env).

Lemma chat_delete_keeps sid uid w :
  histories_kept_but (ChatDeleteSession sid uid) w
    (chat_routes.delete_session env sid uid w).2.
Proof.
  unfold histories_kept_but, chat_routes.delete_session, try_except_reraise_http,
    try_except, bind, delete_one, db_call. simpl.
  destruct (db_fault env _); simpl.
  { split_and!; first [apply kept_but_same | apply temp_kept_refl]. }
  destruct (coll_delete_one_cases (chat_routes.by_session_and_user sid uid)
              (chat_sessions w)) as [Hsame | (i & d & Hi & Hp & _ & Hdel)].
  all: destruct (coll_delete_one _ (chat_sessions w)) as [c n]; simpl in *; subst c.
  all: destruct (n =? 0); simpl.
  all: split_and!; first [apply kept_but_same | apply temp_kept_refl | idtac].
  all: right; by exists i, d.
Qed.

Lemma global_delete_keeps sid w :
  histories_kept_but (GlobalDeleteSession sid) w
    (global_language_routes.delete_session env sid w).2.
Proof.
  unfold histories_kept_but, global_language_routes.delete_session,
    global_language_routes.guarded, global_language_service.delete_session,
    try_except_reraise_http, try_except, bind, delete_one, db_call. simpl.
  destruct (db_fault env _); simpl.
  { split_and!; first [apply kept_but_same | apply temp_kept_refl]. }
  destruct (coll_delete_one_cases (global_language_service.by_session_id sid)
              (global_language_sessions w))
    as [Hsame | (i & d & Hi & Hp & _ & Hdel)].
  all: destruct (coll_delete_one _ (global_language_sessions w)) as [c n];
    simpl in *; subst c.
  all: destruct (n =? 0); simpl.
  all: split_and!; first [apply kept_but_same | apply temp_kept_refl | idtac].
  all: right; by exists i, d.
Qed.

(** The group removed is the one that was read, whose creator was
    compared with the user of the request. *)
Lemma group_delete_keeps gid uid w :
  histories_kept_but (GroupDelete gid uid) w
    (group_chat_routes.delete_group env gid uid w).2.
Proof.
  unfold histories_kept_but, group_chat_routes.delete_group,
    group_chat_routes.guarded, group_chat_service.delete_group,
    try_except_reraise_http, try_except, bind, find_one, delete_one, db_call.
  simpl.
  destruct (db_fault env (length (db_log w))); simpl.
  { split_and!; first [apply kept_but_same | apply temp_kept_refl]. }
  destruct (coll_find_one (group_chat_service.by_group_id gid) (groups w))
    as [group|] eqn:Hfind; simpl.
  2: { split_and!; first [apply kept_but_same | apply temp_kept_refl]. }
  change (creator_id (of_bson groups_coll group)) with (creator_id group).
  destruct (String.eqb (creator_id group) uid) eqn:Hcreator; simpl.
  2: { split_and!; first [apply kept_but_same | apply temp_kept_refl]. }
  destruct (db_fault env _); simpl.
  { split_and!; first [apply kept_but_same | apply temp_kept_refl]. }
  destruct (coll_delete_one_cases (group_chat_service.by_group_id gid) (groups w))
    as [Hsame | (i & d & Hi & Hp & Hd & Hdel)].
  all: destruct (coll_delete_one _ (groups w)) as [c n]; simpl in *; subst c.
  all: split_and!; first [apply kept_but_same | apply temp_kept_refl | idtac].
  right. exists i, d. split; [done |]. split; [| done].
  rewrite Hfind in Hd. injection Hd as <-.
  unfold group_target. by rewrite Hp, Hcreator.
Qed.

End DeletesKeep.

Lemma keep_handle_but env r w :
  fresh_draw env r w -> histories_kept_but r w (handle env r w).2.
Proof.
  intros Hfresh.
  destruct (is_delete r) eqn:Hdel.
  - destruct r; try discriminate Hdel; simpl; unfold respond, bind.
    + pose proof (chat_delete_keeps env sid uid w) as H.
      by destruct (chat_routes.delete_session env sid uid w) as [[?|?] ?].
    + pose proof (group_delete_keeps env gid uid w) as H.
      by destruct (group_chat_routes.delete_group env gid uid w) as [[?|?] ?].
    + pose proof (global_delete_keeps env sid w) as H.
      by destruct (global_language_routes.delete_session env sid w) as [[?|?] ?].
  - pose proof (keep_handle env r w Hfresh) as (Hc & Hg & Hgl & Ht).
    rewrite Hdel in Hc, Hg, Hgl.
    unfold histories_kept_but. split_and!; [by left .. | done].
Qed.

(** C7.  Whatever request is served (a temporary session being created
    under an identifier not yet in the table), every stored session, group
    and global-language session keeps its place and its history: the list
    of messages or interactions it had is a prefix of the list it has
    afterwards, and every entry already stored is found unchanged at the
    same position (role, payload and timestamp included).  The one
    exception is the document a delete request addresses: a delete
    removes at most one document, which is a chat session with the id and
    the owner of the request, a group with the id of the request whose
    creator is the user of the request, or a global-language session with
    the id of the request; every other slot of the collection is then as
    it was.  A request that is not a delete removes nothing. *)
Theorem histories_append_only (env : Env) (r : request) (w : World) :
  fresh_draw env r w ->
  let w' := (handle env r w).2 in
  histories_kept_but r w w'
  /\ (is_delete r = false -> histories_kept false w w')
  /\ (forall i d d' k m,
        chat_sessions w !! i = Some (Some d) ->
        chat_sessions w' !! i = Some (Some d') ->
        messages d !! k = Some m -> messages d' !! k = Some m)
  /\ (forall i g g' k m,
        groups w !! i = Some (Some g) ->
        groups w' !! i = Some (Some g') ->
        g_messages g !! k = Some m -> g_messages g' !! k = Some m)
  /\ (forall i s s' k x,
        global_language_sessions w !! i = Some (Some s) ->
        global_language_sessions w' !! i = Some (Some s') ->
        interactions s !! k = Some x -> interactions s' !! k = Some x)
  /\ (forall sid s s' k m,
        TEMP_SESSIONS w !! sid = Some s ->
        TEMP_SESSIONS w' !! sid = Some s' ->
        messages s !! k = Some m -> messages s' !! k = Some m).
Proof.
  intros Hfresh w'.
  pose proof (keep_handle_but env r w Hfresh) as Hkept. fold w' in Hkept.
  split; [exact Hkept |].
  split.
  { intros Hdel. pose proof (keep_handle env r w Hfresh) as H.
    by rewrite Hdel in H. }
  destruct Hkept as (Hc & Hg & Hgl & Ht).
  split_and!.
  - intros i d d' k m. by apply (kept_but_entries _ _ _ _ _ _ _ _ _ Hc).
  - intros i d d' k m. by apply (kept_but_entries _ _ _ _ _ _ _ _ _ Hg).
  - intros i d d' k m. by apply (kept_but_entries _ _ _ _ _ _ _ _ _ Hgl).
  - intros sid s s' k m Hs Hs' Hk.
    destruct (Ht sid s Hs) as (s'' & Hs'' & Hp).
    rewrite Hs' in Hs''. injection Hs'' as <-.
    by eapply prefix_lookup_Some.
Qed.

(** The theorem at work, on a store that holds a session of alice with
    one message and a session of bob.  Alice sends a second message: her
    first message is found unchanged in front of the two new ones, and
    the session of bob is as it was.  Bob deletes his session: it is the
    one document removed. *)
Lemma histories_append_only_witness :
  let first := {| role := user; content := ContentStr "Hi"; timestamp := 5 |} in
  let cs := append_message first scenario.alice_chat_session in
  let bob_session :=
    {| session_id := "s2"; user_id := "bob"; title := "Recipes";
       messages := []; created_at := 8; updated_at := 9 |} in
  let w := set_chat_sessions [Some cs; Some bob_session] empty_world in
  let send := ChatSendMessage "alice" "s1" "And now?" FieldNone FieldNone in
  let delete := ChatDeleteSession "s2" "bob" in
  fresh_draw scenario.env send w
  /\ fresh_draw scenario.env delete w
  /\ histories_kept false w (handle scenario.env send w).2
  /\ (exists d', chat_sessions (handle scenario.env send w).2 !! 0
                 = Some (Some d')
                 /\ messages d' !! 0 = Some first
                 /\ length (messages d') = 3)
  /\ histories_kept_but delete w (handle scenario.env delete w).2
  /\ chat_sessions (handle scenario.env delete w).2 = [Some cs; None].
Proof.
  intros first cs bob_session w send delete.
  assert (fresh_draw scenario.env send w) as Hsend by exact I.
  assert (fresh_draw scenario.env delete w) as Hdelete by exact I.
  split; [exact Hsend |]. split; [exact Hdelete |].
  destruct (histories_append_only scenario.env send w Hsend)
    as (_ & Hkept & Hentries & _).
  destruct (histories_append_only scenario.env delete w Hdelete)
    as (Hbut & _).
  split; [exact (Hkept eq_refl) |].
  split.
  { eexists. split; [reflexivity |]. split; [| reflexivity].
    eapply (Hentries 0 cs); reflexivity. }
  split; [exact Hbut | reflexivity].
Defined.

(** ** Identifiers *)

Lemma draws_grow_of_logs w w' : only_logs w w' -> draws_grow w w'.
Proof. by intros (_ & _ & _ & _ & _ & H). Qed.

(** One step of a proof that a handler does not take back a draw. *)
Ltac draws_step :=
  first
    [ apply (respects_weaken _ only_logs); [apply draws_grow_of_logs | logs_prim]
    | try unfold insert_one; try unfold update_one; try unfold delete_one;
      apply respects_db_call;
        [ apply _ | apply draws_grow_of_logs
        | intros ?; simpl;
          repeat match goal with
                 | |- context [coll_delete_one ?p ?c] =>
                     destruct (coll_delete_one p c)
                 end;
          unfold draws_grow; simpl; lia ]
    | respects_step ].

Section RoutesDraw.
Context (env : Env).

Lemma draws_temp_body uid sid message audio image :
  respects draws_grow
    (temp_chat_routes.send_temp_message env uid sid message audio image).
Proof.
  unfold temp_chat_routes.send_temp_message. cbv zeta.
  apply respects_try_reraise; [apply _ | | intros ?; draws_step].
  intros w. cbv beta.
  destruct (TEMP_SESSIONS w !! sid) as [cs|]; [| reflexivity].
  match goal with
  | |- _ ?w0 (?m ?w0).2 => revert w0; change (respects draws_grow m)
  end.
  repeat first
    [ solve [intros w0; unfold temp_chat_routes.temp_modify, draws_grow;
             simpl; lia]
    | solve [intros w0; unfold temp_chat_routes.temp_read, draws_grow;
             destruct (TEMP_SESSIONS w0 !! sid); simpl; lia]
    | draws_step ].
Qed.

Lemma draws_handle r : respects draws_grow (handle env r).
Proof.
  destruct r; simpl; apply respects_respond; try apply _.
  - unfold chat_routes.create_session. repeat draws_step.
  - intros w.
    by destruct (chat_send_effect env uid sid message audio image w)
      as (_ & _ & _ & _ & H & _).
  - unfold chat_routes.get_session_history. repeat draws_step.
  - unfold chat_routes.delete_session. repeat draws_step.
  - intros w. unfold draws_grow. simpl. lia.
  - apply draws_temp_body.
  - unfold group_chat_routes.create_session, group_chat_service.create_session.
    repeat draws_step.
  - unfold group_chat_routes.create_group, group_chat_routes.guarded,
      group_chat_service.create_group, group_chat_service._validate_session.
    repeat draws_step.
  - unfold group_chat_routes.join_group, group_chat_routes.guarded,
      group_chat_service.join_group, group_chat_service._validate_session.
    repeat draws_step.
  - unfold group_chat_routes.send_message, group_chat_routes.guarded,
      group_chat_service.send_message, group_chat_service._validate_session.
    repeat draws_step.
  - unfold group_chat_routes.get_history, group_chat_routes.guarded,
      group_chat_service.get_group_history.
    repeat draws_step.
  - unfold group_chat_routes.delete_group, group_chat_routes.guarded,
      group_chat_service.delete_group.
    repeat draws_step.
  - unfold global_language_routes.create_session,
      global_language_service.create_session.
    repeat draws_step.
  - unfold global_language_routes.process_chat, global_language_routes.guarded,
      global_language_service.process_chat_interaction,
      global_language_service._get_session,
      global_language_service._add_interaction.
    repeat draws_step.
  - unfold global_language_routes.get_history, global_language_routes.guarded,
      global_language_service.get_history, global_language_service._get_session.
    repeat draws_step.
  - unfold global_language_routes.delete_session, global_language_routes.guarded,
      global_language_service.delete_session.
    repeat draws_step.
Qed.

(** The identifier a create-session call hands out is the one it draws. *)
Lemma issued_is_draw r w id :
  issued_session_id r (handle env r w).1 = Some id ->
  id = uuid4 env (uuid_draws w)
  /\ uuid_draws w < uuid_draws (handle env r w).2.
Proof.
  destruct r; simpl; try done.
  - unfold respond, chat_routes.create_session, try_except, bind, insert_one, db_call.
    simpl. destruct (db_fault env _); simpl; [done |].
    intros [= <-]. split; [done | lia].
  - intros [= <-]. split; [done | lia].
  - unfold respond, group_chat_routes.create_session,
      group_chat_service.create_session, try_except, bind, insert_one, db_call.
    simpl. destruct (db_fault env _); simpl; [done |].
    intros [= <-]. split; [done | lia].
  - unfold respond, global_language_routes.create_session,
      global_language_service.create_session, try_except, bind, insert_one, db_call.
    simpl. destruct (db_fault env _); simpl; [done |].
    intros [= <-]. split; [done | lia].
Qed.

Lemma issued_ids_are_draws rs w id :
  id ∈ issued_ids env rs w ->
  exists k, uuid_draws w <= k /\ id = uuid4 env k.
Proof.
  revert w; induction rs as [|r rs IH]; intros w; simpl.
  - intros H. by apply elem_of_nil in H.
  - pose proof (draws_handle r w) as Hgrow. unfold draws_grow in Hgrow.
    destruct (issued_session_id r (handle env r w).1) as [id0|] eqn:E.
    + intros [->|Hin]%elem_of_cons.
      * apply issued_is_draw in E as [-> _]. by exists (uuid_draws w).
      * destruct (IH _ Hin) as (k & Hk & ->). exists k. split; [lia | done].
    + intros Hin. destruct (IH _ Hin) as (k & Hk & ->).
      exists k. split; [lia | done].
Qed.

End RoutesDraw.

(** C8.  When uuid4 never gives the same identifier twice, the session
    identifiers handed out by the create-session calls of any sequence of
    requests, for any users and through any of the routers, are pairwise
    distinct; each is a draw made after every draw that came before the
    sequence, so it also differs from every identifier issued earlier. *)
Theorem session_ids_fresh (env : Env) (rs : list request) (w : World) :
  (forall i j, uuid4 env i = uuid4 env j -> i = j) ->
  NoDup (issued_ids env rs w)
  /\ (forall id, id ∈ issued_ids env rs w ->
        exists k, uuid_draws w <= k /\ id = uuid4 env k
                  /\ forall j, j < uuid_draws w -> uuid4 env j <> id).
Proof.
  intros Hinj. split.
  - revert w; induction rs as [|r rs IH]; intros w; simpl; [apply NoDup_nil_2 |].
    destruct (issued_session_id r (handle env r w).1) as [id0|] eqn:E; [|apply IH].
    apply NoDup_cons. split; [|apply IH].
    intros Hin. apply issued_is_draw in E as [-> Hlt].
    destruct (issued_ids_are_draws env rs _ _ Hin) as (k & Hk & Heq).
    apply Hinj in Heq. lia.
  - intros id Hin.
    destruct (issued_ids_are_draws env rs w id Hin) as (k & Hk & ->).
    exists k. split; [done |]. split; [done |].
    intros j Hj Heq. apply Hinj in Heq. lia.
Qed.

(** The theorem at work: four sessions created through the four routers,
    two of them for the same user. *)
Lemma session_ids_fresh_witness :
  (forall i j, uuid4 scenario.env i = uuid4 scenario.env j -> i = j)
  /\ issued_ids scenario.env
       [ChatCreateSession "alice"; TempCreateSession "bob";
        GroupCreateSession "alice"; GlobalCreateSession "carol"] empty_world
     = ["id-0"; "id-1"; "id-2"; "id-3"]
  /\ NoDup (issued_ids scenario.env
       [ChatCreateSession "alice"; TempCreateSession "bob";
        GroupCreateSession "alice"; GlobalCreateSession "carol"] empty_world).
Proof.
  assert (forall i j, uuid4 scenario.env i = uuid4 scenario.env j -> i = j) as Hinj.
  { intros i j H. simpl in H. injection H as H. exact (pretty_nat_inj i j H). }
  split; [exact Hinj |]. split; [vm_compute; reflexivity |].
  exact (proj1 (session_ids_fresh scenario.env _ empty_world Hinj)).
Defined.

(** ** Runs of the chat send-message handler *)

Section ChatSendRuns.
Context (env : Env).

Lemma read_image_run image w :
  read_image env image w =
    (Return
       ((fun i => "data:" +:+ opt_or (content_type i) "image/jpeg"
                  +:+ ";base64," +:+ b64encode env (file_bytes i)) <$> image),
     w).
Proof. by destruct image. Qed.

Lemma truthy_ne s : s <> "" -> pystr.truthy s = true.
Proof. by destruct s. Qed.

Lemma chat_filter_sent sid uid cs cs' :
  chat_routes.by_session_and_user sid uid cs = true ->
  session_id cs' = session_id cs -> user_id cs' = user_id cs ->
  chat_routes.by_session_and_user sid uid cs' = true.
Proof.
  unfold chat_routes.by_session_and_user. by intros H -> ->.
Qed.

(** The title block of the send-message handlers, once a key is
    configured: the title is generated on a first message with a text, and
    only then. *)
Lemma title_block_run (cs : ChatSession) (text : string) w :
  OPENAI_API_KEY env <> "" ->
  (if (length (messages cs) =? 0) && pystr.truthy text
   then
     try_except
       (generated_title <- openai_service.generate_title env text ;;
        ret (set_title generated_title cs))
       (fun _ => ret (set_title (route_title_fallback text) cs))
   else ret cs) w =
  if (length (messages cs) =? 0) && pystr.truthy text
  then
    match openai_service.generate_title env text w with
    | (Return t, w') => (Return (set_title t cs), w')
    | (Raise _, w') => (Return (set_title (route_title_fallback text) cs), w')
    end
  else (Return cs, w).
Proof.
  intros Hkey.
  destruct ((length (messages cs) =? 0) && pystr.truthy text); [|done].
  unfold try_except, bind.
  by destruct (openai_service.generate_title env text w) as [[t|e] w'].
Qed.

(** The handler from the reply generation on: with the session found, the
    text read and the title block run, what is left is the reply, the
    clock and the write. *)
Lemma chat_send_after_title w w2 w3 uid sid message audio image
    (cs cs1 : ChatSession) (text : string) :
  db_fault env (length (db_log w)) = None ->
  OPENAI_API_KEY env <> "" ->
  coll_find_one (chat_routes.by_session_and_user sid uid) (chat_sessions w)
    = Some cs ->
  read_user_text env message (normalize_field audio)
    (set_db_log (db_log w ++ [find_one_call "chat_sessions"]) w)
    = (Return text, w2) ->
  pystr.truthy text || bool_decide (is_Some (normalize_field image)) = true ->
  let read := of_bson chat_sessions_coll cs in
  (if (length (messages read) =? 0) && pystr.truthy text
   then
     try_except
       (generated_title <- openai_service.generate_title env text ;;
        ret (set_title generated_title read))
       (fun _ => ret (set_title (route_title_fallback text) read))
   else ret read) w2 = (Return cs1, w3) ->
  let image_data :=
    (fun i => "data:" +:+ opt_or (content_type i) "image/jpeg"
              +:+ ";base64," +:+ b64encode env (file_bytes i))
    <$> normalize_field image in
  let user_message :=
    {| role := user; content := user_content_of text image_data;
       timestamp := clock env (clock_reads w3) |} in
  let req :=
    chat_completions_create "gpt-4o"
      (map api_message_of (messages cs1 ++ [user_message])) 2000 in
  let w5 := set_api_log (api_log w3 ++ [req])
              (set_clock_reads (S (clock_reads w3)) w3) in
  chat_routes.send_message env uid sid message audio image w =
    match openai env (length (api_log w3)) req with
    | Throws e =>
        (Raise (HTTPException 500
                  ("OpenAI API error: " +:+ "OpenAI API Error: " +:+ e)), w5)
    | Returns reply =>
        let assistant_message :=
          {| role := assistant; content := ContentStr reply;
             timestamp := clock env (S (clock_reads w3)) |} in
        let cs' :=
          to_bson chat_sessions_coll
            (set_updated_at (clock env (S (S (clock_reads w3))))
               (append_message assistant_message
                  (append_message user_message cs1))) in
        let w7 := set_db_log (db_log w3 ++ [update_one_call "chat_sessions"])
                    (set_clock_reads (S (S (S (clock_reads w3)))) w5) in
        match db_fault env (length (db_log w3)) with
        | Some s =>
            (Raise (HTTPException 500 ("Internal server error: " +:+ s)), w7)
        | None =>
            (Return {| cr_session_id := sid; cr_title := title cs1;
                       cr_message := reply;
                       cr_timestamp := clock env (S (clock_reads w3)) |},
             set_chat_sessions
               (coll_update_one (chat_routes.by_session_and_user sid uid)
                  (fun _ => cs') (Some cs') (chat_sessions w3)) w7)
        end
    end.
Proof.
  intros Hdb Hkey Hfind Htext Hvalid read Htitle image_data user_message req w5.
  unfold chat_routes.send_message, try_except_reraise_http.
  unfold try_except at 1.
  unfold bind at 1. unfold find_one. rewrite db_call_ok by done.
  cbn [fst snd coll_get coll_name chat_sessions_coll chat_sessions set_db_log].
  rewrite Hfind. cbn [fmap option_fmap option_map].
  fold chat_sessions_coll. fold read.
  unfold bind at 1. rewrite Htext.
  assert (negb (pystr.truthy text)
          && negb (bool_decide (is_Some (normalize_field image))) = false) as ->.
  { rewrite <- negb_orb. by rewrite Hvalid. }
  unfold bind at 1. rewrite read_image_run. fold image_data.
  unfold bind at 1. rewrite Htitle.
  unfold bind at 1. unfold utcnow at 1.
  cbn [messages append_message]. fold user_message.
  unfold bind at 1. unfold get_ai_response. unfold try_except at 1.
  rewrite chat_completion_run. rewrite (truthy_ne _ Hkey).
  cbn [api_log set_clock_reads]. fold req.
  destruct (openai env (length (api_log w3)) req) as [reply|e]; [|done].
  unfold bind at 1. unfold utcnow at 1.
  unfold bind at 1. unfold utcnow at 1.
  unfold bind at 1. unfold update_one, db_call.
  cbn [db_log set_clock_reads set_api_log clock_reads coll_get coll_set coll_name
       chat_sessions_coll chat_sessions].
  destruct (db_fault env (length (db_log w3))); done.
Qed.



End ChatSendRuns.

(** ** Runs of the temporary send-message handler *)

Section TempSendAfterTitle.
Context (env : Env).

(** The handler from the reply generation on: with the session found and
    owned, the text read and the title block run, what is left is the
    message of the user, put in the session, the reply and its message. *)
Lemma temp_send_after_title w w2 w3 uid sid message audio image
    (ts ts1 : ChatSession) (text : string) :
  TEMP_SESSIONS w !! sid = Some ts ->
  user_id ts = uid ->
  read_user_text env message (normalize_field audio) w = (Return text, w2) ->
  pystr.truthy text || bool_decide (is_Some (normalize_field image)) = true ->
  when ((length (messages ts) =? 0) && pystr.truthy text)
    (try_except
       (generated_title <- openai_service.generate_title env text ;;
        temp_chat_routes.temp_modify sid (set_title generated_title))
       (fun _ =>
          temp_chat_routes.temp_modify sid
            (set_title (route_title_fallback text)))) w2
  = (Return tt, w3) ->
  TEMP_SESSIONS w3 !! sid = Some ts1 ->
  let image_data :=
    (fun i => "data:" +:+ opt_or (content_type i) "image/jpeg"
              +:+ ";base64," +:+ b64encode env (file_bytes i))
    <$> normalize_field image in
  let user_message :=
    {| role := user; content := user_content_of text image_data;
       timestamp := clock env (clock_reads w3) |} in
  let req :=
    chat_completions_create "gpt-4o"
      (map api_message_of (messages ts1 ++ [user_message])) 2000 in
  let run := temp_chat_routes.send_temp_message env uid sid message audio image w in
  if pystr.truthy (OPENAI_API_KEY env)
  then
    match openai env (length (api_log w3)) req with
    | Throws e =>
        exists wf,
          run = (Raise (HTTPException 500
                          ("OpenAI API error: " +:+ "OpenAI API Error: " +:+ e)),
                 wf)
          /\ TEMP_SESSIONS wf !! sid = Some (append_message user_message ts1)
          /\ api_log wf = api_log w3 ++ [req]
    | Returns reply =>
        let assistant_message :=
          {| role := assistant; content := ContentStr reply;
             timestamp := clock env (S (clock_reads w3)) |} in
        exists wf,
          run = (Return {| cr_session_id := sid; cr_title := title ts1;
                           cr_message := reply;
                           cr_timestamp := clock env (S (clock_reads w3)) |},
                 wf)
          /\ TEMP_SESSIONS wf !! sid
             = Some (set_updated_at (clock env (S (S (clock_reads w3))))
                       (append_message assistant_message
                          (append_message user_message ts1)))
          /\ api_log wf = api_log w3 ++ [req]
    end
  else
    exists wf,
      run = (Raise (HTTPException 500
                      ("OpenAI API error: " +:+ openai_service.api_key_error)),
             wf)
      /\ TEMP_SESSIONS wf !! sid = Some (append_message user_message ts1)
      /\ api_log wf = api_log w3.
Proof.
  intros Hts Hown Htext Hvalid Hblock Hts1 image_data user_message req run.
  assert (run =
    (let w4 := set_TEMP_SESSIONS
                 (alter (append_message user_message) sid (TEMP_SESSIONS w3))
                 (set_clock_reads (S (clock_reads w3)) w3) in
     try_except_reraise_http
       (ai_response <- get_ai_response env
                         (messages (append_message user_message ts1)) ;;
        now <- utcnow env ;;
        let assistant_message :=
          {| role := assistant; content := ContentStr ai_response;
             timestamp := now |} in
        temp_chat_routes.temp_modify sid (append_message assistant_message) ;;;
        now <- utcnow env ;;
        temp_chat_routes.temp_modify sid (set_updated_at now) ;;;
        chat_session <- temp_chat_routes.temp_read sid ;;
        ret {| cr_session_id := sid; cr_title := title chat_session;
               cr_message := ai_response;
               cr_timestamp := timestamp assistant_message |})
       (fun e => raise (HTTPException 500
                  ("Internal server error: " +:+ str_exn e))) w4)) as ->.
  { subst run.
    unfold temp_chat_routes.send_temp_message, try_except_reraise_http.
    unfold try_except at 1 3. rewrite Hts.
    apply String.eqb_eq in Hown. rewrite Hown. cbn [negb].
    unfold bind at 1. rewrite Htext.
    assert (negb (pystr.truthy text)
            && negb (bool_decide (is_Some (normalize_field image))) = false)
      as ->.
    { rewrite <- negb_orb. by rewrite Hvalid. }
    unfold bind at 1. rewrite read_image_run. fold image_data.
    unfold bind at 1. rewrite Hblock.
    unfold bind at 1. unfold utcnow at 1. fold user_message.
    unfold bind at 1. unfold temp_chat_routes.temp_modify at 1.
    unfold bind at 1. unfold temp_chat_routes.temp_read at 1.
    cbn [TEMP_SESSIONS set_TEMP_SESSIONS set_clock_reads].
    rewrite lookup_alter_eq, Hts1. cbn [fmap option_fmap option_map].
    reflexivity. }
  cbv zeta. unfold try_except_reraise_http, try_except, bind, get_ai_response,
    try_except.
  rewrite chat_completion_run.
  cbn [messages append_message api_log set_TEMP_SESSIONS set_clock_reads].
  fold req.
  destruct (pystr.truthy (OPENAI_API_KEY env)).
  - cbv zeta. destruct (openai env (length (api_log w3)) req) as [reply|e].
    + eexists. split; [| split].
      * unfold utcnow, temp_chat_routes.temp_modify, temp_chat_routes.temp_read.
        cbn [TEMP_SESSIONS set_TEMP_SESSIONS set_clock_reads set_api_log
             clock_reads].
        rewrite !lookup_alter_eq, Hts1. cbn [fmap option_fmap option_map].
        reflexivity.
      * cbn [snd TEMP_SESSIONS set_TEMP_SESSIONS set_clock_reads set_api_log].
        rewrite !lookup_alter_eq, Hts1. reflexivity.
      * reflexivity.
    + eexists. split; [reflexivity |]. split.
      * cbn [TEMP_SESSIONS set_TEMP_SESSIONS set_clock_reads set_api_log].
        rewrite lookup_alter_eq, Hts1. reflexivity.
      * reflexivity.
  - eexists. split; [reflexivity |]. split.
    + cbn [TEMP_SESSIONS set_TEMP_SESSIONS set_clock_reads set_api_log].
      rewrite lookup_alter_eq, Hts1. reflexivity.
    + reflexivity.
Qed.

End TempSendAfterTitle.



(** C3 as stated fails: with no key configured the title generation
    raises on the first message of alice, and the message operation does
    not return its normal response: it answers 500, and the session keeps
    its default title. *)
Lemma title_failure_without_key_answers_500 :
  let run :=
    chat_routes.send_message scenario.no_key_env "alice" "s1" "Hello"
      FieldNone FieldNone scenario.chat_world in
  (openai_service.generate_title scenario.no_key_env "Hello"
     (set_db_log [find_one_call "chat_sessions"] scenario.chat_world)).1
  = Raise (Exception openai_service.api_key_error)
  /\ run.1 = Raise (HTTPException 500
               ("OpenAI API error: " +:+ openai_service.api_key_error))
  /\ title <$> coll_find_one (chat_routes.by_session_and_user "s1" "alice")
                 (chat_sessions run.2)
     = Some "New Chat".
Proof. vm_compute. repeat split; reflexivity. Qed.

(** ** The title of a session *)

#[local] Instance temp_title_kept_preorder sid : PreOrder (temp_title_kept sid).
Proof.
  split.
  - intros w s Hs. by exists s.
  - intros w1 w2 w3 H12 H23 s Hs.
    destruct (H12 s Hs) as (s2 & Hs2 & Ht2).
    destruct (H23 s2 Hs2) as (s3 & Hs3 & Ht3).
    exists s3. split; [done | congruence].
Qed.

Section TitleKept.
Context (env : Env).

Lemma temp_title_kept_of_logs sid w w' :
  only_logs w w' -> temp_title_kept sid w w'.
Proof.
  intros (_ & _ & _ & _ & Ht & _) s Hs. exists s. by rewrite Ht.
Qed.

Lemma temp_title_kept_modify sid f :
  (forall s, title (f s) = title s) ->
  respects (temp_title_kept sid) (temp_chat_routes.temp_modify sid f).
Proof.
  intros Hf w s Hs. unfold temp_chat_routes.temp_modify. simpl.
  exists (f s). by rewrite lookup_alter_eq, Hs.
Qed.

Lemma temp_title_kept_read sid :
  respects (temp_title_kept sid) (temp_chat_routes.temp_read sid).
Proof.
  intros w. unfold temp_chat_routes.temp_read.
  destruct (TEMP_SESSIONS w !! sid); reflexivity.
Qed.

(** A message sent to a temporary session that already has messages
    leaves its title as it is, whatever the outcome. *)
Lemma temp_send_keeps_title uid sid message audio image w cs :
  TEMP_SESSIONS w !! sid = Some cs ->
  messages cs <> [] ->
  title <$> TEMP_SESSIONS
              (temp_chat_routes.send_temp_message env uid sid message audio image w).2
        !! sid
  = Some (title cs).
Proof.
  intros Hcs Hne.
  assert (temp_title_kept sid w
            (temp_chat_routes.send_temp_message env uid sid message audio image w).2)
    as Hkept.
  { revert w Hcs.
    assert (forall m : M ChatResponse,
              (forall w, TEMP_SESSIONS w !! sid = Some cs ->
                         temp_title_kept sid w (m w).2) ->
              forall w, TEMP_SESSIONS w !! sid = Some cs ->
                temp_title_kept sid w
                  (try_except_reraise_http m
                     (fun e => raise (HTTPException 500
                        ("Internal server error: " +:+ str_exn e))) w).2) as Hwrap.
    { intros m Hm w Hcs. specialize (Hm w Hcs).
      unfold try_except_reraise_http, try_except.
      by destruct (m w) as [[a|[s d|msg]] w']. }
    unfold temp_chat_routes.send_temp_message. cbv zeta.
    apply Hwrap. intros w Hcs. cbv beta. rewrite Hcs.
    assert ((length (messages cs) =? 0) = false) as ->.
    { apply Nat.eqb_neq. by destruct (messages cs). }
    cbn [andb].
    match goal with
    | |- _ ?w0 (?m ?w0).2 =>
        revert w0 Hcs; intros w0 _; revert w0;
        change (respects (temp_title_kept sid) m)
    end.
    repeat first
      [ apply (respects_weaken _ only_logs);
          [apply temp_title_kept_of_logs | logs_prim]
      | apply temp_title_kept_modify; intros ?; reflexivity
      | apply temp_title_kept_read
      | respects_step ]. }
  destruct (Hkept cs Hcs) as (s' & -> & <-). done.
Qed.

(** A message sent to a stored chat session that already has messages
    leaves its title as it is, whatever the outcome. *)
Lemma chat_send_keeps_title uid sid message audio image w cs :
  coll_find_one (chat_routes.by_session_and_user sid uid) (chat_sessions w)
    = Some cs ->
  messages cs <> [] ->
  title <$> coll_find_one (chat_routes.by_session_and_user sid uid)
              (chat_sessions
                 (chat_routes.send_message env uid sid message audio image w).2)
  = Some (title cs).
Proof.
  intros Hfind Hne.
  destruct (chat_send_effect env uid sid message audio image w)
    as (_ & _ & _ & _ & _ & [-> | (cs0 & cs' & Hfind0 & Hsent & ->)]).
  - by rewrite Hfind.
  - rewrite Hfind in Hfind0. injection Hfind0 as <-.
    destruct Hsent as (Hsid & Huid & _ & _ & Htitle).
    erewrite coll_find_one_update; [| exact Hfind |].
    + simpl. f_equal. by apply Htitle.
    + eapply chat_filter_sent; [| exact Hsid | exact Huid].
      by eapply coll_find_one_matches.
Qed.

End TitleKept.

(** C4 (as amended).  For a stored chat session and for a temporary
    session alike:
    - on the first interaction, when its text (typed or transcribed) is
      not empty, the title of the session becomes the one
      [generate_title] gives for that text; it is the title of the
      response when the reply is generated (for the stored session, with
      a database that answers, the stored title; for the temporary
      session the title is set in place, whatever the reply does);
    - on a first interaction without text (an image alone), no title is
      generated: the title stays as it was (and, for the stored session,
      the only request sent to the API is the chat request);
    - every interaction posted to a session that already has messages
      leaves its title unchanged, whatever its outcome. *)
Theorem title_set_on_first_text (env : Env) (w : World)
    (uid sid message : string) (audio image : FileField) :
  (forall cs,
     coll_find_one (chat_routes.by_session_and_user sid uid) (chat_sessions w)
       = Some cs ->
     let run := chat_routes.send_message env uid sid message audio image w in
     let stored_title :=
       title <$> coll_find_one (chat_routes.by_session_and_user sid uid)
                   (chat_sessions run.2) in
     (messages cs = [] ->
      (forall n, db_fault env n = None) -> OPENAI_API_KEY env <> "" ->
      forall text w2 reply,
        read_user_text env message (normalize_field audio)
          (set_db_log (db_log w ++ [find_one_call "chat_sessions"]) w)
          = (Return text, w2) ->
        (text <> "" ->
         forall t w3,
           openai_service.generate_title env text w2 = (Return t, w3) ->
           (forall req, openai env (length (api_log w3)) req = Returns reply) ->
           run.1 = Return {| cr_session_id := sid; cr_title := t;
                             cr_message := reply;
                             cr_timestamp := clock env (S (clock_reads w3)) |}
           /\ stored_title = Some t)
        /\ (text = "" -> is_Some (normalize_field image) ->
            (forall req, openai env (length (api_log w2)) req = Returns reply) ->
            stored_title = Some (title cs)
            /\ exists msgs,
                 api_log run.2
                 = api_log w2 ++ [chat_completions_create "gpt-4o" msgs 2000]))
     /\ (messages cs <> [] -> stored_title = Some (title cs)))
  /\ (forall ts,
        TEMP_SESSIONS w !! sid = Some ts ->
        let run :=
          temp_chat_routes.send_temp_message env uid sid message audio image w in
        let kept_title := title <$> TEMP_SESSIONS run.2 !! sid in
        (messages ts = [] -> user_id ts = uid ->
         forall text w2,
           read_user_text env message (normalize_field audio) w
             = (Return text, w2) ->
           (text <> "" ->
            forall t w3,
              openai_service.generate_title env text w2 = (Return t, w3) ->
              kept_title = Some t
              /\ (forall reply,
                    (forall req,
                       openai env (length (api_log w3)) req = Returns reply) ->
                    run.1 = Return {| cr_session_id := sid; cr_title := t;
                                      cr_message := reply;
                                      cr_timestamp :=
                                        clock env (S (clock_reads w3)) |}))
           /\ (text = "" -> is_Some (normalize_field image) ->
               kept_title = Some (title ts)))
        /\ (messages ts <> [] -> kept_title = Some (title ts))).
Proof.
  split.
  - intros cs Hfind run stored_title.
    pose proof (coll_find_one_matches _ _ _ Hfind) as Hkeyed.
    split; [| intros Hne; by apply chat_send_keeps_title].
    intros Hfirst Hdb Hkey text w2 reply Htext.
    pose proof (only_logs_read_user_text env message (normalize_field audio)
                  (set_db_log (db_log w ++ [find_one_call "chat_sessions"]) w))
      as Hlogs.
    rewrite Htext in Hlogs. destruct Hlogs as (Hc & _). simpl in Hc.
    set (read := of_bson chat_sessions_coll cs).
    assert (length (messages read) = 0) as Hlen
      by (unfold read; simpl; by rewrite Hfirst).
    split.
    + intros Hne t w3 Htitle Hreply.
      pose proof (only_logs_generate_title env text w2) as Hlogs.
      rewrite Htitle in Hlogs. destruct Hlogs as (Hc3 & _). simpl in Hc3.
      assert ((if (length (messages read) =? 0) && pystr.truthy text
               then
                 try_except
                   (generated_title <- openai_service.generate_title env text ;;
                    ret (set_title generated_title read))
                   (fun _ => ret (set_title (route_title_fallback text) read))
               else ret read) w2 = (Return (set_title t read), w3)) as Hblock.
      { rewrite title_block_run by done.
        rewrite Hlen, (truthy_ne _ Hne). simpl. by rewrite Htitle. }
      assert (pystr.truthy text
              || bool_decide (is_Some (normalize_field image)) = true) as Hvalid
        by (by rewrite (truthy_ne _ Hne)).
      pose proof (chat_send_after_title env w w2 w3 uid sid message audio image
                    cs _ text (Hdb _) Hkey Hfind Htext Hvalid Hblock) as Hrun.
      simpl in Hrun. rewrite Hreply, Hdb in Hrun.
      subst stored_title run. rewrite Hrun. simpl. split; [done |].
      rewrite Hc3, Hc.
      erewrite coll_find_one_update; [done | exact Hfind | exact Hkeyed].
    + intros -> Himage Hreply.
      assert ((if (length (messages read) =? 0) && pystr.truthy ""
               then
                 try_except
                   (generated_title <- openai_service.generate_title env "" ;;
                    ret (set_title generated_title read))
                   (fun _ => ret (set_title (route_title_fallback "") read))
               else ret read) w2 = (Return read, w2)) as Hblock.
      { simpl. by rewrite andb_false_r. }
      assert (pystr.truthy ""
              || bool_decide (is_Some (normalize_field image)) = true) as Hvalid
        by (simpl; by apply bool_decide_eq_true).
      pose proof (chat_send_after_title env w w2 w2 uid sid message audio image
                    cs _ "" (Hdb _) Hkey Hfind Htext Hvalid Hblock) as Hrun.
      simpl in Hrun. rewrite Hreply, Hdb in Hrun.
      subst stored_title run. rewrite Hrun. simpl. split; [| by eexists].
      rewrite Hc.
      erewrite coll_find_one_update; [done | exact Hfind | exact Hkeyed].
  - intros ts Hts run kept_title.
    split; [| intros Hne; by apply temp_send_keeps_title].
    intros Hfirst Hown text w2 Htext.
    pose proof (only_logs_read_user_text env message (normalize_field audio) w)
      as Hlogs.
    rewrite Htext in Hlogs. destruct Hlogs as (_ & _ & _ & _ & Ht & _).
    simpl in Ht.
    split.
    + intros Hne t w3 Htitle.
      pose proof (only_logs_generate_title env text w2) as Hlogs.
      rewrite Htitle in Hlogs. destruct Hlogs as (_ & _ & _ & _ & Ht3 & _).
      simpl in Ht3.
      assert (pystr.truthy (OPENAI_API_KEY env) = true) as Hkey.
      { destruct (OPENAI_API_KEY env) eqn:E; [| done].
        unfold openai_service.generate_title, bind in Htitle.
        by rewrite ensure_initialized_no_key in Htitle. }
      set (w4 := set_TEMP_SESSIONS
                   (alter (set_title t) sid (TEMP_SESSIONS w3)) w3).
      assert (when ((length (messages ts) =? 0) && pystr.truthy text)
                (try_except
                   (generated_title <- openai_service.generate_title env text ;;
                    temp_chat_routes.temp_modify sid (set_title generated_title))
                   (fun _ =>
                      temp_chat_routes.temp_modify sid
                        (set_title (route_title_fallback text)))) w2
              = (Return tt, w4)) as Hblock.
      { rewrite Hfirst, (truthy_ne _ Hne). simpl.
        unfold try_except, bind. by rewrite Htitle. }
      assert (TEMP_SESSIONS w4 !! sid = Some (set_title t ts)) as Hts4.
      { unfold w4. simpl. by rewrite lookup_alter_eq, Ht3, Ht, Hts. }
      assert (pystr.truthy text
              || bool_decide (is_Some (normalize_field image)) = true) as Hvalid
        by (by rewrite (truthy_ne _ Hne)).
      pose proof (temp_send_after_title env w w2 w4 uid sid message audio image
                    ts _ text Hts Hown Htext Hvalid Hblock Hts4) as Hrun.
      cbv zeta in Hrun. rewrite Hkey in Hrun. fold run in Hrun.
      cbn [api_log clock_reads w4 set_TEMP_SESSIONS] in Hrun.
      split.
      * unfold kept_title.
        destruct (openai env _ _); destruct Hrun as (wf & Hr & Hs & _);
          rewrite Hr; simpl; by rewrite Hs.
      * intros reply Hreply. rewrite Hreply in Hrun.
        destruct Hrun as (wf & Hr & _). by rewrite Hr.
    + intros -> Himage.
      assert (when ((length (messages ts) =? 0) && pystr.truthy "")
                (try_except
                   (generated_title <- openai_service.generate_title env "" ;;
                    temp_chat_routes.temp_modify sid (set_title generated_title))
                   (fun _ =>
                      temp_chat_routes.temp_modify sid
                        (set_title (route_title_fallback "")))) w2
              = (Return tt, w2)) as Hblock.
      { simpl. by rewrite andb_false_r. }
      assert (TEMP_SESSIONS w2 !! sid = Some ts) as Hts2 by (by rewrite Ht).
      assert (pystr.truthy ""
              || bool_decide (is_Some (normalize_field image)) = true) as Hvalid
        by (simpl; by apply bool_decide_eq_true).
      pose proof (temp_send_after_title env w w2 w2 uid sid message audio image
                    ts _ "" Hts Hown Htext Hvalid Hblock Hts2) as Hrun.
      cbv zeta in Hrun. fold run in Hrun. unfold kept_title.
      destruct (pystr.truthy (OPENAI_API_KEY env));
        [destruct (openai env _ _) |];
        destruct Hrun as (wf & Hr & Hs & _); rewrite Hr; simpl; by rewrite Hs.
Qed.

(** The theorem at work: the first message of alice, a short text, to her
    stored session and to a temporary session. *)
Lemma title_set_on_first_text_witness :
  let tw := (temp_chat_routes.create_temp_session scenario.env "alice"
               empty_world).2 in
  (forall n, db_fault scenario.env n = None)
  /\ OPENAI_API_KEY scenario.env <> ""
  /\ (chat_routes.send_message scenario.env "alice" "s1" " Hello there"
        FieldNone FieldNone scenario.chat_world).1
     = Return {| cr_session_id := "s1"; cr_title := "Hello there";
                 cr_message := "Hello!"; cr_timestamp := 2100 |}
  /\ title <$>
       TEMP_SESSIONS
         (temp_chat_routes.send_temp_message scenario.env "alice" "id-0"
            " Hello there" FieldNone FieldNone tw).2 !! "id-0"
     = Some "Hello there".
Proof.
  intros tw.
  assert (forall n, db_fault scenario.env n = None) as Hdb by reflexivity.
  assert (OPENAI_API_KEY scenario.env <> "") as Hkey by discriminate.
  assert (" Hello there" <> "") as Hne by discriminate.
  split; [exact Hdb |]. split; [exact Hkey |]. split.
  - destruct (title_set_on_first_text scenario.env scenario.chat_world
                "alice" "s1" " Hello there" FieldNone FieldNone) as (Hchat & _).
    destruct (Hchat scenario.alice_chat_session eq_refl) as (Hfirst & _).
    destruct (Hfirst eq_refl Hdb Hkey " Hello there"
                (set_db_log [find_one_call "chat_sessions"] scenario.chat_world)
                "Hello!" eq_refl) as (Htext & _).
    exact (proj1 (Htext Hne "Hello there"
                    (set_db_log [find_one_call "chat_sessions"]
                       scenario.chat_world)
                    eq_refl (fun _ => eq_refl))).
  - destruct (title_set_on_first_text scenario.env tw "alice" "id-0"
                " Hello there" FieldNone FieldNone) as (_ & Htemp).
    destruct (Htemp {| session_id := "id-0"; user_id := "alice";
                       title := "Temporary Chat"; messages := [];
                       created_at := 1500; updated_at := 2100 |} eq_refl)
      as (Hfirst & _).
    destruct (Hfirst eq_refl eq_refl " Hello there" tw eq_refl) as (Htext & _).
    exact (proj1 (Htext Hne "Hello there" tw eq_refl)).
Defined.

(** C4 as stated fails: the first interaction of alice is a picture with
    no text; it is recorded, no title is generated, and the stored title
    is still the default one. *)
Lemma first_interaction_without_text_keeps_default_title :
  let run :=
    chat_routes.send_message scenario.env "alice" "s1" "" FieldNone
      (FieldUpload scenario.cat_picture) scenario.chat_world in
  let stored :=
    coll_find_one (chat_routes.by_session_and_user "s1" "alice")
      (chat_sessions run.2) in
  title scenario.alice_chat_session = "New Chat"
  /\ messages scenario.alice_chat_session = []
  /\ run.1 = Return {| cr_session_id := "s1"; cr_title := "New Chat";
                       cr_message := "Hello!"; cr_timestamp := 2100 |}
  /\ title <$> stored = Some "New Chat"
  /\ length <$> (messages <$> stored) = Some 2
  /\ length (api_log run.2) = 1.
Proof. vm_compute. repeat split; reflexivity. Qed.

(** ** Upstream failures *)

Section UpstreamFailures.
Context (env : Env).

(** The title block always gives a session back, and sends at most the
    title request to the API. *)
Lemma title_block_total (cs : ChatSession) (text : string) w :
  OPENAI_API_KEY env <> "" ->
  exists cs1 w',
    (if (length (messages cs) =? 0) && pystr.truthy text
     then
       try_except
         (generated_title <- openai_service.generate_title env text ;;
          ret (set_title generated_title cs))
         (fun _ => ret (set_title (route_title_fallback text) cs))
     else ret cs) w = (Return cs1, w')
    /\ chat_sessions w' = chat_sessions w
    /\ (api_log w' = api_log w
        \/ api_log w' = api_log w ++ [openai_service.title_request text]).
Proof.
  intros Hkey. rewrite title_block_run by done.
  destruct ((length (messages cs) =? 0) && pystr.truthy text);
    [| eexists _, _; split; [done |]; split; [done | by left]].
  rewrite generate_title_run by done.
  destruct (String.length text <=? 40);
    [eexists _, _; split; [done |]; split; [done | by left] |].
  simpl. destruct (openai env _ _);
    (eexists _, _; split; [done |]; split; [done | by right]).
Qed.

End UpstreamFailures.

(** ** Upstream failures, handler by handler *)

Section Surfaces.
Context {L : Type} (log : World -> list L).
Implicit Types fails : nat -> L -> exn -> Prop.




(** A computation whose entries never count as failed. *)
Lemma surfaces_exempt fails {A} (m : M A) :
  (forall w, log w `prefix_of` log (m w).2) ->
  (forall w k c x, length (log w) <= k -> log (m w).2 !! k = Some c ->
                   ~ fails k c x) ->
  surfaces log fails m.
Proof.
  intros Hp Hn w. split; [apply Hp |].
  intros k c x Hk Hl Hf. by destruct (Hn w k c x).
Qed.







End Surfaces.



Section UpstreamSurfaced.
Context (env : Env).

(** *** The database *)




End UpstreamSurfaced.





Section HandlersSurface.
Context (env : Env).


(** *** The language-model API *)







End HandlersSurface.





(** * Further properties of the code *)

(** ** utils/audio_processing.py *)

(** X1.  The url [validate_image_url] gives always carries a scheme (http,
    https or data), whatever the input; and validating a second time
    changes nothing more. *)
Theorem validate_image_url_scheme (image_input : string) :
  let has_scheme u :=
    pystr.startswith "http://" u || pystr.startswith "https://" u
    || pystr.startswith "data:" u in
  has_scheme (validate_image_url image_input) = true
  /\ validate_image_url (validate_image_url image_input)
     = validate_image_url image_input.
Proof.
  intros has_scheme. unfold has_scheme, validate_image_url.
  destruct (pystr.startswith "http://" image_input) eqn:E1;
    destruct (pystr.startswith "https://" image_input) eqn:E2;
    destruct (pystr.startswith "data:" image_input) eqn:E3;
    cbn [orb negb]; rewrite ?E1, ?E2, ?E3; cbn [orb negb];
    rewrite ?E1, ?E2, ?E3; done.
Qed.

Section Base64Facts.
Context (b64decode : string -> option string).

Lemma split_no_sep sep s :
  pystr.contains sep s = false -> pystr.split sep s = [s].
Proof.
  induction s as [|a s IH]; simpl; [done |].
  intros [Ha Hs]%orb_false_iff. rewrite Ha, (IH Hs). done.
Qed.

Lemma split_first_sep sep header rest :
  pystr.contains sep header = false ->
  pystr.split sep (header +:+ String sep rest) = header :: pystr.split sep rest.
Proof.
  induction header as [|a h IH]; simpl.
  - intros _. by rewrite Ascii.eqb_refl.
  - intros [Ha Hs]%orb_false_iff. rewrite Ha, (IH Hs). done.
Qed.

Lemma contains_app_sep sep header rest :
  pystr.contains sep (header +:+ String sep rest) = true.
Proof.
  induction header as [|a h IH]; simpl.
  - by rewrite Ascii.eqb_refl.
  - rewrite IH. apply orb_true_r.
Qed.

(** X2.  [decode_base64_audio] decodes a string without comma as it is, and
    of a string with a header, a comma and a payload it decodes the
    payload alone, as long as neither holds a comma. *)
Theorem decode_base64_audio_strips_header (header payload : string) :
  pystr.contains pystr.comma header = false ->
  pystr.contains pystr.comma payload = false ->
  decode_base64_audio b64decode (header +:+ String pystr.comma payload)
    = b64decode payload
  /\ decode_base64_audio b64decode payload = b64decode payload.
Proof.
  intros Hh Hp. unfold decode_base64_audio. split.
  - rewrite contains_app_sep, split_first_sep by done.
    by rewrite split_no_sep.
  - by rewrite Hp.
Qed.

End Base64Facts.

(** The theorem at work: a data URI, with a decoder that accepts every
    string. *)
Lemma decode_base64_audio_strips_header_witness :
  pystr.contains pystr.comma "data:audio/webm;base64" = false
  /\ pystr.contains pystr.comma "GkXfo59ChoEB" = false
  /\ decode_base64_audio Some "data:audio/webm;base64,GkXfo59ChoEB"
     = Some "GkXfo59ChoEB".
Proof.
  split; [reflexivity |]. split; [reflexivity |].
  exact (proj1 (decode_base64_audio_strips_header Some "data:audio/webm;base64"
                  "GkXfo59ChoEB" eq_refl eq_refl)).
Defined.

(** ** The content of a message *)

(** X3.  [extract_text_from_content] gives back the text a user message was
    built from, with or without an image. *)
Theorem extract_text_of_user_content (user_message_text : string)
    (image_data : option string) :
  chat_routes.extract_text_from_content
    (user_content_of user_message_text image_data)
  = user_message_text.
Proof.
  destruct image_data as [d|]; [|done].
  unfold user_content_of, chat_routes.extract_text_from_content.
  destruct user_message_text as [|a t]; done.
Qed.

(** ** The list of the sessions of a user *)

Lemma elem_of_coll_find {A} (p : A -> bool) (c : Collection A) d :
  d ∈ coll_find p c <-> Some d ∈ c /\ p d = true.
Proof.
  unfold coll_find. rewrite list_elem_of_omap. split.
  - intros ([e|] & Hin & Heq); [|done].
    destruct (p e) eqn:E; [|done]. by simplify_eq.
  - intros [Hin Hp]. exists (Some d). by rewrite Hp.
Qed.

#[global] Instance desc_by_total {A} (key : A -> nat) : Total (desc_by key).
Proof. intros a b. unfold desc_by. lia. Qed.

#[global] Instance desc_by_trans {A} (key : A -> nat) : Transitive (desc_by key).
Proof. intros a b c. unfold desc_by. lia. Qed.

(** X4.  [list_user_sessions] answers, when the database does, with the
    sessions of the user and no other: one entry for each stored session
    of the user (as the driver reads it), carrying its number of messages,
    the most recently updated first, and their count; it writes nothing.
    When the database throws, the answer is a 500 that embeds the text of
    the exception. *)
Theorem list_user_sessions_own_sorted (env : Env) (w : World) (uid : string) :
  let run := chat_routes.list_user_sessions env uid w in
  run.2 = set_db_log (db_log w ++ [find_one_call "chat_sessions"]) w
  /\ match db_fault env (length (db_log w)) with
     | Some s =>
         run.1 = Raise (HTTPException 500 ("Failed to list sessions: " +:+ s))
     | None =>
         exists resp,
           run.1 = Return resp
           /\ slr_user_id resp = uid
           /\ total_sessions resp = length (slr_sessions resp)
           /\ slr_sessions resp
              ≡ₚ map (fun d => chat_routes.summary_of (of_bson chat_sessions_coll d))
                   (coll_find (chat_routes.by_user uid) (chat_sessions w))
           /\ StronglySorted (fun a b => ss_updated_at b <= ss_updated_at a)
                (slr_sessions resp)
           /\ (forall x, x ∈ slr_sessions resp <->
                 exists d, Some d ∈ chat_sessions w /\ user_id d = uid
                           /\ x = chat_routes.summary_of
                                    (of_bson chat_sessions_coll d)
                           /\ ss_message_count x = length (messages d))
     end.
Proof.
  intros run. subst run.
  unfold chat_routes.list_user_sessions, try_except, bind, find_sorted_desc, db_call.
  simpl. destruct (db_fault env (length (db_log w))) as [s|]; simpl; [done |].
  split; [done |]. eexists. split; [done |]. simpl.
  split; [done |]. split; [done |].
  split; [by rewrite map_map, merge_sort_Permutation |].
  split.
  - apply (StronglySorted_fmap chat_routes.summary_of
             (fun a b => updated_at b <= updated_at a)); [by intros a b Hab |].
    apply (StronglySorted_fmap (ChatSession_dates datetime_of_bson)
             (desc_by updated_at));
      [| apply StronglySorted_merge_sort; apply _].
    intros a b Hab. unfold desc_by in Hab. simpl. unfold datetime_of_bson.
    by apply Nat.mul_le_mono_r.
  - intros x. rewrite map_map, list_elem_of_fmap. split.
    + intros (d & -> & Hd). rewrite merge_sort_Permutation in Hd.
      apply elem_of_coll_find in Hd as [Hin Hp].
      exists d. apply String.eqb_eq in Hp. split_and!; try done.
      simpl. by rewrite length_map.
    + intros (d & Hin & Hu & -> & _). exists d. split; [done |].
      rewrite merge_sort_Permutation. apply elem_of_coll_find.
      split; [done |]. by apply String.eqb_eq.
Qed.

(** ** routes/voice_routes.py *)

(** X5.  [transcribe_voice] sends one transcription request, for the uploaded
    bytes under the name of the file (or recording.webm when the upload
    has none), and answers with its text and the name as uploaded; a
    failure of the API is a 500 whose detail carries both prefixes, the
    one of the service and the one of the route.  With no key configured
    the answer is a 500 and no request is sent.  Nothing else changes. *)
Theorem transcribe_voice_run (env : Env) (audio : UploadFile) (w : World) :
  let req :=
    audio_transcriptions_create "whisper-1"
      (opt_or (filename audio) "recording.webm") (file_bytes audio) in
  let run := voice_routes.transcribe_voice env audio w in
  if pystr.truthy (OPENAI_API_KEY env)
  then
    run.2 = set_api_log (api_log w ++ [req]) w
    /\ match openai env (length (api_log w)) req with
       | Returns t =>
           run.1 = Return {| tr_text := t; tr_filename := filename audio;
                             tr_success := true |}
       | Throws e =>
           run.1 = Raise (HTTPException 500
                     ("Transcription failed: " +:+ "Audio Transcription Error: "
                      +:+ e))
       end
  else
    run = (Raise (HTTPException 500
                    ("Transcription failed: " +:+ openai_service.api_key_error)),
           w).
Proof.
  intros req run. subst run.
  unfold voice_routes.transcribe_voice, openai_service.transcribe_audio,
    openai_service._ensure_async_initialized, try_except, bind, api_call.
  destruct (pystr.truthy (OPENAI_API_KEY env)); simpl; [|done].
  fold req. by destruct (openai env (length (api_log w)) req).
Qed.

(** ** A service with no API key *)

#[local] Instance api_silent_preorder : PreOrder api_silent.
Proof.
  split.
  - intros w. reflexivity.
  - intros w1 w2 w3. unfold api_silent. congruence.
Qed.

Section NoKey.
Context (env : Env) (Hkey : OPENAI_API_KEY env = "").

Lemma silent_ensure_bind {A} (m : M A) :
  respects api_silent (openai_service._ensure_async_initialized env ;;; m).
Proof.
  intros w. unfold bind. rewrite ensure_initialized_no_key by done. reflexivity.
Qed.

Lemma silent_new_uuid : respects api_silent (new_uuid env).
Proof. intros w. reflexivity. Qed.

Lemma silent_utcnow : respects api_silent (utcnow env).
Proof. intros w. reflexivity. Qed.

Lemma silent_db_call {A} c (f : World -> A * World) :
  (forall w, api_log (f w).2 = api_log w) ->
  respects api_silent (db_call env c f).
Proof.
  intros Hf w. unfold db_call, api_silent.
  destruct (db_fault env _); simpl; [done |].
  specialize (Hf (set_db_log (db_log w ++ [c]) w)).
  by destruct (f _).
Qed.

Lemma silent_temp_modify sid f :
  respects api_silent (temp_chat_routes.temp_modify sid f).
Proof. intros w. reflexivity. Qed.

Lemma silent_temp_read sid : respects api_silent (temp_chat_routes.temp_read sid).
Proof.
  intros w. unfold temp_chat_routes.temp_read.
  destruct (TEMP_SESSIONS w !! sid); reflexivity.
Qed.

Ltac silent_step :=
  first
    [ apply silent_ensure_bind | apply silent_new_uuid | apply silent_utcnow
    | apply silent_temp_modify | apply silent_temp_read
    | apply silent_db_call; intros ?; simpl;
        try (destruct (coll_delete_one _ _)); reflexivity
    | respects_step ].

Ltac silent_unfold :=
  unfold find_one, insert_one, update_one, delete_one,
    openai_service.chat_completion, openai_service.generate_title,
    openai_service.transcribe_audio, get_ai_response, read_user_text, read_image.

Lemma silent_handle r : respects api_silent (handle env r).
Proof.
  destruct r; simpl; apply respects_respond; try apply _.
  - unfold chat_routes.create_session. silent_unfold. repeat silent_step.
  - unfold chat_routes.send_message. silent_unfold. repeat silent_step.
  - unfold chat_routes.get_session_history. silent_unfold. repeat silent_step.
  - unfold chat_routes.delete_session. silent_unfold. repeat silent_step.
  - unfold temp_chat_routes.create_temp_session. repeat silent_step.
  - unfold temp_chat_routes.send_temp_message. cbv zeta.
    apply respects_try_reraise; [apply _ | | intros ?; silent_step].
    intros w. cbv beta.
    destruct (TEMP_SESSIONS w !! sid) as [cs|]; [| reflexivity].
    match goal with
    | |- _ ?w0 (?m ?w0).2 => revert w0; change (respects api_silent m)
    end.
    silent_unfold. repeat silent_step.
  - unfold group_chat_routes.create_session, group_chat_service.create_session.
    silent_unfold. repeat silent_step.
  - unfold group_chat_routes.create_group, group_chat_routes.guarded,
      group_chat_service.create_group, group_chat_service._validate_session.
    silent_unfold. repeat silent_step.
  - unfold group_chat_routes.join_group, group_chat_routes.guarded,
      group_chat_service.join_group, group_chat_service._validate_session.
    silent_unfold. repeat silent_step.
  - unfold group_chat_routes.send_message, group_chat_routes.guarded,
      group_chat_service.send_message, group_chat_service._validate_session.
    silent_unfold. repeat silent_step.
  - unfold group_chat_routes.get_history, group_chat_routes.guarded,
      group_chat_service.get_group_history.
    silent_unfold. repeat silent_step.
  - unfold group_chat_routes.delete_group, group_chat_routes.guarded,
      group_chat_service.delete_group.
    silent_unfold. repeat silent_step.
  - unfold global_language_routes.create_session,
      global_language_service.create_session.
    silent_unfold. repeat silent_step.
  - unfold global_language_routes.process_chat, global_language_routes.guarded,
      global_language_service.process_chat_interaction,
      global_language_service._get_session,
      global_language_service._add_interaction.
    silent_unfold. repeat silent_step.
  - unfold global_language_routes.get_history, global_language_routes.guarded,
      global_language_service.get_history, global_language_service._get_session.
    silent_unfold. repeat silent_step.
  - unfold global_language_routes.delete_session, global_language_routes.guarded,
      global_language_service.delete_session.
    silent_unfold. repeat silent_step.
Qed.

End NoKey.

(** X6.  With the settings of config.py left at their default (no API key),
    no route sends a request to the language-model API, whatever the
    request and the state of the store: the client is never built, and
    every call of the service raises before it reaches the network. *)
Theorem no_key_no_api_request (env : Env) (rs : list request) (w : World) :
  OPENAI_API_KEY env = "" ->
  api_log (foldl (fun w r => (handle env r w).2) w rs) = api_log w.
Proof.
  intros Hkey. revert w. induction rs as [|r rs IH]; intros w; simpl; [done |].
  rewrite IH. apply (silent_handle env Hkey r w).
Qed.

(** The theorem at work: alice sends a message and a group message to a
    service with no key. *)
Lemma no_key_no_api_request_witness :
  OPENAI_API_KEY scenario.no_key_env = ""
  /\ api_log (foldl (fun w r => (handle scenario.no_key_env r w).2)
               scenario.group_world
               [ChatCreateSession "alice";
                ChatSendMessage "alice" "id-0" "Hello" FieldNone FieldNone;
                GroupSendMessage "alice" "gs1" "g1" "Hello AI"])
     = [].
Proof.
  split; [reflexivity |].
  exact (no_key_no_api_request scenario.no_key_env
           [ChatCreateSession "alice";
            ChatSendMessage "alice" "id-0" "Hello" FieldNone FieldNone;
            GroupSendMessage "alice" "gs1" "g1" "Hello AI"]
           scenario.group_world eq_refl).
Defined.

(** ** routes/temp_chat_routes.py: the temporary sessions *)

#[local] Instance db_untouched_preorder : PreOrder db_untouched.
Proof.
  split.
  - intros w. unfold db_untouched. done.
  - intros w1 w2 w3 (?&?&?&?&?) (?&?&?&?&?). unfold db_untouched.
    split_and!; congruence.
Qed.

Section TempStore.
Context (env : Env).

Lemma untouched_new_uuid : respects db_untouched (new_uuid env).
Proof. intros w. unfold db_untouched. done. Qed.

Lemma untouched_utcnow : respects db_untouched (utcnow env).
Proof. intros w. unfold db_untouched. done. Qed.

Lemma untouched_api_call r : respects db_untouched (api_call env r).
Proof.
  intros w. unfold api_call, db_untouched. by destruct (openai env _ r).
Qed.

Lemma untouched_temp_modify sid f :
  respects db_untouched (temp_chat_routes.temp_modify sid f).
Proof. intros w. unfold db_untouched. done. Qed.

Lemma untouched_temp_read sid :
  respects db_untouched (temp_chat_routes.temp_read sid).
Proof.
  intros w. unfold temp_chat_routes.temp_read.
  destruct (TEMP_SESSIONS w !! sid); reflexivity.
Qed.

End TempStore.

Ltac untouched_step :=
  first
    [ apply untouched_new_uuid | apply untouched_utcnow | apply untouched_api_call
    | apply untouched_temp_modify | apply untouched_temp_read
    | respects_step ].

(** X7.  The temporary chat never reaches the database: whatever the request,
    the state of the table and the answers of the API, creating a
    temporary session and sending a message to one send no operation to
    the database and leave the four collections as they are. *)
Theorem temp_routes_leave_database (env : Env) (w : World)
    (uid sid message : string) (audio image : FileField) :
  db_untouched w (temp_chat_routes.create_temp_session env uid w).2
  /\ db_untouched w
       (temp_chat_routes.send_temp_message env uid sid message audio image w).2.
Proof.
  split.
  - revert w.
    change (respects db_untouched (temp_chat_routes.create_temp_session env uid)).
    unfold temp_chat_routes.create_temp_session.
    repeat first [untouched_step | solve [intros w; unfold db_untouched; done]].
  - revert w.
    change (respects db_untouched
              (temp_chat_routes.send_temp_message env uid sid message audio image)).
    unfold temp_chat_routes.send_temp_message. cbv zeta.
    apply respects_try_reraise; [apply _ | | intros ?; untouched_step].
    intros w. cbv beta.
    destruct (TEMP_SESSIONS w !! sid) as [cs|]; [| reflexivity].
    match goal with
    | |- _ ?w0 (?m ?w0).2 => revert w0; change (respects db_untouched m)
    end.
    unfold get_ai_response, read_user_text, read_image,
      openai_service.chat_completion, openai_service.generate_title,
      openai_service.transcribe_audio, openai_service._ensure_async_initialized.
    repeat untouched_step.
Qed.

(** X8.  Creating a temporary session cannot fail: the answer is always the
    201 response, for a session without messages titled Temporary Chat,
    put in the table under the identifier drawn (in place of whatever the
    table had there).  A message sent to it by any other user is refused
    with a 403, and a message to an identifier the table does not have
    with a 404, before anything else is looked at. *)
Theorem temp_create_then_send (env : Env) (w : World) (uid : string) :
  let sid := uuid4 env (uuid_draws w) in
  let created :=
    {| session_id := sid; user_id := uid; title := "Temporary Chat";
       messages := []; created_at := clock env (clock_reads w);
       updated_at := clock env (S (clock_reads w)) |} in
  let run := temp_chat_routes.create_temp_session env uid w in
  run.1 = Return {| scr_session_id := sid; scr_user_id := uid;
                    scr_title := "Temporary Chat";
                    scr_message := "Temporary session created successfully";
                    scr_created_at := clock env (clock_reads w) |}
  /\ TEMP_SESSIONS run.2 = <[sid := created]> (TEMP_SESSIONS w)
  /\ (forall other message audio image, other <> uid ->
        (temp_chat_routes.send_temp_message env other sid message audio image
           run.2).1
        = Raise (HTTPException 403 "Session does not belong to user"))
  /\ (forall anyone unknown message audio image,
        unknown <> sid -> TEMP_SESSIONS w !! unknown = None ->
        (temp_chat_routes.send_temp_message env anyone unknown message audio
           image run.2).1
        = Raise (HTTPException 404
            "Temporary session not found (it may have been cleared on server restart)")).
Proof.
  intros sid created run.
  assert (TEMP_SESSIONS run.2 = <[sid := created]> (TEMP_SESSIONS w)) as Ht
    by reflexivity.
  split; [reflexivity |]. split; [exact Ht |]. split.
  - intros other message audio image Hne.
    apply (temp_send_other_owner env run.2 sid other message audio image created).
    + rewrite Ht. apply lookup_insert_eq.
    + simpl. congruence.
  - intros anyone unknown message audio image Hne Hnone.
    apply temp_send_unknown. rewrite Ht.
    rewrite lookup_insert_ne by done. exact Hnone.
Qed.

(** The theorem at work: bob writes to the temporary session of alice. *)
Lemma temp_create_then_send_witness :
  "bob" <> "alice"
  /\ (temp_chat_routes.send_temp_message scenario.env "bob" "id-0" "Hi"
        FieldNone FieldNone
        (temp_chat_routes.create_temp_session scenario.env "alice" empty_world).2).1
     = Raise (HTTPException 403 "Session does not belong to user").
Proof.
  assert ("bob" <> "alice") as Hne by discriminate.
  split; [exact Hne |].
  destruct (temp_create_then_send scenario.env empty_world "alice")
    as (_ & _ & Hother & _).
  exact (Hother "bob" "Hi" FieldNone FieldNone Hne).
Defined.

Section TempSendRuns.
Context (env : Env).

(** The title block of the temporary send: it never raises, and leaves
    the session in the table with the messages it had. *)
Lemma temp_title_block_run sid (first : bool) (text : string) (cs : ChatSession) w :
  OPENAI_API_KEY env <> "" ->
  TEMP_SESSIONS w !! sid = Some cs ->
  exists w1 cs1,
    when first
      (try_except
         (generated_title <- openai_service.generate_title env text ;;
          temp_chat_routes.temp_modify sid (set_title generated_title))
         (fun _ =>
            temp_chat_routes.temp_modify sid
              (set_title (route_title_fallback text)))) w
    = (Return tt, w1)
    /\ TEMP_SESSIONS w1 !! sid = Some cs1
    /\ messages cs1 = messages cs.
Proof.
  intros Hkey Hcs. destruct first; simpl; [| by exists w, cs].
  unfold try_except, bind. rewrite generate_title_run by done.
  destruct (String.length text <=? 40); simpl.
  - eexists _, _. split; [done |]. simpl. rewrite lookup_alter_eq, Hcs. done.
  - destruct (openai env _ _); simpl;
      (eexists _, _; split; [done |]; simpl; rewrite lookup_alter_eq, Hcs; done).
Qed.

End TempSendRuns.

(** X9.  A temporary send whose reply generation fails is not undone: the
    handler works on the stored session itself, so the message of the
    user, appended before the API is asked, stays in the session when
    the answer is the 500; the persisted chat route, which writes once
    at the end, stores nothing in the same situation. *)
Theorem temp_send_failure_keeps_user_message (env : Env) (w : World)
    (uid sid message e : string) (audio image : FileField) (cs : ChatSession) :
  TEMP_SESSIONS w !! sid = Some cs ->
  user_id cs = uid ->
  normalize_field audio = None ->
  message <> "" ->
  OPENAI_API_KEY env <> "" ->
  (forall k msgs,
     openai env k (chat_completions_create "gpt-4o" msgs 2000) = Throws e) ->
  let run := temp_chat_routes.send_temp_message env uid sid message audio image w in
  run.1 = Raise (HTTPException 500
                   ("OpenAI API error: " +:+ "OpenAI API Error: " +:+ e))
  /\ exists cs' m,
       TEMP_SESSIONS run.2 !! sid = Some cs'
       /\ messages cs' = messages cs ++ [m]
       /\ role m = user
       /\ chat_routes.extract_text_from_content (content m) = message.
Proof.
  intros Hcs Hown Haudio Hne Hkey Hfail run.
  assert (exists w' cs' m,
            run = (Raise (HTTPException 500
                     ("OpenAI API error: " +:+ "OpenAI API Error: " +:+ e)), w')
            /\ TEMP_SESSIONS w' !! sid = Some cs'
            /\ messages cs' = messages cs ++ [m]
            /\ role m = user
            /\ chat_routes.extract_text_from_content (content m) = message)
    as (w' & cs' & m & -> & H); [| split; [done | by exists cs', m]].
  subst run.
  unfold temp_chat_routes.send_temp_message, try_except_reraise_http.
  unfold try_except at 1. rewrite Hcs, Haudio.
  apply String.eqb_eq in Hown. rewrite Hown. cbn [negb].
  unfold bind at 1. cbn [read_user_text ret].
  rewrite (truthy_ne _ Hne). cbn [negb andb].
  unfold bind at 1. rewrite read_image_run.
  set (image_data := _ <$> normalize_field image).
  unfold bind at 1.
  destruct (temp_title_block_run env sid ((length (messages cs) =? 0) && true)
              message cs w Hkey Hcs) as (w1 & cs1 & -> & Hcs1 & Hm1).
  unfold bind at 1. unfold utcnow at 1.
  unfold bind at 1. unfold temp_chat_routes.temp_modify at 1.
  unfold bind at 1. unfold temp_chat_routes.temp_read at 1.
  cbn [TEMP_SESSIONS set_TEMP_SESSIONS set_clock_reads].
  rewrite lookup_alter_eq, Hcs1. cbn [fmap option_fmap option_map].
  unfold bind at 1. unfold get_ai_response. unfold try_except at 1.
  rewrite chat_completion_run, (truthy_ne _ Hkey). cbv zeta. rewrite Hfail.
  cbn [raise str_exn].
  eexists _, _, _. split; [reflexivity |].
  cbn [TEMP_SESSIONS set_TEMP_SESSIONS set_clock_reads set_api_log].
  rewrite lookup_alter_eq, Hcs1. cbn [fmap option_fmap option_map].
  split; [reflexivity |]. cbn [messages append_message role content].
  split; [by rewrite Hm1 |]. split; [done |].
  unfold user_content_of, chat_routes.extract_text_from_content.
  destruct message; [done |]. by destruct image_data.
Qed.

(** The theorem at work: alice writes to her temporary session while the
    API is unreachable. *)
Lemma temp_send_failure_keeps_user_message_witness :
  let w := (temp_chat_routes.create_temp_session scenario.offline_env "alice"
              empty_world).2 in
  let run :=
    temp_chat_routes.send_temp_message scenario.offline_env "alice" "id-0"
      "Hello" FieldNone FieldNone w in
  "Hello" <> ""
  /\ OPENAI_API_KEY scenario.offline_env <> ""
  /\ run.1 = Raise (HTTPException 500
               "OpenAI API error: OpenAI API Error: Connection error.").
Proof.
  intros w run.
  assert ("Hello" <> "") as Hne by discriminate.
  assert (OPENAI_API_KEY scenario.offline_env <> "") as Hkey by discriminate.
  split; [exact Hne |]. split; [exact Hkey |].
  exact (proj1 (temp_send_failure_keeps_user_message scenario.offline_env w
                  "alice" "id-0" "Hello" "Connection error." FieldNone FieldNone
                  {| session_id := "id-0"; user_id := "alice";
                     title := "Temporary Chat"; messages := [];
                     created_at := 1500; updated_at := 2100 |}
                  eq_refl eq_refl eq_refl Hne Hkey (fun _ _ => eq_refl))).
Defined.

(** ** routes/chat_routes.py: creating, reading and validating *)

Section InsertFacts.
Context {A : Type}.
Implicit Types (p : A -> bool) (c : Collection A).

(** A document inserted in a collection where nothing matches the filter
    is what the filter finds afterwards, if it matches. *)
Lemma find_slot_insert_None p c d :
  find_slot p c = None ->
  find_slot p (coll_insert_one d c) = if p d then Some (length c, d) else None.
Proof.
  unfold coll_insert_one.
  induction c as [|[d0|] c IH]; simpl.
  - by destruct (p d).
  - destruct (p d0); [done |].
    destruct (find_slot p c) as [[i d']|]; [done |]. intros _.
    rewrite IH by done. by destruct (p d).
  - destruct (find_slot p c) as [[i d']|]; [done |]. intros _.
    rewrite IH by done. by destruct (p d).
Qed.

Lemma coll_find_one_insert_None p c d :
  coll_find_one p c = None ->
  coll_find_one p (coll_insert_one d c) = if p d then Some d else None.
Proof.
  unfold coll_find_one. intros H.
  rewrite find_slot_insert_None; [by destruct (p d) |].
  by destruct (find_slot p c).
Qed.

End InsertFacts.

(** X10.  A session that was just created is read back by its owner as
    it was stored: titled New Chat, without messages, and with the two
    clock readings of its creation cut to the millisecond, so that the
    creation date of the history is at most the one the creation
    response gave, and differs from it whenever the clock was not read on
    a whole millisecond.  The session is not found for any other user.
    This holds as long as the identifier drawn is not the one of a stored
    session and the database answers. *)
Theorem chat_create_then_history (env : Env) (w : World) (uid : string) :
  let n := length (db_log w) in
  let sid := uuid4 env (uuid_draws w) in
  let run := chat_routes.create_session env uid w in
  db_fault env n = None -> db_fault env (S n) = None ->
  (forall d, Some d ∈ chat_sessions w -> session_id d <> sid) ->
  run.1 = Return {| scr_session_id := sid; scr_user_id := uid;
                    scr_title := "New Chat";
                    scr_message := "Session created successfully";
                    scr_created_at := clock env (clock_reads w) |}
  /\ (chat_routes.get_session_history env sid uid run.2).1
     = Return {| shr_session_id := sid; shr_user_id := uid;
                 shr_title := "New Chat"; shr_messages := [];
                 shr_created_at := bson_cut (clock env (clock_reads w));
                 shr_updated_at := bson_cut (clock env (S (clock_reads w))) |}
  /\ bson_cut (clock env (clock_reads w)) <= clock env (clock_reads w)
  /\ (forall other, other <> uid ->
        (chat_routes.get_session_history env sid other run.2).1
        = Raise chat_routes.not_found).
Proof.
  intros n sid run Hdb0 Hdb1 Hfresh.
  assert (run = (Return {| scr_session_id := sid; scr_user_id := uid;
                           scr_title := "New Chat";
                           scr_message := "Session created successfully";
                           scr_created_at := clock env (clock_reads w) |},
                 set_chat_sessions
                   (coll_insert_one
                      {| session_id := sid; user_id := uid; title := "New Chat";
                         messages := [];
                         created_at := bson_of_datetime (clock env (clock_reads w));
                         updated_at :=
                           bson_of_datetime (clock env (S (clock_reads w))) |}
                      (chat_sessions w))
                   (set_db_log (db_log w ++ [insert_one_call "chat_sessions"])
                      (set_clock_reads (S (S (clock_reads w)))
                         (set_uuid_draws (S (uuid_draws w)) w))))) as Hrun.
  { subst run. unfold chat_routes.create_session, try_except, bind, insert_one,
      db_call. simpl. fold n. by rewrite Hdb0. }
  assert (forall u, coll_find_one (chat_routes.by_session_and_user sid u)
                      (chat_sessions w) = None) as Hnone.
  { intros u. apply coll_find_one_None. intros d Hd.
    apply not_true_is_false. rewrite chat_filter_spec.
    intros [Hs _]. by apply (Hfresh d Hd). }
  assert (db_fault env (length (db_log run.2)) = None) as Hdb.
  { rewrite Hrun. simpl. rewrite length_app. simpl.
    by rewrite Nat.add_1_r. }
  rewrite Hrun in *. split; [done |]. split; [| split; [apply bson_cut_le |]].
  - unfold chat_routes.get_session_history, try_except_reraise_http, try_except,
      bind, find_one.
    rewrite db_call_ok by done. simpl.
    rewrite coll_find_one_insert_None by apply Hnone.
    unfold chat_routes.by_session_and_user. simpl.
    by rewrite !String.eqb_refl.
  - intros other Hne.
    unfold chat_routes.get_session_history, try_except_reraise_http, try_except,
      bind, find_one.
    rewrite db_call_ok by done. simpl.
    rewrite coll_find_one_insert_None by apply Hnone.
    unfold chat_routes.by_session_and_user. simpl.
    assert ((uid =? other)%string = false) as ->
      by (apply String.eqb_neq; congruence).
    by rewrite andb_false_r.
Qed.

(** The theorem at work: alice creates a session in an empty store, at
    1500 and 2100 microseconds; read back, the dates are 1000 and 2000. *)
Lemma chat_create_then_history_witness :
  let run := chat_routes.create_session scenario.env "alice" empty_world in
  run.1 = Return {| scr_session_id := "id-0"; scr_user_id := "alice";
                    scr_title := "New Chat";
                    scr_message := "Session created successfully";
                    scr_created_at := 1500 |}
  /\ (chat_routes.get_session_history scenario.env "id-0" "alice" run.2).1
     = Return {| shr_session_id := "id-0"; shr_user_id := "alice";
                 shr_title := "New Chat"; shr_messages := [];
                 shr_created_at := 1000; shr_updated_at := 2000 |}
  /\ (chat_routes.get_session_history scenario.env "id-0" "bob" run.2).1
     = Raise chat_routes.not_found.
Proof.
  intros run.
  destruct (chat_create_then_history scenario.env empty_world "alice"
              eq_refl eq_refl) as (Hresp & Hown & _ & Hother).
  { intros d Hd. by apply elem_of_nil in Hd. }
  split; [exact Hresp |]. split; [exact Hown |]. apply Hother. discriminate.
Defined.

(** X11.  A message with no text, no audio file and no image file is refused
    with a 400 once the session is found: a file field that arrives as a
    string (what a form sends for an empty file input) counts as no
    file.  The lookup is the only thing that happened: no request to the
    API, no clock reading, no write. *)
Theorem chat_send_rejects_empty (env : Env) (w : World) (uid sid : string)
    (audio image : FileField) (cs : ChatSession) :
  db_fault env (length (db_log w)) = None ->
  coll_find_one (chat_routes.by_session_and_user sid uid) (chat_sessions w)
    = Some cs ->
  normalize_field audio = None -> normalize_field image = None ->
  chat_routes.send_message env uid sid "" audio image w
  = (Raise (HTTPException 400
              "At least one of message, audio, or image must be provided"),
     set_db_log (db_log w ++ [find_one_call "chat_sessions"]) w).
Proof.
  intros Hdb Hfind Haudio Himage.
  unfold chat_routes.send_message, try_except_reraise_http.
  unfold try_except at 1.
  unfold bind at 1. unfold find_one. rewrite db_call_ok by done.
  cbn [fst snd coll_get coll_name chat_sessions_coll chat_sessions set_db_log].
  rewrite Hfind, Haudio, Himage.
  unfold bind at 1. reflexivity.
Qed.

(** The theorem at work: a form whose two file inputs were left empty. *)
Lemma chat_send_rejects_empty_witness :
  (chat_routes.send_message scenario.env "alice" "s1" "" (FieldStr "")
     (FieldStr "") scenario.chat_world).1
  = Raise (HTTPException 400
             "At least one of message, audio, or image must be provided").
Proof.
  rewrite (chat_send_rejects_empty scenario.env scenario.chat_world "alice" "s1"
             (FieldStr "") (FieldStr "") scenario.alice_chat_session
             eq_refl eq_refl eq_refl eq_refl).
  reflexivity.
Defined.

(** X12.  An audio file that cannot be transcribed ends the send with a 400
    that embeds the error of the service, not with the 500 of the other
    upstream failures; and an audio file that transcribes to nothing,
    sent with no text and no image, is refused with the 400 that asks
    for a message, an audio or an image.  In both cases the transcription
    request is the only one sent and the stored sessions are left as
    they were. *)
Theorem chat_send_audio_rejections (env : Env) (w : World)
    (uid sid message : string) (a : UploadFile) (image : FileField)
    (cs : ChatSession) :
  db_fault env (length (db_log w)) = None ->
  OPENAI_API_KEY env <> "" ->
  coll_find_one (chat_routes.by_session_and_user sid uid) (chat_sessions w)
    = Some cs ->
  let req :=
    audio_transcriptions_create "whisper-1"
      (opt_or (filename a) "recording.webm") (file_bytes a) in
  let run := chat_routes.send_message env uid sid message (FieldUpload a) image w in
  let w' := set_api_log (api_log w ++ [req])
              (set_db_log (db_log w ++ [find_one_call "chat_sessions"]) w) in
  match openai env (length (api_log w)) req with
  | Throws e =>
      run = (Raise (HTTPException 400
                      ("Audio transcription failed: "
                       +:+ "Audio Transcription Error: " +:+ e)), w')
  | Returns t =>
      message = "" -> t = "" -> normalize_field image = None ->
      run = (Raise (HTTPException 400
                      "At least one of message, audio, or image must be provided"),
             w')
  end.
Proof.
  intros Hdb Hkey Hfind req run w'. subst run.
  destruct (openai env (length (api_log w)) req) as [t|e] eqn:Hreply;
    [intros -> -> Himage |].
  all: unfold chat_routes.send_message, try_except_reraise_http.
  all: unfold try_except at 1.
  all: unfold bind at 1; unfold find_one; rewrite db_call_ok by done.
  all: cbn [fst snd coll_get coll_name chat_sessions_coll chat_sessions
            set_db_log normalize_field].
  all: rewrite Hfind; cbn [fmap option_fmap option_map].
  all: unfold bind at 1; unfold read_user_text; unfold try_except at 1.
  all: unfold bind at 1; unfold openai_service.transcribe_audio.
  all: unfold bind at 1; rewrite ensure_initialized_key by done.
  all: unfold try_except at 1; unfold api_call.
  all: cbn [api_log set_db_log]; fold req; rewrite Hreply.
  - rewrite Himage. reflexivity.
  - reflexivity.
Qed.

(** The theorem at work: a recording sent while the API is unreachable. *)
Lemma chat_send_audio_rejections_witness :
  OPENAI_API_KEY scenario.offline_env <> ""
  /\ (chat_routes.send_message scenario.offline_env "alice" "s1" "Hello"
        (FieldUpload {| filename := None; content_type := None;
                        file_bytes := "GkXfo59ChoEB" |})
        FieldNone scenario.chat_world).1
     = Raise (HTTPException 400
         "Audio transcription failed: Audio Transcription Error: Connection error.").
Proof.
  assert (OPENAI_API_KEY scenario.offline_env <> "") as Hkey by discriminate.
  split; [exact Hkey |].
  pose proof (chat_send_audio_rejections scenario.offline_env scenario.chat_world
                "alice" "s1" "Hello"
                {| filename := None; content_type := None;
                   file_bytes := "GkXfo59ChoEB" |}
                FieldNone scenario.alice_chat_session eq_refl Hkey eq_refl) as H.
  simpl in H. by rewrite H.
Defined.

(** ** routes/chat_routes.py: what a send stores *)

(** X13.  A later message of a conversation (the session already has
    messages), sent as text with or without an image while the API and
    the database answer: the request to the API carries the whole history
    as read from the database, followed by the new message, with no bound
    on its length; the response carries the reply, the title the session
    had and the second clock reading of the send; and the history read
    afterwards is the former history followed by the message of the user
    and the reply, in this order, each with its clock reading cut to the
    millisecond, the session being stamped with the third clock reading
    of the send, cut likewise. *)
Theorem chat_send_then_history (env : Env) (w : World)
    (uid sid message reply : string) (audio image : FileField) (cs : ChatSession) :
  (forall n, db_fault env n = None) ->
  OPENAI_API_KEY env <> "" ->
  coll_find_one (chat_routes.by_session_and_user sid uid) (chat_sessions w)
    = Some cs ->
  messages cs <> [] ->
  normalize_field audio = None ->
  pystr.truthy message || bool_decide (is_Some (normalize_field image)) = true ->
  let read := of_bson chat_sessions_coll cs in
  let image_data :=
    (fun i => "data:" +:+ opt_or (content_type i) "image/jpeg"
              +:+ ";base64," +:+ b64encode env (file_bytes i))
    <$> normalize_field image in
  let user_message :=
    {| role := user; content := user_content_of message image_data;
       timestamp := clock env (clock_reads w) |} in
  let assistant_message :=
    {| role := assistant; content := ContentStr reply;
       timestamp := clock env (S (clock_reads w)) |} in
  let req :=
    chat_completions_create "gpt-4o"
      (map api_message_of (messages read ++ [user_message])) 2000 in
  openai env (length (api_log w)) req = Returns reply ->
  let run := chat_routes.send_message env uid sid message audio image w in
  run.1 = Return {| cr_session_id := sid; cr_title := title cs;
                    cr_message := reply;
                    cr_timestamp := clock env (S (clock_reads w)) |}
  /\ api_log run.2 = api_log w ++ [req]
  /\ (chat_routes.get_session_history env sid uid run.2).1
     = Return {| shr_session_id := session_id cs; shr_user_id := user_id cs;
                 shr_title := title cs;
                 shr_messages :=
                   messages read
                   ++ [Message_dates bson_cut user_message;
                       Message_dates bson_cut assistant_message];
                 shr_created_at := created_at read;
                 shr_updated_at := bson_cut (clock env (S (S (clock_reads w)))) |}.
Proof.
  intros Hdb Hkey Hfind Hlater Haudio Hvalid read image_data user_message
    assistant_message req Hreply run.
  pose proof (coll_find_one_matches _ _ _ Hfind) as Hkeyed.
  set (w2 := set_db_log (db_log w ++ [find_one_call "chat_sessions"]) w).
  assert (read_user_text env message (normalize_field audio) w2
          = (Return message, w2)) as Htext by (by rewrite Haudio).
  assert ((if (length (messages read) =? 0) && pystr.truthy message
           then
             try_except
               (generated_title <- openai_service.generate_title env message ;;
                ret (set_title generated_title read))
               (fun _ => ret (set_title (route_title_fallback message) read))
           else ret read) w2 = (Return read, w2)) as Hblock.
  { assert ((length (messages read) =? 0) = false) as ->; [| done].
    apply Nat.eqb_neq. subst read. unfold of_bson. simpl.
    rewrite length_map. by destruct (messages cs). }
  pose proof (chat_send_after_title env w w2 w2 uid sid message audio image
                cs read message (Hdb _) Hkey Hfind Htext Hvalid Hblock) as Hrun.
  cbv zeta in Hrun. fold image_data in Hrun.
  cbn [clock_reads api_log w2 set_db_log] in Hrun.
  fold user_message req in Hrun. rewrite Hreply, Hdb in Hrun.
  subst run. rewrite Hrun. cbn [fst snd].
  split; [by destruct cs |]. split; [done |].
  unfold chat_routes.get_session_history, try_except_reraise_http, try_except,
    bind, find_one.
  rewrite db_call_ok by apply Hdb.
  cbn [fst snd coll_get coll_name chat_sessions_coll chat_sessions
       set_chat_sessions set_db_log].
  erewrite coll_find_one_update; [| exact Hfind | exact Hkeyed].
  subst read. destruct cs as [csid cuid ctitle cmsgs ccreated cupdated].
  unfold of_bson, to_bson. simpl. unfold ChatSession_dates. simpl.
  rewrite <- (assoc_L (++)). simpl.
  rewrite !map_app, Messages_to_of_bson, bson_of_datetime_of_bson.
  reflexivity.
Qed.

(** The theorem at work: a second message of alice, sent at 1500
    microseconds and answered at 2100; the stored first message dates
    from millisecond 5. *)
Lemma chat_send_then_history_witness :
  let cs := append_message {| role := user; content := ContentStr "Hi";
                              timestamp := 5 |} scenario.alice_chat_session in
  let w := set_chat_sessions [Some cs] empty_world in
  let run := chat_routes.send_message scenario.env "alice" "s1" "And now?"
               FieldNone FieldNone w in
  (forall n, db_fault scenario.env n = None)
  /\ OPENAI_API_KEY scenario.env <> ""
  /\ messages cs <> []
  /\ run.1 = Return {| cr_session_id := "s1"; cr_title := "New Chat";
                       cr_message := "Hello!"; cr_timestamp := 2100 |}
  /\ shr_messages <$>
       match (chat_routes.get_session_history scenario.env "s1" "alice" run.2).1 with
       | Return h => Some h
       | Raise _ => None
       end
     = Some [{| role := user; content := ContentStr "Hi"; timestamp := 5000 |};
             {| role := user; content := ContentStr "And now?"; timestamp := 1000 |};
             {| role := assistant; content := ContentStr "Hello!";
                timestamp := 2000 |}].
Proof.
  intros cs w run.
  assert (forall n, db_fault scenario.env n = None) as Hdb by reflexivity.
  assert (OPENAI_API_KEY scenario.env <> "") as Hkey by discriminate.
  assert (messages cs <> []) as Hne by discriminate.
  split; [exact Hdb |]. split; [exact Hkey |]. split; [exact Hne |].
  destruct (chat_send_then_history scenario.env w "alice" "s1" "And now?"
              "Hello!" FieldNone FieldNone cs Hdb Hkey eq_refl Hne eq_refl
              eq_refl eq_refl) as (Hresp & _ & Hhist).
  fold run in Hresp, Hhist. split; [exact Hresp |].
  rewrite Hhist. reflexivity.
Defined.

(** X14.  A send changes at most the session it addresses: every stored
    session that is not the one with the session id and user id of the
    request is found unchanged in its slot afterwards, whatever the
    outcome; no slot is added (the upsert of the write never inserts,
    the session having been found first); and the groups, the group
    sessions, the global-language sessions and the temporary sessions are
    left as they were. *)
Theorem chat_send_touches_one_session (env : Env) (w : World)
    (uid sid message : string) (audio image : FileField)
    (i : nat) (d : ChatSession) :
  chat_sessions w !! i = Some (Some d) ->
  chat_routes.by_session_and_user sid uid d = false ->
  let w' := (chat_routes.send_message env uid sid message audio image w).2 in
  chat_sessions w' !! i = Some (Some d)
  /\ length (chat_sessions w') = length (chat_sessions w)
  /\ groups w' = groups w
  /\ group_chat_sessions w' = group_chat_sessions w
  /\ global_language_sessions w' = global_language_sessions w
  /\ TEMP_SESSIONS w' = TEMP_SESSIONS w.
Proof.
  intros Hi Hd w'.
  destruct (chat_send_effect env uid sid message audio image w)
    as (Hgs & Hg & Hgl & Ht & _ & Hc).
  fold w' in Hgs, Hg, Hgl, Ht, Hc.
  assert (chat_sessions w' !! i = Some (Some d)
          /\ length (chat_sessions w') = length (chat_sessions w)) as [? ?];
    [| done].
  destruct Hc as [-> | (cs & cs' & Hfind & _ & ->)]; [done |].
  unfold coll_update_one. unfold coll_find_one in Hfind.
  destruct (find_slot _ (chat_sessions w)) as [[j c]|] eqn:Hslot; [| done].
  apply find_slot_Some in Hslot as (Hj & Hp & _).
  rewrite length_insert. split; [| done].
  rewrite list_lookup_insert_ne; [done |].
  intros ->. rewrite Hj in Hi. injection Hi as ->. congruence.
Qed.

(** The theorem at work: a send of alice leaves the session of bob. *)
Lemma chat_send_touches_one_session_witness :
  let bob_session :=
    {| session_id := "s2"; user_id := "bob"; title := "Recipes";
       messages := []; created_at := 8; updated_at := 9 |} in
  let w := set_chat_sessions
             [Some scenario.alice_chat_session; Some bob_session] empty_world in
  chat_sessions
    (chat_routes.send_message scenario.env "alice" "s1" "Hello" FieldNone
       FieldNone w).2 !! 1
  = Some (Some bob_session).
Proof.
  intros bob_session w.
  exact (proj1 (chat_send_touches_one_session scenario.env w "alice" "s1"
                  "Hello" FieldNone FieldNone 1 bob_session eq_refl eq_refl)).
Defined.

(** ** services/group_chat_service.py and routes/group_chat_routes.py *)

(** X15.  Creating a group: without a stored session of the user the answer is
    a 401, and nothing is drawn or written; with one, the group is
    stored under a fresh identifier with the caller as creator and sole
    member and the clock reading in milliseconds as its creation date,
    and the response counts one member and names the type of the group in
    its message. *)
Theorem group_create_run (env : Env) (w : World) (uid sid nm : string)
    (t : GroupType) :
  let n := length (db_log w) in
  db_fault env n = None -> db_fault env (S n) = None ->
  let run := group_chat_routes.create_group env uid sid nm t w in
  let w1 := set_db_log (db_log w ++ [find_one_call "group_chat_sessions"]) w in
  let group :=
    {| group_id := uuid4 env (uuid_draws w); name := nm; type := t;
       creator_id := uid; members := [uid];
       g_created_at := bson_of_datetime (clock env (clock_reads w));
       g_messages := [] |} in
  match coll_find_one (group_chat_service.by_session_and_user sid uid)
          (group_chat_sessions w) with
  | None => run = (Raise (HTTPException 401 "Invalid session or user mismatch"), w1)
  | Some _ =>
      run.1 = Return {| gr_group_id := uuid4 env (uuid_draws w); gr_name := nm;
                        gr_type := t; member_count := 1;
                        gr_message :=
                          GroupType_value t +:+ " group created successfully" |}
      /\ groups run.2 = groups w ++ [Some group]
      /\ db_log run.2
         = db_log w ++ [find_one_call "group_chat_sessions";
                        insert_one_call "groups"]
  end.
Proof.
  intros n Hdb0 Hdb1 run w1 group. subst run.
  assert (length (db_log w ++ [find_one_call "group_chat_sessions"]) = S n) as Hl1
    by (rewrite length_app; simpl; lia).
  unfold group_chat_routes.create_group, group_chat_routes.guarded,
    group_chat_service.create_group, try_except_reraise_http, try_except, bind.
  rewrite validate_session_run by done. simpl.
  destruct (coll_find_one _ (group_chat_sessions w)); [| done].
  unfold insert_one, db_call. simpl. rewrite Hl1, Hdb1. simpl.
  by rewrite <- (assoc_L (++)).
Qed.

(** The theorem at work: alice creates a business group. *)
Lemma group_create_run_witness :
  (group_chat_routes.create_group scenario.env "alice" "gs1" "Sales" BUSINESS
     scenario.group_world).1
  = Return {| gr_group_id := "id-0"; gr_name := "Sales"; gr_type := BUSINESS;
              member_count := 1;
              gr_message := "business group created successfully" |}.
Proof.
  exact (proj1 (group_create_run scenario.env scenario.group_world "alice" "gs1"
                  "Sales" BUSINESS eq_refl eq_refl)).
Defined.

(** X16.  The three refusals of a send to a group come in a fixed order, and
    none of them leaves a trace but the reads: a caller without a stored
    session gets the 401, whether or not the group exists; then an
    unknown group the 404; then a caller who is not a member the 403.  No
    identifier is drawn, no request is sent to the API and nothing is
    written. *)
Theorem group_send_rejections (env : Env) (w : World)
    (uid sid gid content : string) :
  let n := length (db_log w) in
  db_fault env n = None -> db_fault env (S n) = None ->
  let run := group_chat_routes.send_message env uid sid gid content w in
  let w1 := set_db_log (db_log w ++ [find_one_call "group_chat_sessions"]) w in
  let w2 := set_db_log (db_log w ++ [find_one_call "group_chat_sessions";
                                     find_one_call "groups"]) w in
  match coll_find_one (group_chat_service.by_session_and_user sid uid)
          (group_chat_sessions w),
        coll_find_one (group_chat_service.by_group_id gid) (groups w) with
  | None, _ =>
      run = (Raise (HTTPException 401 "Invalid session or user mismatch"), w1)
  | Some _, None => run = (Raise (HTTPException 404 "Group not found"), w2)
  | Some _, Some group =>
      uid ∉ members group ->
      run = (Raise (HTTPException 403 "User is not a member of this group"), w2)
  end.
Proof.
  intros n Hdb0 Hdb1 run w1 w2. subst run.
  assert (length (db_log w ++ [find_one_call "group_chat_sessions"]) = S n) as Hl1
    by (rewrite length_app; simpl; lia).
  destruct (coll_find_one _ (group_chat_sessions w)) as [s|] eqn:Hs;
    [destruct (coll_find_one _ (groups w)) as [group|] eqn:Hg; [intros Hmem |] |].
  all: unfold group_chat_routes.send_message, group_chat_routes.guarded,
         group_chat_service.send_message, try_except_reraise_http, try_except,
         bind.
  all: rewrite validate_session_run by done; simpl; rewrite Hs.
  3: done.
  all: unfold find_one, db_call; simpl; rewrite Hl1, Hdb1; simpl; rewrite Hg.
  all: unfold w2; rewrite <- (assoc_L (++)); simpl.
  2: done.
  rewrite <- str_in_spec in Hmem.
  apply not_true_is_false in Hmem. by rewrite Hmem.
Qed.

(** The theorem at work: bob, who has a session, writes to the group of
    alice without having joined it. *)
Lemma group_send_rejections_witness :
  (group_chat_routes.send_message scenario.env "bob" "gs2" "g1" "Hi all"
     scenario.group_world).1
  = Raise (HTTPException 403 "User is not a member of this group").
Proof.
  pose proof (group_send_rejections scenario.env scenario.group_world
                "bob" "gs2" "g1" "Hi all" eq_refl eq_refl) as H.
  simpl in H. rewrite H; [reflexivity |].
  intros Hin. apply list_elem_of_singleton in Hin. discriminate Hin.
Defined.

(** X17.  Deleting a group asks for no session: the group is looked up by its
    identifier alone, and the user id of the request is compared with the
    creator of the group.  An unknown group is a 404; anyone but the
    creator gets a 403 and the groups are left as they were; for the
    creator the group is removed.  The collection of group sessions is
    never read. *)
Theorem group_delete_authorisation (env : Env) (w : World) (gid uid : string) :
  let n := length (db_log w) in
  db_fault env n = None -> db_fault env (S n) = None ->
  let run := group_chat_routes.delete_group env gid uid w in
  let w1 := set_db_log (db_log w ++ [find_one_call "groups"]) w in
  match coll_find_one (group_chat_service.by_group_id gid) (groups w) with
  | None => run = (Raise (HTTPException 404 "Group not found"), w1)
  | Some group =>
      if String.eqb (creator_id group) uid
      then
        run.1 = Return {| dr_message := "Group deleted successfully";
                          dr_id := gid |}
        /\ groups run.2
           = (coll_delete_one (group_chat_service.by_group_id gid) (groups w)).1
        /\ db_log run.2
           = db_log w ++ [find_one_call "groups"; delete_one_call "groups"]
      else
        run = (Raise (HTTPException 403 "Only the creator can delete the group"),
               w1)
  end.
Proof.
  intros n Hdb0 Hdb1 run w1. subst run.
  assert (length (db_log w ++ [find_one_call "groups"]) = S n) as Hl1
    by (rewrite length_app; simpl; lia).
  unfold group_chat_routes.delete_group, group_chat_routes.guarded,
    group_chat_service.delete_group, try_except_reraise_http, try_except, bind,
    find_one.
  rewrite db_call_ok by done. simpl.
  destruct (coll_find_one _ (groups w)) as [group|] eqn:Hfind; [| done].
  cbn [fmap option_fmap option_map].
  change (creator_id (of_bson groups_coll group)) with (creator_id group).
  destruct (String.eqb (creator_id group) uid); simpl; [| done].
  unfold delete_one, db_call. simpl. rewrite Hl1, Hdb1. simpl.
  destruct (coll_delete_one _ (groups w)) as [c k]. simpl.
  by rewrite <- (assoc_L (++)).
Qed.

(** The theorem at work: bob tries to delete the group of alice. *)
Lemma group_delete_authorisation_witness :
  (group_chat_routes.delete_group scenario.env "g1" "bob" scenario.group_world).1
  = Raise (HTTPException 403 "Only the creator can delete the group").
Proof.
  pose proof (group_delete_authorisation scenario.env scenario.group_world
                "g1" "bob" eq_refl eq_refl) as H.
  simpl in H. by rewrite H.
Defined.

Section LastN.
Context {A : Type}.

Lemma length_last_n n (l : list A) : length (last_n n l) <= n.
Proof. unfold last_n. rewrite length_drop. lia. Qed.

Lemma length_last_n_full n (l : list A) :
  n <= length l -> length (last_n n l) = n.
Proof. intros H. unfold last_n. rewrite length_drop. lia. Qed.

Lemma last_n_snoc n (l : list A) x :
  0 < n -> last_n n (l ++ [x]) = last_n (n - 1) l ++ [x].
Proof.
  intros Hn. unfold last_n. rewrite length_app. simpl.
  rewrite drop_app_le by lia. f_equal. f_equal. lia.
Qed.

(** The messages kept are the last ones, in their order. *)
Lemma last_n_suffix n (l : list A) : last_n n l `suffix_of` l.
Proof. unfold last_n. apply suffix_drop. Qed.

End LastN.

(** X18.  The context a group send gives the API is bounded: the system
    message for the type of the group, then the last ten messages of the
    history as it stands with the new message, the new message coming
    last as a user message; so at most eleven messages whatever the
    length of the history (exactly eleven once the group has nine
    messages or more), and at most the nine most recent stored messages
    are seen by the model. *)
Theorem group_send_context_bounded (env : Env) (w : World)
    (gid sid uid content : string) (s : GroupChatSession) (group : Group) :
  let n := length (db_log w) in
  db_fault env n = None -> db_fault env (S n) = None ->
  db_fault env (S (S n)) = None ->
  OPENAI_API_KEY env <> "" ->
  coll_find_one (group_chat_service.by_session_and_user sid uid)
    (group_chat_sessions w) = Some s ->
  coll_find_one (group_chat_service.by_group_id gid) (groups w) = Some group ->
  uid ∈ members group ->
  let run := group_chat_service.send_message env gid sid uid content w in
  exists context,
    api_log run.2 = api_log w ++ [chat_completions_create "gpt-4o" context 500]
    /\ context
       = group_chat_service.system_context (type group)
         :: map group_chat_service.context_of (last_n 9 (g_messages group))
         ++ [{| am_role := user; am_content := ApiStr content |}]
    /\ length context <= 11
    /\ (9 <= length (g_messages group) -> length context = 11).
Proof.
  intros n Hdb0 Hdb1 Hdb2 Hkey Hs Hg Hmem run.
  assert (length (db_log w ++ [find_one_call "group_chat_sessions"]) = S n) as Hl1
    by (rewrite length_app; simpl; lia).
  assert (length ((db_log w ++ [find_one_call "group_chat_sessions"])
                  ++ [find_one_call "groups"]) = S (S n)) as Hl2
    by (rewrite !length_app; simpl; lia).
  eexists. split; [| split; [reflexivity |]].
  - unfold run, group_chat_service.send_message, bind.
    rewrite validate_session_run by done. simpl. rewrite Hs.
    unfold find_one, db_call. simpl. rewrite Hl1, Hdb1. simpl.
    rewrite Hg. simpl. apply str_in_spec in Hmem. rewrite Hmem. simpl.
    unfold update_one, db_call. simpl. rewrite Hl2, Hdb2. simpl.
    unfold try_except. rewrite chat_completion_run. simpl.
    rewrite context_of_last_n_dates.
    rewrite (truthy_ne _ Hkey).
    rewrite last_n_snoc by lia. rewrite map_app. simpl.
    case_upstream; reflexivity.
  - simpl. rewrite length_app, length_map. simpl.
    pose proof (length_last_n 9 (g_messages group)).
    split; [lia |]. intros Hlen. rewrite length_last_n_full by done. lia.
Qed.

(** The theorem at work: the first message of alice to her group. *)
Lemma group_send_context_bounded_witness :
  OPENAI_API_KEY scenario.env <> ""
  /\ ("alice" ∈ members scenario.study_group)
  /\ api_log (group_chat_service.send_message scenario.env "g1" "gs1" "alice"
                "Hello AI" scenario.group_world).2
     = [chat_completions_create "gpt-4o"
          [group_chat_service.system_context STUDENT;
           {| am_role := user; am_content := ApiStr "Hello AI" |}] 500].
Proof.
  assert (OPENAI_API_KEY scenario.env <> "") as Hkey by discriminate.
  assert ("alice" ∈ members scenario.study_group) as Hmem
    by apply list_elem_of_here.
  split; [exact Hkey |]. split; [exact Hmem |].
  destruct (group_send_context_bounded scenario.env scenario.group_world
              "g1" "gs1" "alice" "Hello AI" scenario.alice_group_session
              scenario.study_group eq_refl eq_refl eq_refl Hkey eq_refl eq_refl
              Hmem) as (context & Hlog & -> & _).
  exact Hlog.
Defined.

(** X19.  Joining is what opens a group to a user who has a session: before
    the join the send of a non-member is refused with the 403; after it
    the same send is accepted, stores the message of the user and
    answers with the message of the assistant, which is stored after it
    with its date in milliseconds. *)
Theorem join_then_send (env : Env) (w : World) (uid sid gid content : string)
    (s : GroupChatSession) (group : Group) :
  (forall n, db_fault env n = None) ->
  coll_find_one (group_chat_service.by_session_and_user sid uid)
    (group_chat_sessions w) = Some s ->
  coll_find_one (group_chat_service.by_group_id gid) (groups w) = Some group ->
  uid ∉ members group ->
  let joined := (group_chat_service.join_group env uid sid gid w).2 in
  let before := group_chat_service.send_message env gid sid uid content w in
  let after := group_chat_service.send_message env gid sid uid content joined in
  before.1 = Raise (HTTPException 403 "User is not a member of this group")
  /\ groups before.2 = groups w
  /\ exists reply stored,
       after.1 = Return reply
       /\ is_ai reply = true /\ gm_user_id reply = "AI"
       /\ coll_find_one (group_chat_service.by_group_id gid) (groups after.2)
          = Some stored
       /\ members stored = members group ++ [uid]
       /\ exists m,
            g_messages stored
            = g_messages group ++ [m; GroupMessage_dates bson_of_datetime reply]
            /\ gm_user_id m = uid /\ gm_content m = content
            /\ is_ai m = false.
Proof.
  intros Hdb Hs Hg Hnot joined before after.
  assert (group_chat_service.by_group_id gid group = true) as Hkeyed
    by exact (coll_find_one_matches _ _ _ Hg).
  assert (str_in uid (members group) = false) as Hout.
  { apply not_true_is_false. by rewrite str_in_spec. }
  assert (before = (Raise (HTTPException 403 "User is not a member of this group"),
                    set_db_log ((db_log w ++ [find_one_call "group_chat_sessions"])
                                ++ [find_one_call "groups"]) w)) as Hbefore.
  { unfold before, group_chat_service.send_message, bind.
    rewrite validate_session_run by done. simpl. rewrite Hs.
    unfold find_one. rewrite db_call_ok by done. simpl.
    rewrite Hg. simpl. by rewrite Hout. }
  split; [by rewrite Hbefore |]. split; [by rewrite Hbefore |].
  set (member := set_members (members group ++ [uid]) group).
  assert (group_chat_sessions joined = group_chat_sessions w
          /\ coll_find_one (group_chat_service.by_group_id gid) (groups joined)
             = Some member) as [Hsessions Hstored].
  { unfold joined.
    rewrite (join_group_run env w uid sid gid s group Hdb Hs Hg).
    cbv zeta. rewrite Hout. cbn [fst snd]. split; [done |].
    cbn [groups set_groups].
    by apply (coll_find_one_update _ (set_members (members group ++ [uid]))). }
  assert (uid ∈ members member) as Hmem.
  { simpl. apply elem_of_app. right. apply list_elem_of_here. }
  rewrite <- Hsessions in Hs.
  pose proof (group_send_run env joined gid sid uid content s member
                (Hdb _) (Hdb _) (Hdb _) Hs Hstored Hmem) as Hrun.
  cbv zeta in Hrun. destruct Hrun as (_ & Hrun). rewrite Hdb in Hrun.
  fold after in Hrun. destruct Hrun as (Hret & Hgroups).
  match type of Hgroups with
  | _ = coll_update_one _ (push_message (GroupMessage_dates _ ?ai)) None
          (coll_update_one _ (push_message ?um) None _) =>
      set (ai_message := ai) in *; set (user_message := um) in *
  end.
  set (stored_ai := GroupMessage_dates bson_of_datetime ai_message) in *.
  exists ai_message, (push_message stored_ai (push_message user_message member)).
  split; [exact Hret |]. split; [done |]. split; [done |].
  split.
  - rewrite Hgroups.
    apply (coll_find_one_update _ (push_message stored_ai) None _
             (push_message user_message member)); [| exact Hkeyed].
    apply (coll_find_one_update _ (push_message user_message) None _ member);
      [exact Hstored | exact Hkeyed].
  - split; [done |]. exists user_message. simpl.
    split; [by rewrite <- (assoc_L (++)) |]. done.
Qed.

(** The theorem at work: bob joins the study group, then writes to it. *)
Lemma join_then_send_witness :
  let joined :=
    (group_chat_service.join_group scenario.env "bob" "gs2" "g1"
       scenario.group_world).2 in
  (forall n, db_fault scenario.env n = None)
  /\ ("bob" ∉ members scenario.study_group)
  /\ (group_chat_service.send_message scenario.env "g1" "gs2" "bob" "Hi all"
        scenario.group_world).1
     = Raise (HTTPException 403 "User is not a member of this group")
  /\ gm_content <$>
       match (group_chat_service.send_message scenario.env "g1" "gs2" "bob"
                "Hi all" joined).1 with
       | Return m => Some m
       | Raise _ => None
       end
     = Some "Hello!".
Proof.
  intros joined.
  assert (forall n, db_fault scenario.env n = None) as Hdb by reflexivity.
  assert ("bob" ∉ members scenario.study_group) as Hnot.
  { simpl. intros Hin. apply list_elem_of_singleton in Hin. discriminate Hin. }
  split; [exact Hdb |]. split; [exact Hnot |].
  destruct (join_then_send scenario.env scenario.group_world "bob" "gs2" "g1"
              "Hi all" scenario.bob_group_session scenario.study_group
              Hdb eq_refl eq_refl Hnot) as (Hbefore & _ & _).
  split; [exact Hbefore | reflexivity].
Defined.

(** ** services/global_language_service.py and its routes *)

(** X20.  A chat interaction of the global-language service is stateless
    towards the model: the one request it sends carries the system
    prompt that names the target language and the message, never the
    earlier interactions of the session.  When the reply comes, the
    interaction is appended to the session, and the history read
    afterwards is the former one followed by it (of type chat, with the
    message, the reply, the language, no audio and the clock reading cut
    to the millisecond).  When the API throws,
    the answer is a 500 that embeds the error, no identifier is drawn and
    the stored sessions are left as they were. *)
Theorem global_chat_then_history (env : Env) (w : World)
    (sid uid message lang : string) (s : GlobalSession) :
  (forall n, db_fault env n = None) ->
  OPENAI_API_KEY env <> "" ->
  coll_find_one (global_language_service.by_session_id sid)
    (global_language_sessions w) = Some s ->
  let req :=
    chat_completions_create "gpt-4o"
      [global_language_service.chat_system_prompt lang;
       {| am_role := user; am_content := ApiStr message |}] 500 in
  let run := global_language_routes.process_chat env sid uid message lang w in
  api_log run.2 = api_log w ++ [req]
  /\ match openai env (length (api_log w)) req with
     | Returns reply =>
         run.1 = Return {| response_text := reply; gcr_target_language := lang |}
         /\ (global_language_routes.get_history env sid run.2).1
            = Return {| hr_session_id := sid;
                        hr_interactions :=
                          interactions (of_bson global_language_sessions_coll s)
                          ++ [{| interaction_id := uuid4 env (uuid_draws w);
                                 i_type := CHAT; user_input := message;
                                 ai_response := reply; target_language := lang;
                                 audio_url := None;
                                 i_timestamp :=
                                   bson_cut (clock env (clock_reads w)) |}] |}
     | Throws e =>
         run.1 = Raise (HTTPException 500
                   ("AI Response generation failed: " +:+ "OpenAI API Error: "
                    +:+ e))
         /\ global_language_sessions run.2 = global_language_sessions w
         /\ uuid_draws run.2 = uuid_draws w
     end.
Proof.
  intros Hdb Hkey Hs req run.
  pose proof (coll_find_one_matches _ _ _ Hs) as Hkeyed.
  destruct (openai env (length (api_log w)) req) as [reply|e] eqn:Hreply.
  - assert (run = (Return {| response_text := reply; gcr_target_language := lang |},
                   set_global_language_sessions
                     (coll_update_one (global_language_service.by_session_id sid)
                        (push_interaction
                           {| interaction_id := uuid4 env (uuid_draws w);
                              i_type := CHAT; user_input := message;
                              ai_response := reply; target_language := lang;
                              audio_url := None;
                              i_timestamp :=
                                bson_of_datetime (clock env (clock_reads w)) |})
                        None (global_language_sessions w))
                     (set_db_log
                        ((db_log w ++ [find_one_call "global_language_sessions"])
                         ++ [update_one_call "global_language_sessions"])
                        (set_clock_reads (S (clock_reads w))
                           (set_uuid_draws (S (uuid_draws w))
                              (set_api_log (api_log w ++ [req]) w))))))
      as ->.
    { unfold run, global_language_routes.process_chat,
        global_language_routes.guarded,
        global_language_service.process_chat_interaction,
        try_except_reraise_http, try_except, bind.
      rewrite gl_get_session_run by done. simpl. rewrite Hs.
      rewrite chat_completion_run, (truthy_ne _ Hkey). simpl.
      fold req. rewrite Hreply. simpl.
      unfold global_language_service._add_interaction, update_one.
      rewrite db_call_ok by apply Hdb. simpl.
      by rewrite (coll_update_one_ext _ _ _ _ _ (stored_push_interaction _)). }
    split; [done |]. split; [done |].
    rewrite gl_history_run by apply Hdb. simpl.
    erewrite coll_find_one_update; [| exact Hs | exact Hkeyed].
    unfold of_bson. simpl. by rewrite map_app.
  - assert (run = (Raise (HTTPException 500
                            ("AI Response generation failed: "
                             +:+ "OpenAI API Error: " +:+ e)),
                   set_api_log (api_log w ++ [req])
                     (set_db_log
                        (db_log w ++ [find_one_call "global_language_sessions"])
                        w))) as ->; [| done].
    unfold run, global_language_routes.process_chat,
      global_language_routes.guarded,
      global_language_service.process_chat_interaction,
      try_except_reraise_http, try_except, bind.
    rewrite gl_get_session_run by done. simpl. rewrite Hs.
    rewrite chat_completion_run, (truthy_ne _ Hkey). simpl.
    fold req. by rewrite Hreply.
Qed.

(** The theorem at work: a question of alice, to be answered in French. *)
Lemma global_chat_then_history_witness :
  let run := global_language_routes.process_chat scenario.env "s1" "alice"
               "Where is the station?" "French" scenario.global_world in
  (forall n, db_fault scenario.env n = None)
  /\ OPENAI_API_KEY scenario.env <> ""
  /\ (global_language_routes.get_history scenario.env "s1" run.2).1
     = Return {| hr_session_id := "s1";
                 hr_interactions :=
                   [{| interaction_id := "id-0"; i_type := CHAT;
                       user_input := "Where is the station?";
                       ai_response := "Hello!"; target_language := "French";
                       audio_url := None; i_timestamp := 1000 |}] |}.
Proof.
  intros run.
  assert (forall n, db_fault scenario.env n = None) as Hdb by reflexivity.
  assert (OPENAI_API_KEY scenario.env <> "") as Hkey by discriminate.
  split; [exact Hdb |]. split; [exact Hkey |].
  pose proof (global_chat_then_history scenario.env scenario.global_world
                "s1" "alice" "Where is the station?" "French"
                scenario.alice_global_session Hdb Hkey eq_refl) as H.
  simpl in H. exact (proj2 (proj2 H)).
Defined.

(** X21.  A global-language session that was just created has an empty
    history, which the history route hands to whoever asks for it by the
    session id: the route takes no user id.  This holds as long as the
    identifier drawn is not the one of a stored session and the database
    answers. *)
Theorem global_create_then_history (env : Env) (w : World) (uid : string) :
  let n := length (db_log w) in
  let sid := uuid4 env (uuid_draws w) in
  let run := global_language_routes.create_session env uid w in
  db_fault env n = None -> db_fault env (S n) = None ->
  (forall d, Some d ∈ global_language_sessions w -> gs_session_id d <> sid) ->
  run.1 = Return {| sr_session_id := sid; sr_user_id := uid;
                    sr_message := "Global Language Session created successfully" |}
  /\ global_language_sessions run.2
     = global_language_sessions w
       ++ [Some {| gs_session_id := sid; gs_user_id := uid;
                   gs_created_at := bson_of_datetime (clock env (clock_reads w));
                   interactions := [] |}]
  /\ (global_language_routes.get_history env sid run.2).1
     = Return {| hr_session_id := sid; hr_interactions := [] |}.
Proof.
  intros n sid run Hdb0 Hdb1 Hfresh.
  assert (run = (Return {| sr_session_id := sid; sr_user_id := uid;
                           sr_message :=
                             "Global Language Session created successfully" |},
                 set_global_language_sessions
                   (coll_insert_one
                      {| gs_session_id := sid; gs_user_id := uid;
                         gs_created_at :=
                           bson_of_datetime (clock env (clock_reads w));
                         interactions := [] |}
                      (global_language_sessions w))
                   (set_db_log
                      (db_log w ++ [insert_one_call "global_language_sessions"])
                      (set_clock_reads (S (clock_reads w))
                         (set_uuid_draws (S (uuid_draws w)) w))))) as ->.
  { subst run. unfold global_language_routes.create_session,
      global_language_service.create_session, try_except, bind, insert_one,
      db_call. simpl. fold n. by rewrite Hdb0. }
  split; [done |]. split; [done |].
  rewrite gl_history_run.
  - simpl. rewrite coll_find_one_insert_None.
    + unfold global_language_service.by_session_id. simpl.
      by rewrite String.eqb_refl.
    + apply coll_find_one_None. by apply gl_no_match.
  - simpl. rewrite length_app. simpl. by rewrite Nat.add_1_r.
Qed.

(** The theorem at work: alice opens a session in an empty store. *)
Lemma global_create_then_history_witness :
  (global_language_routes.get_history scenario.env "id-0"
     (global_language_routes.create_session scenario.env "alice" empty_world).2).1
  = Return {| hr_session_id := "id-0"; hr_interactions := [] |}.
Proof.
  destruct (global_create_then_history scenario.env empty_world "alice"
              eq_refl eq_refl) as (_ & _ & H); [| exact H].
  intros d Hd. by apply elem_of_nil in Hd.
Defined.

(** ** The errors of the routes *)

Section HttpOnly.
Context {A : Type}.

Lemma http_only_try_except (m : M A) (c : nat) (f : exn -> string) w :
  http_only (try_except m (fun e => raise (HTTPException c (f e))) w).1.
Proof. unfold try_except. by destruct (m w) as [[a|e] w']. Qed.

Lemma http_only_try_reraise (m : M A) (c : nat) (f : exn -> string) w :
  http_only (try_except_reraise_http m
               (fun e => raise (HTTPException c (f e))) w).1.
Proof.
  unfold try_except_reraise_http, try_except.
  by destruct (m w) as [[a|[s d|msg]] w'].
Qed.

Lemma http_only_respond (f : A -> response) (m : M A) w :
  http_only (m w).1 -> http_only (respond f m w).1.
Proof. unfold respond, bind. by destruct (m w) as [[a|[s d|msg]] w']. Qed.

End HttpOnly.

(** X22.  No route lets an exception other than an HTTPException out: whatever
    the request, the state of the store and the answers of the database
    and of the API, the answer is a response or an HTTPException. *)
Theorem routes_raise_http_only (env : Env) (w : World) :
  (forall r, http_only (handle env r w).1)
  /\ (forall uid, http_only (chat_routes.list_user_sessions env uid w).1)
  /\ (forall audio, http_only (voice_routes.transcribe_voice env audio w).1).
Proof.
  split; [| split].
  - intros r. destruct r; unfold handle; apply http_only_respond;
      first [ apply http_only_try_except | apply http_only_try_reraise ].
  - intros uid. apply http_only_try_except.
  - intros audio. apply http_only_try_except.
Qed.

(** X23.  When the database throws at the first operation of a request, every
    route that works on the database answers with a 500 whose detail is
    the text of the exception, behind the prefix of the route (the group
    and global-language routes put none); the stored documents are left
    as they were and no request is sent to the API. *)
Theorem db_down_is_500 (env : Env) (r : request) (w : World) (s : string) :
  is_temp r = false ->
  db_fault env (length (db_log w)) = Some s ->
  let run := handle env r w in
  run.1 = Raise (HTTPException 500 (error_prefix r +:+ s))
  /\ only_logs w run.2
  /\ api_log run.2 = api_log w.
Proof.
  intros Htemp Hdb run. subst run.
  destruct r; try discriminate Htemp; clear Htemp; simpl.
  all: unfold respond, chat_routes.create_session, chat_routes.send_message,
         chat_routes.get_session_history, chat_routes.delete_session,
         group_chat_routes.create_session, group_chat_routes.create_group,
         group_chat_routes.join_group, group_chat_routes.send_message,
         group_chat_routes.get_history, group_chat_routes.delete_group,
         group_chat_routes.guarded,
         group_chat_service.create_session, group_chat_service.create_group,
         group_chat_service.join_group, group_chat_service.send_message,
         group_chat_service.get_group_history, group_chat_service.delete_group,
         group_chat_service._validate_session,
         global_language_routes.create_session,
         global_language_routes.process_chat,
         global_language_routes.get_history,
         global_language_routes.delete_session, global_language_routes.guarded,
         global_language_service.create_session,
         global_language_service.process_chat_interaction,
         global_language_service.get_history,
         global_language_service.delete_session,
         global_language_service._get_session,
         try_except_reraise_http, try_except, bind,
         insert_one, find_one, delete_one, db_call, new_uuid, utcnow.
  all: simpl; rewrite Hdb; simpl.
  all: unfold only_logs; simpl; split_and!; try done; lia.
Qed.

(** The theorem at work: a session is asked for while the database is
    down. *)
Lemma db_down_is_500_witness :
  (handle scenario.db_down_env (ChatGetHistory "s1" "alice") scenario.chat_world).1
  = Raise (HTTPException 500
             "Failed to retrieve session history: connection refused").
Proof.
  exact (proj1 (db_down_is_500 scenario.db_down_env (ChatGetHistory "s1" "alice")
                  scenario.chat_world "connection refused" eq_refl eq_refl)).
Defined.

(** X24.  The history routes only read: the one thing a history request leaves
    behind is the lookup in the log of the database.  In the group chat
    the history is handed out on the group id alone, with no check of a
    session or of membership: whoever names a stored group gets its
    messages. *)
Theorem history_routes_read_only (env : Env) (w : World) (sid uid gid : string) :
  (chat_routes.get_session_history env sid uid w).2
  = set_db_log (db_log w ++ [find_one_call "chat_sessions"]) w
  /\ (global_language_routes.get_history env sid w).2
     = set_db_log (db_log w ++ [find_one_call "global_language_sessions"]) w
  /\ (group_chat_routes.get_history env gid w).2
     = set_db_log (db_log w ++ [find_one_call "groups"]) w
  /\ (db_fault env (length (db_log w)) = None ->
      (group_chat_routes.get_history env gid w).1
      = match coll_find_one (group_chat_service.by_group_id gid) (groups w) with
        | Some group => Return (g_messages (of_bson groups_coll group))
        | None => Raise (HTTPException 404 "Group not found")
        end).
Proof.
  unfold chat_routes.get_session_history, global_language_routes.get_history,
    group_chat_routes.get_history, global_language_routes.guarded,
    group_chat_routes.guarded, global_language_service.get_history,
    global_language_service._get_session, group_chat_service.get_group_history,
    try_except_reraise_http, try_except, bind, find_one, db_call.
  simpl. split_and!.
  - destruct (db_fault env _); simpl; [done |].
    by destruct (coll_find_one _ (chat_sessions w)).
  - destruct (db_fault env _); simpl; [done |].
    by destruct (coll_find_one _ (global_language_sessions w)).
  - destruct (db_fault env _); simpl; [done |].
    by destruct (coll_find_one _ (groups w)).
  - intros ->. simpl. by destruct (coll_find_one _ (groups w)).
Qed.

(** The theorem at work: bob, who is not a member, reads the history of
    the group of alice, whose one message dates from millisecond 4. *)
Lemma history_routes_read_only_witness :
  let w := set_groups
             [Some (push_message
                      {| message_id := "m1"; gm_user_id := "alice";
                         gm_content := "Exam on Friday";
                         gm_timestamp := 4; is_ai := false |}
                      scenario.study_group)] empty_world in
  (group_chat_routes.get_history scenario.env "g1" w).1
  = Return [{| message_id := "m1"; gm_user_id := "alice";
               gm_content := "Exam on Friday"; gm_timestamp := 4000;
               is_ai := false |}].
Proof.
  intros w.
  destruct (history_routes_read_only scenario.env w "" "bob" "g1")
    as (_ & _ & _ & H).
  exact (H eq_refl).
Defined.

(** ** The title of a first message of blanks *)

(** X25.  A first message made of white space only counts as a text: it passes
    the check of the input and starts the title generation, which, for a
    message of at most 40 characters, strips it; so the session loses its
    default title for the empty string, in the response and in the
    store, and the blanks are sent to the model as the message. *)
Theorem blank_first_message_empties_title (env : Env) (w : World)
    (uid sid message reply : string) (audio image : FileField)
    (cs : ChatSession) :
  (forall n, db_fault env n = None) ->
  OPENAI_API_KEY env <> "" ->
  coll_find_one (chat_routes.by_session_and_user sid uid) (chat_sessions w)
    = Some cs ->
  messages cs = [] ->
  normalize_field audio = None ->
  message <> "" -> pystr.strip message = "" -> String.length message <= 40 ->
  (forall k req, openai env k req = Returns reply) ->
  let run := chat_routes.send_message env uid sid message audio image w in
  run.1 = Return {| cr_session_id := sid; cr_title := ""; cr_message := reply;
                    cr_timestamp := clock env (S (clock_reads w)) |}
  /\ title <$> coll_find_one (chat_routes.by_session_and_user sid uid)
                 (chat_sessions run.2)
     = Some ""
  /\ length (api_log run.2) = S (length (api_log w)).
Proof.
  intros Hdb Hkey Hfind Hfirst Haudio Hne Hblank Hshort Hreply run.
  pose proof (coll_find_one_matches _ _ _ Hfind) as Hkeyed.
  set (w2 := set_db_log (db_log w ++ [find_one_call "chat_sessions"]) w).
  assert (read_user_text env message (normalize_field audio) w2
          = (Return message, w2)) as Htext by (by rewrite Haudio).
  set (read := of_bson chat_sessions_coll cs).
  assert (messages read = []) as Hfirst' by (unfold read, of_bson; simpl; by rewrite Hfirst).
  assert ((if (length (messages read) =? 0) && pystr.truthy message
           then
             try_except
               (generated_title <- openai_service.generate_title env message ;;
                ret (set_title generated_title read))
               (fun _ => ret (set_title (route_title_fallback message) read))
           else ret read) w2 = (Return (set_title "" read), w2)) as Hblock.
  { rewrite title_block_run by done.
    rewrite Hfirst', (truthy_ne _ Hne). simpl.
    rewrite generate_title_run by done.
    by rewrite (proj2 (Nat.leb_le _ _) Hshort), Hblank. }
  assert (pystr.truthy message
          || bool_decide (is_Some (normalize_field image)) = true) as Hvalid
    by (by rewrite (truthy_ne _ Hne)).
  pose proof (chat_send_after_title env w w2 w2 uid sid message audio image
                cs _ message (Hdb _) Hkey Hfind Htext Hvalid Hblock) as Hrun.
  simpl in Hrun. rewrite Hreply, Hdb in Hrun.
  subst run. rewrite Hrun. simpl. split; [done |]. split.
  - erewrite coll_find_one_update; [done | exact Hfind |].
    by eapply chat_filter_sent.
  - rewrite length_app. simpl. lia.
Qed.

(** The theorem at work: alice sends three spaces as her first message. *)
Lemma blank_first_message_empties_title_witness :
  (forall n, db_fault scenario.env n = None)
  /\ OPENAI_API_KEY scenario.env <> ""
  /\ "   " <> "" /\ pystr.strip "   " = "" /\ String.length "   " <= 40
  /\ (chat_routes.send_message scenario.env "alice" "s1" "   " FieldNone
        FieldNone scenario.chat_world).1
     = Return {| cr_session_id := "s1"; cr_title := ""; cr_message := "Hello!";
                 cr_timestamp := 2100 |}.
Proof.
  assert (forall n, db_fault scenario.env n = None) as Hdb by reflexivity.
  assert (OPENAI_API_KEY scenario.env <> "") as Hkey by discriminate.
  assert ("   " <> "") as Hne by discriminate.
  assert (String.length "   " <= 40) as Hshort by (simpl; lia).
  split; [exact Hdb |]. split; [exact Hkey |]. split; [exact Hne |].
  split; [reflexivity |]. split; [exact Hshort |].
  exact (proj1 (blank_first_message_empties_title scenario.env
                  scenario.chat_world "alice" "s1" "   " "Hello!"
                  FieldNone FieldNone scenario.alice_chat_session
                  Hdb Hkey eq_refl eq_refl eq_refl Hne eq_refl Hshort
                  (fun _ _ => eq_refl))).
Defined.
